(** * Trading-signal engine: indicators, classifiers and the portfolio simulator

    A shallow embedding of the numeric core of the repository
    ([analysis.py], [simple_strategy.py], [strategies.py], [simulator.py],
    [strategy.py]) together with the properties stated about it.

    Conventions of the embedding.
    - A Python/NumPy float is an [fval]: an exact rational, one of the two
      infinities, or NaN.  Arithmetic on finite values is exact (rounding and
      the sign of zero are not modelled); the special values follow IEEE 754.
      What is stated about sums of money is stated through the operations
      the code performs, in its order, not through exact totals.
    - The pandas window kernels (rolling mean, exponentially weighted mean)
      follow pandas: infinite values are missing values to them.
    - A dictionary of parameters is a [gmap string pyval].
    - A raised exception is the [Raise] branch of [res]; a function that
      returns [None] for "no result" returns an [option].
    - A price table is the parsed CSV, a list of rows [(timestamp, price)];
      reading the file and checking its columns are not modelled. *)

From Stdlib Require Import QArith Lqa Lia ZArith List String.
From stdpp Require Import base option list gmap strings sorting.

Local Open Scope string_scope.

(** ** Floating-point values *)

Inductive fval : Type :=
  | Fin (q : Q)
  | PInf
  | NInf
  | NaN.

Definition of_Z (z : Z) : fval := Fin (inject_Z z).

(** Sign of a value as a comparison with zero. *)
Definition fsgn (x : fval) : comparison :=
  match x with
  | Fin q => (q ?= 0)%Q
  | PInf => Gt
  | NInf => Lt
  | NaN => Eq
  end.

Definition sgn_mul (c1 c2 : comparison) : comparison :=
  match c1, c2 with
  | Eq, _ | _, Eq => Eq
  | Lt, Lt | Gt, Gt => Gt
  | _, _ => Lt
  end.

(** The infinity of a given sign; a zero sign is the invalid operation. *)
Definition inf_of_sign (c : comparison) : fval :=
  match c with
  | Gt => PInf
  | Lt => NInf
  | Eq => NaN
  end.

Definition fneg (x : fval) : fval :=
  match x with
  | Fin q => Fin (- q)
  | PInf => NInf
  | NInf => PInf
  | NaN => NaN
  end.

Definition fadd (x y : fval) : fval :=
  match x, y with
  | NaN, _ | _, NaN => NaN
  | Fin a, Fin b => Fin (a + b)
  | PInf, NInf | NInf, PInf => NaN
  | PInf, _ | _, PInf => PInf
  | NInf, _ | _, NInf => NInf
  end.

Definition fsub (x y : fval) : fval := fadd x (fneg y).

Definition fmul (x y : fval) : fval :=
  match x, y with
  | NaN, _ | _, NaN => NaN
  | Fin a, Fin b => Fin (a * b)
  | _, _ => inf_of_sign (sgn_mul (fsgn x) (fsgn y))
  end.

(** NumPy division: a finite value over zero is an infinity, zero over zero
    is NaN. *)
Definition fdiv (x y : fval) : fval :=
  match x, y with
  | NaN, _ | _, NaN => NaN
  | Fin a, Fin b =>
      if Qeq_bool b 0 then inf_of_sign (a ?= 0)%Q else Fin (a / b)
  | Fin _, _ => Fin 0
  | _, Fin b =>
      inf_of_sign (sgn_mul (fsgn x) (if Qeq_bool b 0 then Gt else (b ?= 0)%Q))
  | _, _ => NaN
  end.

(** Comparisons; every comparison with NaN is false. *)
Definition fltb (x y : fval) : bool :=
  match x, y with
  | NaN, _ | _, NaN => false
  | Fin a, Fin b => match (a ?= b)%Q with Lt => true | _ => false end
  | NInf, NInf | PInf, _ | _, NInf => false
  | _, _ => true
  end.

Definition fleb (x y : fval) : bool :=
  match x, y with
  | NaN, _ | _, NaN => false
  | Fin a, Fin b => Qle_bool a b
  | NInf, _ | _, PInf => true
  | _, _ => false
  end.

Definition fgtb (x y : fval) : bool := fltb y x.
Definition fgeb (x y : fval) : bool := fleb y x.

(** [pd.isna] / [notna] on a scalar. *)
Definition isna (x : fval) : bool :=
  match x with NaN => true | _ => false end.

Definition notna (x : fval) : bool := negb (isna x).

(** Equality of values up to the representation of the rational. *)
Definition feq (x y : fval) : Prop :=
  match x, y with
  | Fin a, Fin b => (a == b)%Q
  | PInf, PInf | NInf, NInf | NaN, NaN => True
  | _, _ => False
  end.

(** ** Python values, exceptions *)

Inductive exn : Type := TypeError | NameError | ValueError | KeyError.

Inductive res (A : Type) : Type :=
  | Ok (a : A)
  | Raise (e : exn).
Arguments Ok {A} a.
Arguments Raise {A} e.

#[export] Instance res_ret : MRet res := fun A a => Ok a.
#[export] Instance res_bind : MBind res := fun A B f m =>
  match m with
  | Ok a => f a
  | Raise e => Raise e
  end.

(** A value held in a parameter dictionary. *)
Inductive pyval : Type :=
  | VNone
  | VInt (z : Z)
  | VFloat (f : fval).

(** Use of a value as an operand of [+], [-], [*]: [None] is a [TypeError].
    An int is taken as the float it converts to; the [OverflowError] of
    [float * int] for an int beyond the float range is not modelled (see
    [float_of]). *)
Definition py_num (v : pyval) : res fval :=
  match v with
  | VNone => Raise TypeError
  | VInt z => Ok (of_Z z)
  | VFloat f => Ok f
  end.

Definition is_num (v : pyval) : Prop :=
  match v with VNone => False | _ => True end.

Abbreviation dict := (gmap string pyval).

(** [d.get(k, dflt)] and [d.get(k)]. *)
Definition dict_get (d : dict) (k : string) (dflt : pyval) : pyval :=
  default dflt (d !! k).

Definition dict_get_none (d : dict) (k : string) : pyval :=
  dict_get d k VNone.

(** Truth value of a dictionary: empty is false. *)
Definition truthy (d : dict) : bool := negb (Nat.eqb (size d) 0).

(** ** Actions *)

Inductive Action : Type := BUY | SELL | HOLD.

#[export] Instance Action_eq_dec : EqDecision Action.
Proof. solve_decision. Defined.

(** ** [simple_strategy] ([simple_strategy.py], and the same text in
    [strategy.py]) *)

Definition simple_strategy (current_price moving_avg : fval)
    (thresholds : dict) : res Action :=
  let buy_threshold := dict_get thresholds "buy" (VFloat (Fin 0.02)) in
  let sell_threshold := dict_get thresholds "sell" (VFloat (Fin 0.03)) in
  b ← py_num buy_threshold;
  if fltb current_price (fmul moving_avg (fsub (Fin 1) b)) then Ok BUY
  else
    s ← py_num sell_threshold;
    if fgtb current_price (fmul moving_avg (fadd (Fin 1) s)) then Ok SELL
    else Ok HOLD.

(** The thresholds dictionary [{"buy": b, "sell": s}]. *)
Definition thresholds_of (b s : fval) : dict :=
  <["buy" := VFloat b]> (<["sell" := VFloat s]> ∅).

(** ** Series and data frames ([pandas]) *)

Abbreviation Series := (list fval).

(** A frame: the number of rows of its index and its named columns. *)
Record DataFrame : Type := mkFrame {
  nrows : nat;
  columns : gmap string Series
}.

(** Every column has one cell per row of the index. *)
Definition frame_wf (df : DataFrame) : Prop :=
  ∀ c s, columns df !! c = Some s → length s = nrows df.

Definition has_column (df : DataFrame) (c : string) : bool :=
  bool_decide (is_Some (columns df !! c)).

(** [df.empty]: no rows or no columns. *)
Definition frame_empty (df : DataFrame) : bool :=
  Nat.eqb (nrows df) 0 || Nat.eqb (size (columns df)) 0.

(** [df[c] = s]: the series is aligned on the frame's index; a series over
    the same index is stored as it is, missing rows become NaN. *)
Definition set_column (df : DataFrame) (c : string) (s : Series) : DataFrame :=
  mkFrame (nrows df) (<[c := resize (nrows df) NaN s]> (columns df)).

(** [vals[s:e]]. *)
Definition slice {A : Type} (s e : nat) (vals : list A) : list A :=
  take (e - s) (drop s vals).

(** *** Window kernels

    Before a rolling or exponentially weighted kernel sees a series, pandas
    turns its infinite values into NaN: they count as missing. *)
Definition prep_values (vals : Series) : Series :=
  map (λ v, match v with PInf | NInf => NaN | _ => v end) vals.

(** *** Rolling mean, [Series.rolling(window).mean()]

    The fixed-window mean keeps a running count and sum of the observations
    in the window [start(i), i+1): at each step the values that left the
    window are removed and the new one is added; the window is summed afresh
    when it does not overlap the previous one.  The result is defined once
    [min_periods = window] observations are in the window. *)

Record roll_state : Type := mkRoll { nobs : nat; sum_x : fval }.

Definition roll_init : roll_state := mkRoll 0 (Fin 0).

Definition add_mean (st : roll_state) (val : fval) : roll_state :=
  if notna val then mkRoll (S (nobs st)) (fadd (sum_x st) val) else st.

Definition remove_mean (st : roll_state) (val : fval) : roll_state :=
  if notna val then mkRoll (pred (nobs st)) (fsub (sum_x st) val) else st.

Definition calc_mean (minp : nat) (st : roll_state) : fval :=
  if (minp <=? nobs st)%nat && (0 <? nobs st)%nat
  then fdiv (sum_x st) (of_Z (Z.of_nat (nobs st)))
  else NaN.

(** First index of the window ending at [i]: [max(0, i + 1 - window)]. *)
Definition window_start (window i : nat) : nat := i + 1 - window.

Definition roll_step (window : nat) (vals : Series) (st : roll_state)
    (i : nat) : roll_state :=
  let s := window_start window i in
  if Nat.eqb i 0 || (i <=? s)%nat then
    foldl add_mean roll_init (slice s (i + 1) vals)
  else
    let st1 := foldl remove_mean st (slice (window_start window (i - 1)) s vals) in
    foldl add_mean st1 (slice i (i + 1) vals).

Fixpoint roll_mean_loop (window minp : nat) (vals : Series)
    (idxs : list nat) (st : roll_state) : Series :=
  match idxs with
  | [] => []
  | i :: rest =>
      let st' := roll_step window vals st i in
      calc_mean minp st' :: roll_mean_loop window minp vals rest st'
  end.

Definition rolling_mean (window : nat) (vals : Series) : Series :=
  let values := prep_values vals in
  roll_mean_loop window window values (seq 0 (length values)) roll_init.

(** ** [analysis.py] *)

Definition calculate_sma (data : DataFrame) (window : nat) : Series :=
  match columns data !! "Close" with
  | None => []
  | Some close => rolling_mean window close
  end.

(** [Series.diff()]: the first cell has no predecessor. *)
Definition diff (vals : Series) : Series :=
  match vals with
  | [] => []
  | _ :: tl => NaN :: zip_with fsub tl vals
  end.

(** [s.where(cond, other)], the condition read off the cell itself. *)
Definition where_ (cond : fval → bool) (other : fval) (s : Series) : Series :=
  map (λ v, if cond v then v else other) s.

Definition gain_of (delta : Series) : Series :=
  where_ (λ d, fgtb d (Fin 0)) (Fin 0) delta.

Definition loss_of (delta : Series) : Series :=
  map fneg (where_ (λ d, fltb d (Fin 0)) (Fin 0) delta).

(** [x != y] on floats: NaN differs from everything. *)
Definition fneb (x y : fval) : bool :=
  match x, y with
  | Fin a, Fin b => negb (Qeq_bool a b)
  | PInf, PInf | NInf, NInf => false
  | _, _ => true
  end.

(** *** [s.ewm(com=com, adjust=False).mean()]

    The kernel carries the weighted average and the weight [old_wt] of the
    history.  With [alpha = 1 / (1 + com)], an observation [cur] after an
    average [weighted] gives
    [(old_wt * weighted + alpha * cur) / (old_wt + alpha)], where [old_wt]
    has decayed by [1 - alpha] for every row since the last observation and
    is set back to 1; a missing value leaves the average as it is; while no
    observation has been seen the average is the current value.  The result
    is defined once [min_periods] (at least 1) observations were seen.  A
    negative [com] is refused. *)
Definition ewm_update (alpha weighted old_wt cur : fval) : fval * fval :=
  let is_observation := notna cur in
  if notna weighted then
    (* [if is_observation or not ignore_na], with [ignore_na=False] *)
    let old_wt := fmul old_wt (fsub (Fin 1) alpha) in
    if is_observation then
      let new_wt := alpha in
      (if fneb weighted cur
       then fdiv (fadd (fmul old_wt weighted) (fmul new_wt cur))
              (fadd old_wt new_wt)
       else weighted,
       Fin 1)
    else (weighted, old_wt)
  else if is_observation then (cur, old_wt)
  else (weighted, old_wt).

Fixpoint ewm_loop (alpha : fval) (minp : nat) (weighted old_wt : fval)
    (nobs : nat) (vals : Series) : Series :=
  match vals with
  | [] => []
  | cur :: rest =>
      let nobs := if notna cur then S nobs else nobs in
      let '(weighted, old_wt) := ewm_update alpha weighted old_wt cur in
      (if (minp <=? nobs)%nat then weighted else NaN)
        :: ewm_loop alpha minp weighted old_wt nobs rest
  end.

(** The kernel on a series that went through [prep_values]. *)
Definition ewm_kernel (alpha : fval) (minp : nat) (vals : Series) : Series :=
  match vals with
  | [] => []
  | x0 :: rest =>
      let weighted := x0 in
      let nobs := if notna weighted then 1%nat else 0%nat in
      (if (minp <=? nobs)%nat then weighted else NaN)
        :: ewm_loop alpha minp weighted (Fin 1) nobs rest
  end.

Definition ewm_mean (com : Z) (vals : Series) : res Series :=
  if (com <? 0)%Z then Raise ValueError
  else
    let alpha := fdiv (Fin 1) (fadd (Fin 1) (of_Z com)) in
    let min_periods := 1%nat in
    Ok (ewm_kernel alpha min_periods (prep_values vals)).

Definition fillna (x : fval) (s : Series) : Series :=
  map (λ v, if isna v then x else v) s.

(** [s.iloc[:n] = pd.NA] *)
Definition mask_head (n : nat) (s : Series) : Series :=
  replicate (n `min` length s) NaN ++ drop n s.

Definition rsi_of_rs (rs : fval) : fval :=
  fsub (Fin 100) (fdiv (Fin 100) (fadd (Fin 1) rs)).

(** The smoothed gain and loss of [calculate_rsi]. *)
Definition avg_gain_of (close : Series) (window : nat) : res Series :=
  ewm_mean (Z.of_nat window - 1) (gain_of (diff close)).

Definition avg_loss_of (close : Series) (window : nat) : res Series :=
  ewm_mean (Z.of_nat window - 1) (loss_of (diff close)).

(** The oscillator after [fillna(100)], before the warm-up is blanked. *)
Definition rsi_filled (close : Series) (window : nat) : res Series :=
  avg_gain ← avg_gain_of close window;
  avg_loss ← avg_loss_of close window;
  let rs := zip_with fdiv avg_gain avg_loss in
  let rsi := map rsi_of_rs rs in
  Ok (fillna (Fin 100) rsi).

Definition calculate_rsi (data : DataFrame) (window : nat) : res Series :=
  match columns data !! "Close" with
  | None => Ok []
  | Some close =>
      rsi ← rsi_filled close window;
      Ok (mask_head window rsi)
  end.

(** ** [strategies.py] *)

(** [df[c]] *)
Definition column (df : DataFrame) (c : string) : res Series :=
  match columns df !! c with
  | Some s => Ok s
  | None => Raise KeyError
  end.

(** The signal of one row: [buy_condition] writes 1, then
    [sell_condition] writes -1. *)
Definition signal_cell (rsi_oversold rsi_overbought : Z)
    (close sma rsi : fval) : fval :=
  let buy_condition :=
    fgtb close sma && fltb rsi (of_Z rsi_oversold) && notna sma && notna rsi in
  let sell_condition :=
    fltb close sma && fgtb rsi (of_Z rsi_overbought) && notna sma && notna rsi in
  if sell_condition then of_Z (-1)
  else if buy_condition then of_Z 1
  else of_Z 0.

Fixpoint signal_rows (rsi_oversold rsi_overbought : Z)
    (close sma rsi : Series) : Series :=
  match close, sma, rsi with
  | c :: close', s :: sma', r :: rsi' =>
      signal_cell rsi_oversold rsi_overbought c s r
        :: signal_rows rsi_oversold rsi_overbought close' sma' rsi'
  | _, _, _ => []
  end.

Definition generate_signals (data : DataFrame) (sma_window rsi_window : nat)
    (rsi_oversold rsi_overbought : Z) : res DataFrame :=
  if frame_empty data then Ok (mkFrame 0 ∅)
  else
    let data :=
      if has_column data "SMA" then data
      else set_column data "SMA" (calculate_sma data sma_window) in
    data ← (if has_column data "RSI" then Ok data
            else r ← calculate_rsi data rsi_window;
                 Ok (set_column data "RSI" r));
    let data := set_column data "Signal" (replicate (nrows data) (of_Z 0)) in
    sma ← column data "SMA";
    rsi ← column data "RSI";
    if forallb isna sma || forallb isna rsi then Ok data
    else
      close ← column data "Close";
      Ok (set_column data "Signal"
            (signal_rows rsi_oversold rsi_overbought close sma rsi)).

(** ** The price table and the configuration file *)

(** A row of the parsed CSV: [(timestamp, price)]. *)
Abbreviation PriceRow := (Z * fval)%type.

Definition ts_le (r1 r2 : PriceRow) : Prop := (r1.1 ≤ r2.1)%Z.

#[export] Instance ts_le_dec : RelDecision ts_le.
Proof. intros r1 r2. unfold ts_le. apply _. Defined.

(** [df.set_index('timestamp'); df.sort_index()].  Rows with equal
    timestamps keep their order here; pandas promises no order for them. *)
Definition sort_index (rows : list PriceRow) : list PriceRow :=
  merge_sort ts_le rows.

(** What the loader finds at the configuration path: no file, a file that
    cannot be read as a mapping (the [except] branch), or a mapping from
    strategy names to parameter sections. *)
Inductive config_file : Type :=
  | NoFile
  | BadFile
  | Config (sections : gmap string dict).

(** The rows the loop iterates over: the sorted table with its
    [moving_avg] column. *)
Definition with_moving_avg (window : nat) (rows : list PriceRow)
    : list (PriceRow * fval) :=
  let sorted := sort_index rows in
  zip sorted (rolling_mean window (sorted.*2)).

(** ** [simulator.py] *)

Module Simulator.

Definition DEFAULT_THRESHOLDS : gmap string dict :=
  {[ "simple" := thresholds_of (Fin 0.02) (Fin 0.03) ]}.

Definition load_config_for_simulator (file : config_file)
    (strategy_name : string) (passed_thresholds : option dict) : dict :=
  let from_file :=
    match file with
    | NoFile => default ∅ (DEFAULT_THRESHOLDS !! strategy_name)
    | Config config => default ∅ (config !! strategy_name)
    | BadFile => default ∅ (DEFAULT_THRESHOLDS !! strategy_name)
    end in
  match passed_thresholds with
  | Some d => if truthy d then d else from_file
  | None => from_file
  end.

(** The texts written to the [reason] field. *)
Inductive Reason : Type :=
  | InsufficientData
      (* "Insufficient data for moving average" *)
  | NotImplemented (strategy_name : string)
      (* "Strategy '{strategy_name}' not implemented" *)
  | BuyExecuted (price ma : fval)
      (* "Price=.., MA=... BUY executed." *)
  | BuyNotExecuted (price ma balance : fval) (position : Z)
      (* "Price=.., MA=... BUY recommended, but cannot execute (balance=.., position=..)." *)
  | SellExecuted (price ma : fval)
      (* "Price=.., MA=... SELL executed." *)
  | SellNotExecuted (price ma : fval)
      (* "Price=.., MA=... SELL recommended, but cannot execute (no position to sell)." *)
  | Holding (price ma : fval)
      (* "Price=.., MA=... Holding." *).

Record LogRow : Type := mkLog {
  timestamp : Z;
  user_id : string;
  symbol : string;
  side : Action;
  quantity : Z;
  strategy : string;
  reason : Reason;
  balance : fval;
  position : Z;
  portfolio_value : fval
}.

(** One iteration of the loop: the decision, the trade, the log row and
    the state carried to the next row. *)
Definition step (strategy_name : string) (current_strategy_thresholds : dict)
    (balance : fval) (position : Z) (index : Z)
    (current_price moving_avg : fval) : res (LogRow * (fval * Z)) :=
  '(action, reason, balance, position, qty) ←
    (if isna moving_avg then
       Ok (HOLD, InsufficientData, balance, position, 0%Z)
     else
       (* [reason] is assigned only for an unknown strategy, and every
          branch of the decision below assigns it again *)
       '(action, _reason) ←
         (if String.eqb strategy_name "simple" then
            action ← simple_strategy current_price moving_avg
                       current_strategy_thresholds;
            Ok (action, None)
          else Ok (HOLD, Some (NotImplemented strategy_name)));
       match action with
       | BUY =>
           let buy_quantity := 1%Z in
           if fgeb balance (fmul current_price (of_Z buy_quantity))
              && (position =? 0)%Z
           then Ok (BUY, BuyExecuted current_price moving_avg,
                    fsub balance (fmul current_price (of_Z buy_quantity)),
                    (position + buy_quantity)%Z, buy_quantity)
           else Ok (HOLD,
                    BuyNotExecuted current_price moving_avg balance position,
                    balance, position, 0%Z)
       | SELL =>
           let sell_quantity := 1%Z in
           if (sell_quantity <=? position)%Z
           then Ok (SELL, SellExecuted current_price moving_avg,
                    fadd balance (fmul current_price (of_Z sell_quantity)),
                    (position - sell_quantity)%Z, sell_quantity)
           else Ok (HOLD, SellNotExecuted current_price moving_avg,
                    balance, position, 0%Z)
       | HOLD =>
           Ok (HOLD, Holding current_price moving_avg,
               balance, position, 0%Z)
       end);
  let portfolio_value := fadd balance (fmul (of_Z position) current_price) in
  Ok (mkLog index "demo_user" "AAPL" action qty strategy_name reason
        balance position portfolio_value,
      (balance, position)).

Fixpoint simulate (strategy_name : string) (thresholds : dict)
    (rows : list (PriceRow * fval)) (balance : fval) (position : Z)
    : res (list LogRow) :=
  match rows with
  | [] => Ok []
  | (index, current_price, moving_avg) :: rest =>
      '(row, (balance, position)) ←
        step strategy_name thresholds balance position
          index current_price moving_avg;
      logs ← simulate strategy_name thresholds rest balance position;
      Ok (row :: logs)
  end.

(** [run_simulation] on a table that was read and has both columns;
    [None] is the function's "no result".  Any exception raised inside
    the body is caught by its [except Exception] and gives [None]. *)
Definition run_simulation (file : config_file) (rows : list PriceRow)
    (strategy_name : string) (thresholds : option dict)
    (initial_balance : fval) : option (list LogRow) :=
  let current_strategy_thresholds :=
    match thresholds with
    | None => load_config_for_simulator file strategy_name None
    | Some d => d
    end in
  if negb (truthy current_strategy_thresholds) then None
  else
    let balance := initial_balance in
    let position := 0%Z in
    let window_size := 5 in
    match simulate strategy_name current_strategy_thresholds
            (with_moving_avg window_size rows) balance position with
    | Raise _ => None
    | Ok [] => None
    | Ok simulation_logs => Some simulation_logs
    end.

(** What one log row may record, given the state [(bal, pos)] before it
    and the price of its timestamp. *)
Definition transition (bal : fval) (pos : Z) (index : Z) (price : fval)
    (r : LogRow) : Prop :=
  timestamp r = index ∧
  (position r = 0 ∨ position r = 1)%Z ∧
  match side r with
  | BUY =>
      fgeb bal (fmul price (of_Z 1)) = true ∧ pos = 0%Z ∧
      balance r = fsub bal (fmul price (of_Z 1)) ∧ position r = 1%Z ∧
      fltb (balance r) (Fin 0) = false ∧ quantity r = 1%Z
  | SELL =>
      (1 ≤ pos)%Z ∧
      balance r = fadd bal (fmul price (of_Z 1)) ∧
      position r = (pos - 1)%Z ∧ quantity r = 1%Z
  | HOLD => balance r = bal ∧ position r = pos ∧ quantity r = 0%Z
  end.

(** Every row of the log is a [transition] from the state its
    predecessor recorded, starting from [(bal, pos)]. *)
Fixpoint trace (rows : list (PriceRow * fval)) (bal : fval) (pos : Z)
    (log : list LogRow) : Prop :=
  match rows, log with
  | [], [] => True
  | (index, price, _) :: rows', r :: log' =>
      transition bal pos index price r
      ∧ trace rows' (balance r) (position r) log'
  | _, _ => False
  end.

End Simulator.

(** ** [strategy.py] *)

Module Strategy.

Definition DEFAULT_WINDOW_SIZE : Z := 5.

Definition default_strategy_defaults : gmap string dict :=
  {[ "simple" :=
       <["window_size" := VInt DEFAULT_WINDOW_SIZE]>
         (thresholds_of (Fin 0.02) (Fin 0.03)) ]}.

Definition load_strategy_config_for_sim (file : config_file)
    (strategy_name : string) (passed_thresholds : option dict) : dict :=
  let defaults := default ∅ (default_strategy_defaults !! strategy_name) in
  let from_file :=
    match file with
    | NoFile => defaults
    | Config config =>
        let strategy_specific_config := default ∅ (config !! strategy_name) in
        (* [combined = defaults.copy(); combined.update(section)] *)
        strategy_specific_config ∪ defaults
    | BadFile => defaults
    end in
  match passed_thresholds with
  | Some d => if truthy d then d else from_file
  | None => from_file
  end.

(** The texts written to the [reason] field. *)
Inductive Reason : Type :=
  | Initialization
      (* "Initialization" *)
  | InsufficientData (window_size : nat)
      (* "Insufficient data for moving average (window={window_size})" *)
  | NotImplemented (strategy_name : string)
      (* "Strategy '{strategy_name}' not implemented in simulator." *)
  | BuyExecuted (price ma : fval)
      (* "BUY Executed: Price=.., MA=.." *)
  | BuyRecommended (price ma balance : fval) (position : Z)
      (* "BUY Recommended, but HOLD: Price=.., MA=.. (Balance=.., Pos=..)" *)
  | SellExecuted (price ma : fval)
      (* "SELL Executed: Price=.., MA=.." *)
  | SellRecommended (price ma : fval) (position : Z)
      (* "SELL Recommended, but HOLD: Price=.., MA=.. (Pos=..)" *)
  | Hold (price ma : fval)
      (* "HOLD: Price=.., MA=.." *).

(** ["Recommended" in reason or "Executed" in reason or "Insufficient" in
    reason or "not implemented" in reason], read off the template. *)
Definition has_keyword (r : Reason) : bool :=
  match r with
  | Initialization | Hold _ _ => false
  | _ => true
  end.

Record LogRow : Type := mkLog {
  timestamp : Z;
  user_id : string;
  symbol : string;
  side : Action;
  quantity : Z;
  strategy : string;
  reason : Reason;
  balance : fval;
  position : Z;
  portfolio_value : fval
}.

(** Reading a local name that no statement of the function binds. *)
Definition unbound_name (name : string) : res Z := Raise NameError.

(** [rolling(window=v)]: the window is an integer, 0 or greater. *)
Definition rolling_window (v : pyval) : res nat :=
  match v with
  | VInt z => if (z <? 0)%Z then Raise ValueError else Ok (Z.to_nat z)
  | _ => Raise ValueError
  end.

Definition step (strategy_name : string) (current_strategy_thresholds : dict)
    (window_size : nat) (balance : fval) (position : Z) (index : Z)
    (current_price moving_avg : fval) : res (LogRow * (fval * Z)) :=
  let action := HOLD in
  let reason := Initialization in
  '(action, reason) ←
    (if isna moving_avg && String.eqb strategy_name "simple" then
       Ok (action, InsufficientData window_size)
     else if String.eqb strategy_name "simple" then
       action ← simple_strategy current_price moving_avg
                  (<["buy" := dict_get_none current_strategy_thresholds "buy"]>
                     (<["sell" := dict_get_none current_strategy_thresholds "sell"]> ∅));
       Ok (action, reason)
     else Ok (HOLD, NotImplemented strategy_name));
  '(action, reason, balance, position, quantity_to_buy_sell) ←
    match action with
    | BUY =>
        let quantity_to_buy_sell := 1%Z in
        quantity_to_buy_buy ← unbound_name "quantity_to_buy_buy";
        let cost := fmul current_price (of_Z quantity_to_buy_buy) in
        if fgeb balance cost && (position =? 0)%Z
        then Ok (BUY, BuyExecuted current_price moving_avg,
                 fsub balance cost, (position + quantity_to_buy_sell)%Z,
                 quantity_to_buy_sell)
        else Ok (HOLD,
                 BuyRecommended current_price moving_avg balance position,
                 balance, position, quantity_to_buy_sell)
    | SELL =>
        let quantity_to_buy_sell := 1%Z in
        let revenue := fmul current_price (of_Z quantity_to_buy_sell) in
        if (quantity_to_buy_sell <=? position)%Z
        then Ok (SELL, SellExecuted current_price moving_avg,
                 fadd balance revenue, (position - quantity_to_buy_sell)%Z,
                 quantity_to_buy_sell)
        else Ok (HOLD, SellRecommended current_price moving_avg position,
                 balance, position, quantity_to_buy_sell)
    | HOLD => Ok (HOLD, reason, balance, position, 0%Z)
    end;
  let reason :=
    match action with
    | HOLD => if has_keyword reason then reason
              else Hold current_price moving_avg
    | _ => reason
    end in
  let portfolio_value := fadd balance (fmul (of_Z position) current_price) in
  let quantity :=
    match action with
    | BUY | SELL => quantity_to_buy_sell
    | HOLD => 0%Z
    end in
  Ok (mkLog index "demo_user" "AAPL" action quantity strategy_name reason
        balance position portfolio_value,
      (balance, position)).

Fixpoint simulate (strategy_name : string) (thresholds : dict)
    (window_size : nat) (rows : list (PriceRow * fval))
    (balance : fval) (position : Z) : res (list LogRow) :=
  match rows with
  | [] => Ok []
  | (index, current_price, moving_avg) :: rest =>
      '(row, (balance, position)) ←
        step strategy_name thresholds window_size balance position
          index current_price moving_avg;
      logs ← simulate strategy_name thresholds window_size rest
               balance position;
      Ok (row :: logs)
  end.

(** [run_simulation] on a table that was read and has both columns.  The
    loop is outside the function's [try]: an exception raised in it leaves
    the function. *)
Definition run_simulation (file : config_file) (rows : list PriceRow)
    (strategy_name : string) (strategy_params : option dict)
    (initial_balance : fval) : res (option (list LogRow)) :=
  let current_strategy_thresholds :=
    load_strategy_config_for_sim file strategy_name strategy_params in
  if negb (truthy current_strategy_thresholds) then Ok None
  else
    let balance := initial_balance in
    let position := 0%Z in
    window_size ← rolling_window
      (dict_get current_strategy_thresholds "window_size"
         (VInt DEFAULT_WINDOW_SIZE));
    simulation_logs ← simulate strategy_name current_strategy_thresholds
      window_size (with_moving_avg window_size rows) balance position;
    match simulation_logs with
    | [] => Ok None
    | _ => Ok (Some simulation_logs)
    end.

End Strategy.

(** ** The precedence rule of the specification

    Written from the specification's words, to be compared with the two
    loaders: the caller's value first, then the file's, then the default. *)
Definition spec_precedence (caller file_section defaults : dict) : dict :=
  caller ∪ (file_section ∪ defaults).

(** ** Inputs of the scenarios *)

Definition prices_at (prices : list Z) : list PriceRow :=
  imap (λ i p, (Z.of_nat i, of_Z p)) prices.

(** Prices [100, 98, 96, 94, 92, 150] at timestamps 0 to 5. *)
Definition scenario_rows : list PriceRow :=
  prices_at [100; 98; 96; 94; 92; 150]%Z.

(** [{"buy": 0.02, "sell": 0.03, "window_size": 5}] *)
Definition scenario_params : dict :=
  <["window_size" := VInt 5]> (thresholds_of (Fin 0.02) (Fin 0.03)).

(** A caller who supplies only ["buy"], and a file whose section for
    ["simple"] supplies only ["sell"]. *)
Definition caller_buy_only : dict := {[ "buy" := VFloat (Fin 0.05) ]}.

Definition file_sell_only : config_file :=
  Config {[ "simple" := {[ "sell" := VFloat (Fin 0.10) ]} ]}.

(** A frame of eight closing prices. *)
Definition signal_frame : DataFrame :=
  mkFrame 8
    {[ "Close" := of_Z <$> [100; 98; 96; 94; 92; 150; 150; 140]%Z ]}.

(** ** The mean of the trailing window, in the specification's words *)

Definition Qsum (l : list Q) : Q := foldr Qplus 0%Q l.

(** The arithmetic mean of the [window] prices ending at index [i]. *)
Definition window_mean (window i : nat) (prices : list Q) : Q :=
  (Qsum (slice (i + 1 - window) (i + 1) prices)
   / inject_Z (Z.of_nat window))%Q.

(** ** Predicates used in the statements and invariants *)

(** The thresholds that are present are numbers. *)
Definition numeric_thresholds (th : dict) : Prop :=
  (∀ v, th !! "buy" = Some v → is_num v)
  ∧ (∀ v, th !! "sell" = Some v → is_num v).

(** The state of the rolling mean once the first [e] prices are processed:
    it counts and sums the window that ends at [e]. *)
Definition roll_inv (window : nat) (prices : list Q) (e : nat)
    (st : roll_state) : Prop :=
  (nobs st = e - (e - window))%nat
  ∧ ∃ x, sum_x st = Fin x ∧ (x == Qsum (slice (e - window) e prices))%Q.

(** What the cell of the moving average at index [i] must be. *)
Definition sma_cell (window : nat) (prices : list Q) (i : nat)
    (v : fval) : Prop :=
  ((i + 1 < window)%nat → v = NaN)
  ∧ ((window ≤ i + 1)%nat →
     ∃ m, v = Fin m ∧ (m == window_mean window i prices)%Q).

Definition nan_or_fin (v : fval) : Prop := v = NaN ∨ ∃ q, v = Fin q.

Definition fin_nonneg (v : fval) : Prop := ∃ q, v = Fin q ∧ (0 <= q)%Q.

(** The row [simulator.py] logs for an unknown strategy. *)
Definition sim_hold_row (name : string) (b : fval) (x : PriceRow * fval)
    : Simulator.LogRow :=
  Simulator.mkLog x.1.1 "demo_user" "AAPL" HOLD 0 name
    (if isna x.2 then Simulator.InsufficientData
     else Simulator.Holding x.1.2 x.2)
    b 0 (fadd b (fmul (of_Z 0) x.1.2)).

(** The row [strategy.py] logs for an unknown strategy. *)
Definition str_hold_row (name : string) (b : fval) (x : PriceRow * fval)
    : Strategy.LogRow :=
  Strategy.mkLog x.1.1 "demo_user" "AAPL" HOLD 0 name
    (Strategy.NotImplemented name)
    b 0 (fadd b (fmul (of_Z 0) x.1.2)).

(** ** [app.py]: the analysis behind the dashboard *)

(** The body of [if run_analysis and symbol] from the fetched frame to
    [data_with_signals]; [None] is the branch that only warns that no data
    was fetched.  The metrics and the charts drawn from the result are not
    modelled. *)
Definition app_analysis (data : DataFrame) (sma_window rsi_window : nat)
    (rsi_oversold rsi_overbought : Z) : res (option DataFrame) :=
  if frame_empty data then Ok None
  else
    let data := set_column data "SMA" (calculate_sma data sma_window) in
    rsi ← calculate_rsi data rsi_window;
    let data := set_column data "RSI" rsi in
    data_with_signals ←
      generate_signals data sma_window rsi_window rsi_oversold rsi_overbought;
    Ok (Some data_with_signals).

(** ** The two halves of [generate_signals] *)

(** The frame once both indicator columns are present. *)
Definition ensure_indicators (data : DataFrame) (sma_window rsi_window : nat)
    : res DataFrame :=
  let data :=
    if has_column data "SMA" then data
    else set_column data "SMA" (calculate_sma data sma_window) in
  if has_column data "RSI" then Ok data
  else r ← calculate_rsi data rsi_window;
       Ok (set_column data "RSI" r).

(** The Signal column written on a frame that has both indicators. *)
Definition assign_signals (data : DataFrame) (rsi_oversold rsi_overbought : Z)
    : res DataFrame :=
  let data := set_column data "Signal" (replicate (nrows data) (of_Z 0)) in
  sma ← column data "SMA";
  rsi ← column data "RSI";
  if forallb isna sma || forallb isna rsi then Ok data
  else
    close ← column data "Close";
    Ok (set_column data "Signal"
          (signal_rows rsi_oversold rsi_overbought close sma rsi)).

(** ** Counting *)

(** The number of cells of a series that are not NaN. *)
Fixpoint count_obs (vals : Series) : nat :=
  match vals with
  | [] => 0
  | v :: vals' => (if notna v then 1 else 0) + count_obs vals'
  end.

(** The number of rows of a log of [simulator.py] with a given action. *)
Definition count_side (a : Action) (log : list Simulator.LogRow) : nat :=
  length (filter (λ r, Simulator.side r = a) log).

(** Cells that are an exact zero, and cells that are positive. *)
Definition fin_zero (v : fval) : Prop := ∃ q, v = Fin q ∧ (q == 0)%Q.

Definition fin_pos (v : fval) : Prop := ∃ q, v = Fin q ∧ (0 < q)%Q.

(** The thresholds [strategy.py] hands to [simple_strategy]:
    [{"buy": cfg.get("buy"), "sell": cfg.get("sell")}]. *)
Definition strategy_thresholds (cfg : dict) : dict :=
  <["buy" := dict_get_none cfg "buy"]>
    (<["sell" := dict_get_none cfg "sell"]> ∅).


(** The balance after a list of logged actions, each at the price of its
    row, replayed with the arithmetic of the loop itself and in its order:
    a BUY subtracts [price * 1], a SELL adds [price * 1], a HOLD leaves the
    balance as it is. *)
Definition replay_cash (balance : fval) (trades : list (Action * fval))
    : fval :=
  foldl (λ bal t,
           match t.1 with
           | BUY => fsub bal (fmul t.2 (of_Z 1))
           | SELL => fadd bal (fmul t.2 (of_Z 1))
           | HOLD => bal
           end) balance trades.

(** A parameter the arithmetic of [simple_strategy] accepts, with the float
    it stands for: a float, or an int that converts to a float.  For an int
    beyond the float range [float * int] raises [OverflowError], which
    [py_num] does not model; the bound keeps [1 - z] and [1 + z] within the
    range. *)
Definition float_of (v : pyval) (f : fval) : Prop :=
  match v with
  | VFloat x => f = x
  | VInt z => (Z.abs z < 2 ^ 1023)%Z ∧ f = of_Z z
  | VNone => False
  end.

(** The entries ["buy"] and ["sell"] that are present are such parameters. *)
Definition float_thresholds (th : dict) : Prop :=
  (∀ v, th !! "buy" = Some v → ∃ f, float_of v f)
  ∧ (∀ v, th !! "sell" = Some v → ∃ f, float_of v f).

(** ** The two simulators side by side *)

(** A row of the log of [strategy.py] and a row of the log of
    [simulator.py] that agree on every column but the reason text. *)
Definition same_row (r : Strategy.LogRow) (r' : Simulator.LogRow) : Prop :=
  Strategy.timestamp r = Simulator.timestamp r'
  ∧ Strategy.user_id r = Simulator.user_id r'
  ∧ Strategy.symbol r = Simulator.symbol r'
  ∧ Strategy.side r = Simulator.side r'
  ∧ Strategy.quantity r = Simulator.quantity r'
  ∧ Strategy.strategy r = Simulator.strategy r'
  ∧ Strategy.balance r = Simulator.balance r'
  ∧ Strategy.position r = Simulator.position r'
  ∧ Strategy.portfolio_value r = Simulator.portfolio_value r'.

(** * Properties *)

(** ** Comparisons on [fval] *)

Lemma fltb_Fin a b : fltb (Fin a) (Fin b) = true ↔ (a < b)%Q.
Proof.
  simpl. rewrite Qlt_alt. destruct (a ?= b)%Q; split; congruence.
Qed.

Lemma fleb_Fin a b : fleb (Fin a) (Fin b) = true ↔ (a <= b)%Q.
Proof. simpl. apply Qle_bool_iff. Qed.

Lemma fltb_irrefl_chain x lo hi :
  fltb x lo = true → fleb lo hi = true → fltb hi x = true → False.
Proof.
  destruct x as [x| | |], lo as [lo| | |], hi as [hi| | |];
    simpl; try discriminate; intros H1 H2 H3.
  apply (fltb_Fin x lo) in H1. apply Qle_bool_iff in H2.
  apply (fltb_Fin hi x) in H3. lra.
Qed.

(** ** [simple_strategy] *)

Section SimpleStrategy.

Variables (price ma : fval).

Lemma simple_strategy_thresholds_of b s :
  simple_strategy price ma (thresholds_of b s) =
    if fltb price (fmul ma (fsub (Fin 1) b)) then Ok BUY
    else if fgtb price (fmul ma (fadd (Fin 1) s)) then Ok SELL
    else Ok HOLD.
Proof. reflexivity. Qed.

Lemma simple_strategy_get (th : dict) :
  simple_strategy price ma th =
    (b ← py_num (dict_get th "buy" (VFloat (Fin 0.02)));
     if fltb price (fmul ma (fsub (Fin 1) b)) then Ok BUY
     else
       s ← py_num (dict_get th "sell" (VFloat (Fin 0.03)));
       if fgtb price (fmul ma (fadd (Fin 1) s)) then Ok SELL else Ok HOLD).
Proof. reflexivity. Qed.

End SimpleStrategy.

(** C2 (as amended).  With thresholds [{"buy": b, "sell": s}] the deviation
    rule answers BUY exactly when [price < ma * (1 - b)]; SELL exactly when
    [price > ma * (1 + s)] and the BUY test failed; HOLD exactly when both
    tests failed.  It always answers one of the three, and whenever the lower
    band does not exceed the upper one, SELL is answered exactly when
    [price > ma * (1 + s)]. *)
Theorem simple_strategy_deviation_rule (price ma b s : fval) :
  let r := simple_strategy price ma (thresholds_of b s) in
  let below := fltb price (fmul ma (fsub (Fin 1) b)) in
  let above := fgtb price (fmul ma (fadd (Fin 1) s)) in
  (r = Ok BUY ↔ below = true) ∧
  (r = Ok SELL ↔ above = true ∧ below = false) ∧
  (r = Ok HOLD ↔ above = false ∧ below = false) ∧
  (r = Ok BUY ∨ r = Ok SELL ∨ r = Ok HOLD) ∧
  (fleb (fmul ma (fsub (Fin 1) b)) (fmul ma (fadd (Fin 1) s)) = true →
   (r = Ok SELL ↔ above = true)).
Proof.
  cbv zeta. rewrite simple_strategy_thresholds_of.
  destruct (fltb price (fmul ma (fsub (Fin 1) b))) eqn:Hb;
    destruct (fgtb price (fmul ma (fadd (Fin 1) s))) eqn:Hs;
    repeat split; intros; try tauto; try congruence; try intuition congruence.
  exfalso. unfold fgtb in Hs. eauto using fltb_irrefl_chain.
Qed.

Lemma simple_strategy_deviation_rule_witness :
  simple_strategy (Fin 150) (Fin 106) (thresholds_of (Fin 0.02) (Fin 0.03))
    = Ok SELL.
Proof.
  pose proof (simple_strategy_deviation_rule (Fin 150) (Fin 106)
                (Fin 0.02) (Fin 0.03)) as H.
  cbv zeta in H. destruct H as (_ & _ & _ & _ & Hsell).
  apply Hsell; reflexivity.
Defined.

(** C2, the claim as stated fails: with a negative moving average the two
    bands overlap; the price is above [ma * (1 + s)] and the answer is BUY. *)
Lemma simple_strategy_sell_band_overlap :
  simple_strategy (Fin (-100)) (Fin (-100))
    (thresholds_of (Fin 0.02) (Fin 0.03)) = Ok BUY
  ∧ fgtb (Fin (-100)) (fmul (Fin (-100)) (fadd (Fin 1) (Fin 0.03))) = true.
Proof. split; reflexivity. Qed.

(** For a non-negative finite moving average and fractions whose sum is not
    negative the lower band does not exceed the upper one. *)
Lemma bands_ordered (m b s : Q) :
  (0 <= m)%Q → (0 <= b + s)%Q →
  fleb (fmul (Fin m) (fsub (Fin 1) (Fin b)))
       (fmul (Fin m) (fadd (Fin 1) (Fin s))) = true.
Proof.
  intros Hm Hbs. simpl. apply Qle_bool_iff. nra.
Qed.

Lemma float_of_py_num v f : float_of v f → py_num v = Ok f.
Proof.
  destruct v as [|z|x]; simpl; [done| |].
  - by intros [_ ->].
  - by intros ->.
Qed.

(** C10.  When a key is missing, [simple_strategy] runs the band tests
    with the hard-coded fraction in its place: with both keys missing it
    answers BUY when [price < ma * (1 - 0.02)], else SELL when
    [price > ma * (1 + 0.03)], else HOLD; with only ["buy"] missing it uses
    0.02 and the ["sell"] entry; with only ["sell"] missing it uses the
    ["buy"] entry and 0.03.  It never raises on a missing key: whenever it
    raises, a key that is present holds a value that is no number the
    arithmetic accepts. *)
Theorem simple_strategy_missing_keys (price ma : fval) (th : dict) :
  let rule b s :=
    if fltb price (fmul ma (fsub (Fin 1) b)) then BUY
    else if fgtb price (fmul ma (fadd (Fin 1) s)) then SELL
    else HOLD in
  (th !! "buy" = None → th !! "sell" = None →
   simple_strategy price ma th = Ok (rule (Fin 0.02) (Fin 0.03)))
  ∧ (th !! "buy" = None →
     ∀ v s, th !! "sell" = Some v → float_of v s →
       simple_strategy price ma th = Ok (rule (Fin 0.02) s))
  ∧ (th !! "sell" = None →
     ∀ v b, th !! "buy" = Some v → float_of v b →
       simple_strategy price ma th = Ok (rule b (Fin 0.03)))
  ∧ (∀ e, simple_strategy price ma th = Raise e →
     ∃ k v, (k = "buy" ∨ k = "sell") ∧ th !! k = Some v
            ∧ ∀ f, ¬ float_of v f).
Proof.
  cbv zeta. rewrite simple_strategy_get. unfold dict_get. split_and!.
  - intros -> ->. simpl. by repeat case_match.
  - intros -> v s -> Hs. simpl. rewrite (float_of_py_num v s Hs). simpl.
    by repeat case_match.
  - intros -> v b -> Hb. simpl. rewrite (float_of_py_num v b Hb). simpl.
    by repeat case_match.
  - intros e.
    destruct (th !! "buy") as [vb|] eqn:Eb; simpl.
    + destruct vb as [|zb|fb]; simpl.
      { intros _. exists "buy", VNone.
        split_and!; [by left|done|intros f []]. }
      all: case_match; [done|].
      all: destruct (th !! "sell") as [vs|] eqn:Es; simpl.
      all: try (destruct vs as [|zs|fs]; simpl).
      all: try (intros _; exists "sell", VNone;
                split_and!; [by right|done|intros f []]).
      all: by repeat case_match.
    + case_match; [done|].
      destruct (th !! "sell") as [vs|] eqn:Es; simpl.
      * destruct vs as [|zs|fs]; simpl.
        { intros _. exists "sell", VNone.
          split_and!; [by right|done|intros f []]. }
        all: by repeat case_match.
      * by repeat case_match.
Qed.

(** On [{}] the price 92 against the average 96 is under the 2 % band
    ([92 < 94.08]): BUY.  On [{"buy": 0.02}] the price 100 is over the 3 %
    band ([100 > 98.88]): SELL.  On [{"sell": 1}], an int, 97 is inside both
    bands: HOLD. *)
Lemma simple_strategy_missing_keys_witness :
  simple_strategy (Fin 92) (Fin 96) ∅ = Ok BUY
  ∧ simple_strategy (Fin 100) (Fin 96) {[ "buy" := VFloat (Fin 0.02) ]}
    = Ok SELL
  ∧ simple_strategy (Fin 97) (Fin 96) {[ "sell" := VInt 1 ]} = Ok HOLD.
Proof.
  pose proof (simple_strategy_missing_keys (Fin 92) (Fin 96) ∅)
    as (Hboth & _).
  pose proof (simple_strategy_missing_keys (Fin 100) (Fin 96)
                {[ "buy" := VFloat (Fin 0.02) ]}) as (_ & _ & Hsell & _).
  pose proof (simple_strategy_missing_keys (Fin 97) (Fin 96)
                {[ "sell" := VInt 1 ]}) as (_ & Hbuy & _).
  split_and!.
  - exact (Hboth eq_refl eq_refl).
  - exact (Hsell eq_refl (VFloat (Fin 0.02)) (Fin 0.02) eq_refl eq_refl).
  - refine (Hbuy eq_refl (VInt 1) (of_Z 1) eq_refl _).
    split; [by vm_compute|reflexivity].
Defined.

(** ** The two scenarios of the simulator *)

(** C3.  On prices [100, 98, 96, 94, 92, 150] with window 5, fractions
    0.02 and 0.03 and balance 1000, [simulator.py] buys at index 4 (moving
    average 96, balance 908, position 1) and sells at index 5 (balance 1058,
    position 0); [strategy.py] stops at the proposed BUY of index 4 with a
    [NameError]. *)
Theorem scenario_buy_then_sell (file : config_file) :
  (∃ log r4 r5 m4,
     Simulator.run_simulation file scenario_rows "simple"
       (Some (thresholds_of (Fin 0.02) (Fin 0.03))) (of_Z 1000) = Some log
     ∧ with_moving_avg 5 scenario_rows !! 4%nat = Some ((4%Z, of_Z 92), m4)
     ∧ feq m4 (of_Z 96)
     ∧ log !! 4%nat = Some r4
     ∧ Simulator.side r4 = BUY
     ∧ Simulator.balance r4 = of_Z 908 ∧ Simulator.position r4 = 1%Z
     ∧ log !! 5%nat = Some r5
     ∧ Simulator.side r5 = SELL
     ∧ Simulator.balance r5 = of_Z 1058 ∧ Simulator.position r5 = 0%Z)
  ∧ Strategy.run_simulation file scenario_rows "simple"
      (Some scenario_params) (of_Z 1000) = Raise NameError.
Proof.
  split; [|reflexivity].
  do 4 eexists. repeat split; try reflexivity.
Qed.

(** C1, at a BUY that cannot be paid (balance 5, price 92): [simulator.py]
    downgrades it to HOLD and leaves balance and position unchanged;
    [strategy.py] raises [NameError] instead of logging a HOLD. *)
Theorem unaffordable_buy (file : config_file) :
  (∃ log r4,
     Simulator.run_simulation file (take 5 scenario_rows) "simple"
       (Some (thresholds_of (Fin 0.02) (Fin 0.03))) (of_Z 5) = Some log
     ∧ simple_strategy (of_Z 92) (Fin (480 # 5))
         (thresholds_of (Fin 0.02) (Fin 0.03)) = Ok BUY
     ∧ log !! 4%nat = Some r4
     ∧ Simulator.side r4 = HOLD
     ∧ Simulator.reason r4 =
         Simulator.BuyNotExecuted (of_Z 92) (Fin (480 # 5)) (of_Z 5) 0
     ∧ Simulator.balance r4 = of_Z 5 ∧ Simulator.position r4 = 0%Z)
  ∧ Strategy.run_simulation file (take 5 scenario_rows) "simple"
      (Some scenario_params) (of_Z 5) = Raise NameError.
Proof.
  split; [|reflexivity].
  do 2 eexists. repeat split; reflexivity.
Qed.

(** ** The loop of [simulator.py] *)

Lemma fsub_not_negative x y :
  fgeb x y = true → fltb (fsub x y) (Fin 0) = false.
Proof.
  unfold fgeb, fsub.
  destruct x as [x| | |], y as [y| | |]; simpl; try done.
  intros H%Qle_bool_iff.
  destruct (x + - y ?= 0)%Q eqn:E; try done.
  apply Qlt_alt in E. lra.
Qed.

Lemma Simulator_step_transition name th bal pos index price ma r bal' pos' :
  (pos = 0 ∨ pos = 1)%Z →
  Simulator.step name th bal pos index price ma = Ok (r, (bal', pos')) →
  Simulator.transition bal pos index price r
  ∧ bal' = Simulator.balance r ∧ pos' = Simulator.position r.
Proof.
  intros Hpos. unfold Simulator.step, Simulator.transition.
  destruct (isna ma); simpl.
  { intros [= <- <- <-]; simpl. tauto. }
  destruct (String.eqb name "simple"); simpl.
  - destruct (simple_strategy price ma th) as [[| |]|e]; simpl; try done.
    + destruct (fgeb bal (fmul price (of_Z 1))) eqn:Hge; simpl.
      * destruct (pos =? 0)%Z eqn:Hz; simpl; intros [= <- <- <-]; simpl.
        -- apply Z.eqb_eq in Hz. subst pos.
           repeat split; auto using fsub_not_negative.
        -- tauto.
      * intros [= <- <- <-]; simpl. tauto.
    + destruct (1 <=? pos)%Z eqn:Hle; simpl; intros [= <- <- <-]; simpl.
      * apply Z.leb_le in Hle. repeat split; auto; lia.
      * tauto.
    + intros [= <- <- <-]; simpl. tauto.
  - intros [= <- <- <-]; simpl. tauto.
Qed.

Lemma Simulator_simulate_trace name th rows :
  ∀ bal pos log,
    (pos = 0 ∨ pos = 1)%Z →
    Simulator.simulate name th rows bal pos = Ok log →
    Simulator.trace rows bal pos log.
Proof.
  induction rows as [|[[index price] ma] rows IH]; intros bal pos log Hpos.
  - simpl. by intros [= <-].
  - simpl.
    destruct (Simulator.step name th bal pos index price ma)
      as [[r [bal' pos']]|e] eqn:Hstep; simpl; [|done].
    destruct (Simulator_step_transition _ _ _ _ _ _ _ _ _ _ Hpos Hstep)
      as (Htr & -> & ->).
    destruct (Simulator.simulate name th rows _ _) as [logs|e] eqn:Hsim;
      simpl; [|done].
    intros [= <-]. split; [done|].
    apply IH; [|done]. by destruct Htr as (_ & ? & _).
Qed.

Lemma Simulator_run_simulation_Some file rows name th b log :
  Simulator.run_simulation file rows name th b = Some log →
  ∃ cfg,
    cfg = match th with
          | Some d => d
          | None => Simulator.load_config_for_simulator file name None
          end
    ∧ truthy cfg = true
    ∧ Simulator.simulate name cfg (with_moving_avg 5 rows) b 0 = Ok log
    ∧ log ≠ [].
Proof.
  unfold Simulator.run_simulation.
  set (cfg := match th with
              | Some d => d
              | None => Simulator.load_config_for_simulator file name None
              end).
  destruct (truthy cfg) eqn:Ht; simpl; [|done].
  destruct (Simulator.simulate name cfg _ b 0) as [[|r l]|e] eqn:Hs; try done.
  intros [= <-]. by exists cfg.
Qed.

(** The invariant of the loop of [simulator.py]: whenever a log is returned,
    every row is a transition from the state of the row before it (from the
    initial balance and position 0 for the first row): the position is 0 or
    1; a BUY row was affordable, started from position 0 and leaves a
    balance that is not negative; a SELL row started from a held unit; a
    HOLD row changes neither balance nor position. *)
Theorem Simulator_run_simulation_invariant file rows name th b log :
  Simulator.run_simulation file rows name th b = Some log →
  Simulator.trace (with_moving_avg 5 rows) b 0 log.
Proof.
  intros (cfg & _ & _ & Hsim & _)%Simulator_run_simulation_Some.
  eapply Simulator_simulate_trace; [|done]. by left.
Qed.

Lemma Simulator_run_simulation_invariant_witness :
  ∃ log, Simulator.trace (with_moving_avg 5 scenario_rows) (of_Z 1000) 0 log
         ∧ length log = 6%nat.
Proof.
  eexists. split.
  - apply (Simulator_run_simulation_invariant NoFile scenario_rows "simple"
             (Some (thresholds_of (Fin 0.02) (Fin 0.03))) (of_Z 1000)).
    reflexivity.
  - reflexivity.
Defined.

(** In [strategy.py] a proposed BUY never reaches the balance test: the
    cost reads a name that is bound nowhere. *)
Lemma Strategy_step_buy_raises th w bal pos index price ma :
  isna ma = false →
  simple_strategy price ma
    (<["buy" := dict_get_none th "buy"]>
       (<["sell" := dict_get_none th "sell"]> ∅)) = Ok BUY →
  Strategy.step "simple" th w bal pos index price ma = Raise NameError.
Proof.
  intros Hna Hbuy. unfold Strategy.step. rewrite Hna. simpl.
  by rewrite Hbuy.
Qed.

(** ** Length and timestamps of the iterated table *)

Lemma roll_mean_loop_length window minp vals idxs st :
  length (roll_mean_loop window minp vals idxs st) = length idxs.
Proof.
  revert st. induction idxs as [|i idxs IH]; intros st; simpl; [done|].
  by rewrite IH.
Qed.

Lemma prep_values_length vals : length (prep_values vals) = length vals.
Proof. unfold prep_values. by rewrite length_map. Qed.

Lemma prep_values_take n vals :
  prep_values (take n vals) = take n (prep_values vals).
Proof. unfold prep_values. by rewrite firstn_map. Qed.

(** A series without infinite values goes through as it is. *)
Lemma prep_values_fin vals :
  Forall nan_or_fin vals → prep_values vals = vals.
Proof.
  unfold prep_values. induction 1 as [|v vals Hv _ IH]; simpl; [done|].
  rewrite IH. by destruct Hv as [->|[q ->]].
Qed.

Lemma prep_values_fmap_Fin (l : list Q) :
  prep_values (Fin <$> l) = Fin <$> l.
Proof.
  apply prep_values_fin, Forall_fmap, Forall_true. intros q. right. by exists q.
Qed.

Lemma rolling_mean_length window vals :
  length (rolling_mean window vals) = length vals.
Proof.
  unfold rolling_mean.
  by rewrite roll_mean_loop_length, length_seq, prep_values_length.
Qed.

Lemma sort_index_Permutation rows : sort_index rows ≡ₚ rows.
Proof. apply merge_sort_Permutation. Qed.

Lemma sort_index_length rows : length (sort_index rows) = length rows.
Proof. by rewrite sort_index_Permutation. Qed.

Lemma with_moving_avg_rows window rows :
  (with_moving_avg window rows).*1 = sort_index rows.
Proof.
  unfold with_moving_avg. apply fst_zip.
  by rewrite rolling_mean_length, length_fmap.
Qed.

Lemma with_moving_avg_length window rows :
  length (with_moving_avg window rows) = length rows.
Proof.
  rewrite <- (length_fmap fst), with_moving_avg_rows.
  apply sort_index_length.
Qed.

(** ** Unknown strategy names *)

Section UnknownStrategy.

Variables (name : string) (b : fval).
Hypothesis Hname : name ≠ "simple".

Lemma eqb_simple_false : String.eqb name "simple" = false.
Proof using Hname. by apply String.eqb_neq. Qed.

Lemma Simulator_simulate_unknown (cfg : dict) rows :
  Simulator.simulate name cfg rows b 0 = Ok (sim_hold_row name b <$> rows).
Proof using Hname.
  induction rows as [|[[index price] ma] rows IH]; [done|].
  simpl. unfold Simulator.step. rewrite eqb_simple_false.
  destruct (isna ma) eqn:Hna; simpl; rewrite IH; simpl;
    unfold sim_hold_row; simpl; by rewrite Hna.
Qed.

Lemma Strategy_simulate_unknown (cfg : dict) w rows :
  Strategy.simulate name cfg w rows b 0 = Ok (str_hold_row name b <$> rows).
Proof using Hname.
  induction rows as [|[[index price] ma] rows IH]; [done|].
  simpl. unfold Strategy.step. rewrite eqb_simple_false, andb_false_r.
  simpl. by rewrite IH.
Qed.

Lemma Simulator_run_unknown file rows th :
  rows ≠ [] →
  truthy (match th with
          | Some d => d
          | None => Simulator.load_config_for_simulator file name None
          end) = true →
  ∃ log, Simulator.run_simulation file rows name th b = Some log
    ∧ length log = length rows
    ∧ ∀ r, r ∈ log →
        Simulator.side r = HOLD ∧ Simulator.quantity r = 0%Z
        ∧ Simulator.balance r = b ∧ Simulator.position r = 0%Z
        ∧ Simulator.strategy r = name
        ∧ ∀ n, Simulator.reason r ≠ Simulator.NotImplemented n.
Proof using Hname.
  intros Hrows Ht. unfold Simulator.run_simulation. rewrite Ht. simpl.
  rewrite Simulator_simulate_unknown.
  pose proof (with_moving_avg_length 5 rows) as Hlen.
  destruct (with_moving_avg 5 rows) as [|x xs] eqn:Hx.
  { destruct rows; [done|]. simpl in Hlen. lia. }
  eexists. split; [done|]. split.
  { by rewrite length_fmap. }
  intros r (y & -> & _)%list_elem_of_fmap. unfold sim_hold_row. simpl.
  repeat split. intros n. by destruct (isna y.2).
Qed.

Lemma Strategy_run_unknown file rows params w :
  rows ≠ [] →
  truthy (Strategy.load_strategy_config_for_sim file name params) = true →
  Strategy.rolling_window
    (dict_get (Strategy.load_strategy_config_for_sim file name params)
       "window_size" (VInt Strategy.DEFAULT_WINDOW_SIZE)) = Ok w →
  ∃ log, Strategy.run_simulation file rows name params b = Ok (Some log)
    ∧ length log = length rows
    ∧ ∀ r, r ∈ log →
        Strategy.side r = HOLD ∧ Strategy.quantity r = 0%Z
        ∧ Strategy.balance r = b ∧ Strategy.position r = 0%Z
        ∧ Strategy.strategy r = name
        ∧ Strategy.reason r = Strategy.NotImplemented name.
Proof using Hname.
  intros Hrows Ht Hw. unfold Strategy.run_simulation.
  rewrite Ht, Hw. simpl. rewrite Strategy_simulate_unknown. simpl.
  pose proof (with_moving_avg_length w rows) as Hlen.
  destruct (with_moving_avg w rows) as [|x xs] eqn:Hx.
  { destruct rows; [done|]. simpl in Hlen. lia. }
  eexists. split; [done|]. split.
  { by rewrite length_fmap. }
  by intros r (y & -> & _)%list_elem_of_fmap.
Qed.

End UnknownStrategy.

(** C7 (as amended).  For a strategy name other than ["simple"] and a
    non-empty table: when the thresholds resolve to a non-empty dictionary,
    [simulator.py] returns a log with one row per table row, every row a
    HOLD of quantity 0 with the initial balance and position 0; under the
    same condition and a valid window, [strategy.py] returns such a log and
    every reason is "not implemented"; when the thresholds resolve to an
    empty dictionary both return "no result". *)
Theorem unknown_strategy_all_hold (file : config_file) (rows : list PriceRow)
    (name : string) (params : option dict) (b : fval) :
  name ≠ "simple" → rows ≠ [] →
  let sim_cfg := match params with
                 | Some d => d
                 | None => Simulator.load_config_for_simulator file name None
                 end in
  let str_cfg := Strategy.load_strategy_config_for_sim file name params in
  (truthy sim_cfg = true →
   ∃ log, Simulator.run_simulation file rows name params b = Some log
     ∧ length log = length rows
     ∧ ∀ r, r ∈ log →
         Simulator.side r = HOLD ∧ Simulator.quantity r = 0%Z
         ∧ Simulator.balance r = b ∧ Simulator.position r = 0%Z)
  ∧ (truthy str_cfg = true →
     ∀ w, Strategy.rolling_window
            (dict_get str_cfg "window_size"
               (VInt Strategy.DEFAULT_WINDOW_SIZE)) = Ok w →
     ∃ log, Strategy.run_simulation file rows name params b = Ok (Some log)
       ∧ length log = length rows
       ∧ ∀ r, r ∈ log →
           Strategy.side r = HOLD ∧ Strategy.quantity r = 0%Z
           ∧ Strategy.balance r = b ∧ Strategy.position r = 0%Z
           ∧ Strategy.reason r = Strategy.NotImplemented name)
  ∧ (truthy sim_cfg = false →
     Simulator.run_simulation file rows name params b = None)
  ∧ (truthy str_cfg = false →
     Strategy.run_simulation file rows name params b = Ok None).
Proof.
  intros Hname Hrows sim_cfg str_cfg. repeat split.
  - intros Ht.
    destruct (Simulator_run_unknown name b Hname file rows params Hrows Ht)
      as (log & Hrun & Hlen & Hall).
    exists log. repeat split; try done; by apply Hall.
  - intros Ht w Hw.
    destruct (Strategy_run_unknown name b Hname file rows params w
                Hrows Ht Hw) as (log & Hrun & Hlen & Hall).
    exists log. repeat split; try done; by apply Hall.
  - intros Ht. unfold Simulator.run_simulation. fold sim_cfg. by rewrite Ht.
  - intros Ht. unfold Strategy.run_simulation. fold str_cfg. by rewrite Ht.
Qed.

Lemma unknown_strategy_all_hold_witness :
  (∃ log, Simulator.run_simulation NoFile scenario_rows "unknown_x"
            (Some scenario_params) (of_Z 1000) = Some log
     ∧ length log = 6%nat)
  ∧ (∃ log, Strategy.run_simulation NoFile scenario_rows "unknown_x"
              (Some scenario_params) (of_Z 1000) = Ok (Some log)
       ∧ length log = 6%nat).
Proof.
  assert (Hname : "unknown_x" ≠ "simple") by discriminate.
  assert (Hrows : scenario_rows ≠ []) by discriminate.
  destruct (unknown_strategy_all_hold NoFile scenario_rows "unknown_x"
              (Some scenario_params) (of_Z 1000) Hname Hrows)
    as (Hsim & Hstr & _).
  assert (Ht1 : truthy scenario_params = true) by (vm_compute; reflexivity).
  assert (Ht2 : truthy (Strategy.load_strategy_config_for_sim NoFile
                          "unknown_x" (Some scenario_params)) = true)
    by (vm_compute; reflexivity).
  assert (Hw : Strategy.rolling_window
                 (dict_get (Strategy.load_strategy_config_for_sim NoFile
                              "unknown_x" (Some scenario_params))
                    "window_size" (VInt Strategy.DEFAULT_WINDOW_SIZE))
               = Ok 5%nat) by (vm_compute; reflexivity).
  split.
  - destruct (Hsim Ht1) as (log & Hrun & Hlen & _).
    exists log. split; [exact Hrun | exact Hlen].
  - destruct (Hstr Ht2 5%nat Hw) as (log & Hrun & Hlen & _).
    exists log. split; [exact Hrun | exact Hlen].
Defined.

(** C7, the claim as stated fails: with an unknown strategy and no
    parameters supplied (no section in a configuration file either), both
    simulators return "no result" on a non-empty table, not a log. *)
Lemma unknown_strategy_no_thresholds :
  Simulator.run_simulation NoFile scenario_rows "unknown_x" None
    (of_Z 1000) = None
  ∧ Strategy.run_simulation NoFile scenario_rows "unknown_x" None
      (of_Z 1000) = Ok None.
Proof. split; reflexivity. Qed.

(** In [simulator.py] the "not implemented" reason is never logged: for an
    unknown strategy every row is a HOLD whose reason is the one of the
    moving-average test or the generic "Holding". *)
Theorem Simulator_unknown_strategy_reason (file : config_file)
    (rows : list PriceRow) (name : string) (th : option dict) (b : fval)
    (log : list Simulator.LogRow) :
  name ≠ "simple" →
  Simulator.run_simulation file rows name th b = Some log →
  ∀ r, r ∈ log →
    Simulator.side r = HOLD
    ∧ ∀ n, Simulator.reason r ≠ Simulator.NotImplemented n.
Proof.
  intros Hname Hrun r Hr.
  destruct (Simulator_run_simulation_Some _ _ _ _ _ _ Hrun)
    as (cfg & -> & Ht & Hsim & Hne).
  assert (Hrows : rows ≠ []).
  { intros ->.
    change (with_moving_avg 5 []) with (@nil (PriceRow * fval)) in Hsim.
    simpl in Hsim. congruence. }
  destruct (Simulator_run_unknown name b Hname file rows th Hrows Ht)
    as (log' & Hrun' & _ & Hall).
  rewrite Hrun in Hrun'. injection Hrun' as <-.
  destruct (Hall r Hr) as (? & _ & _ & _ & _ & ?). by split.
Qed.

Lemma Simulator_unknown_strategy_reason_witness :
  ∃ log r, Simulator.run_simulation NoFile scenario_rows "unknown_x"
             (Some scenario_params) (of_Z 1000) = Some log
    ∧ log !! 4%nat = Some r
    ∧ Simulator.reason r = Simulator.Holding (of_Z 92) (Fin (480 # 5))
    ∧ ∀ n, Simulator.reason r ≠ Simulator.NotImplemented n.
Proof.
  do 2 eexists. split; [by vm_compute|]. split; [by vm_compute|].
  split; [reflexivity|].
  refine (proj2 (Simulator_unknown_strategy_reason NoFile scenario_rows
            "unknown_x" (Some scenario_params) (of_Z 1000) _ _ _ _ _)).
  - discriminate.
  - by vm_compute.
  - apply list_elem_of_lookup. exists 4%nat. by vm_compute.
Defined.


(** ** The parameter loaders *)

(** C9 (as amended).  A non-empty dictionary supplied by the caller is
    returned as it is by both loaders.  When the caller supplies nothing,
    [load_strategy_config_for_sim] takes each parameter from the file's
    section for the strategy when the section has it and from the
    hard-coded defaults otherwise (the defaults alone when there is no
    readable file), and [load_config_for_simulator] returns the file's
    section as it is, or the hard-coded defaults when there is no readable
    file. *)
Theorem loaders_precedence (file : config_file) (name : string)
    (passed : option dict) :
  let str := Strategy.load_strategy_config_for_sim file name passed in
  let sim := Simulator.load_config_for_simulator file name passed in
  let str_defaults := default ∅ (Strategy.default_strategy_defaults !! name) in
  let sim_defaults := default ∅ (Simulator.DEFAULT_THRESHOLDS !! name) in
  (∀ d, passed = Some d → truthy d = true → str = d ∧ sim = d)
  ∧ ((passed = None ∨ ∃ d, passed = Some d ∧ truthy d = false) →
     match file with
     | Config config =>
         let section := default ∅ (config !! name) in
         (∀ k, str !! k = match section !! k with
                          | Some v => Some v
                          | None => str_defaults !! k
                          end)
         ∧ sim = section
     | _ => str = str_defaults ∧ sim = sim_defaults
     end).
Proof.
  cbv zeta. split.
  - intros d -> Ht. unfold Strategy.load_strategy_config_for_sim,
      Simulator.load_config_for_simulator. by rewrite Ht.
  - intros Hnone.
    assert (Hstr : Strategy.load_strategy_config_for_sim file name passed =
              Strategy.load_strategy_config_for_sim file name None).
    { destruct Hnone as [->|(d & -> & Ht)]; [done|].
      unfold Strategy.load_strategy_config_for_sim. by rewrite Ht. }
    assert (Hsim : Simulator.load_config_for_simulator file name passed =
              Simulator.load_config_for_simulator file name None).
    { destruct Hnone as [->|(d & -> & Ht)]; [done|].
      unfold Simulator.load_config_for_simulator. by rewrite Ht. }
    rewrite Hstr, Hsim. destruct file as [| |config]; simpl; [done..|].
    split; [|done]. intros k.
    destruct (default ∅ (config !! name) !! k) as [v|] eqn:Hk.
    + by apply lookup_union_Some_l.
    + by rewrite lookup_union_r.
Qed.

Lemma loaders_precedence_witness :
  Strategy.load_strategy_config_for_sim file_sell_only "simple"
    (Some caller_buy_only) = caller_buy_only
  ∧ Strategy.load_strategy_config_for_sim file_sell_only "simple" None
      !! "sell" = Some (VFloat (Fin 0.10))
  ∧ Strategy.load_strategy_config_for_sim file_sell_only "simple" None
      !! "buy" = Some (VFloat (Fin 0.02)).
Proof.
  pose proof (loaders_precedence file_sell_only "simple"
                (Some caller_buy_only)) as [Hsome _].
  pose proof (loaders_precedence file_sell_only "simple" None) as [_ Hnone].
  cbv zeta in Hsome, Hnone.
  split.
  - apply (Hsome caller_buy_only eq_refl). vm_compute. reflexivity.
  - destruct (Hnone (or_introl eq_refl)) as [Hk _]. split.
    + rewrite (Hk "sell"). vm_compute. reflexivity.
    + rewrite (Hk "buy"). vm_compute. reflexivity.
Defined.

(** C9, the claim as stated fails: the caller supplies only ["buy"] and the
    file's section supplies ["sell"] = 0.10.  The precedence rule resolves
    ["sell"] to the file's 0.10; both loaders return the caller's dictionary
    alone, in which ["sell"] is missing. *)
Lemma loaders_ignore_file_when_caller_supplies :
  spec_precedence caller_buy_only {[ "sell" := VFloat (Fin 0.10) ]}
    (default ∅ (Strategy.default_strategy_defaults !! "simple")) !! "sell"
    = Some (VFloat (Fin 0.10))
  ∧ Strategy.load_strategy_config_for_sim file_sell_only "simple"
      (Some caller_buy_only) !! "sell" = None
  ∧ Simulator.load_config_for_simulator file_sell_only "simple"
      (Some caller_buy_only) !! "sell" = None.
Proof. repeat split; vm_compute; reflexivity. Qed.

(** ** One log row per timestamp, in ascending order *)

#[local] Instance ts_le_total : Total ts_le.
Proof. intros r1 r2. unfold ts_le. lia. Qed.

#[local] Instance ts_le_trans : Transitive ts_le.
Proof. intros r1 r2 r3. unfold ts_le. lia. Qed.

Lemma sort_index_ascending rows :
  StronglySorted Z.le (sort_index rows).*1.
Proof.
  apply (StronglySorted_fmap fst ts_le); [done|].
  apply StronglySorted_merge_sort; apply _.
Qed.

Lemma sort_index_timestamps rows : (sort_index rows).*1 ≡ₚ rows.*1.
Proof. by rewrite sort_index_Permutation. Qed.

Lemma Simulator_step_timestamp name th bal pos index price ma r st :
  Simulator.step name th bal pos index price ma = Ok (r, st) →
  Simulator.timestamp r = index.
Proof.
  unfold Simulator.step.
  match goal with
  | |- (?m ≫= _) = _ → _ => destruct m as [[[[[a rsn] bl] ps] q]|e]
  end; simpl; [|done].
  by intros [= <- <-].
Qed.

Lemma Simulator_simulate_timestamps name th rows :
  ∀ bal pos log,
    Simulator.simulate name th rows bal pos = Ok log →
    Simulator.timestamp <$> log = rows.*1.*1.
Proof.
  induction rows as [|[[index price] ma] rows IH]; intros bal pos log; simpl.
  - by intros [= <-].
  - destruct (Simulator.step name th bal pos index price ma)
      as [[r [bal' pos']]|e] eqn:Hstep; simpl; [|done].
    destruct (Simulator.simulate name th rows bal' pos') as [logs|e] eqn:Hsim;
      simpl; [|done].
    intros [= <-]. simpl. f_equal; eauto using Simulator_step_timestamp.
Qed.

Lemma Strategy_step_timestamp name th w bal pos index price ma r st :
  Strategy.step name th w bal pos index price ma = Ok (r, st) →
  Strategy.timestamp r = index.
Proof.
  unfold Strategy.step.
  match goal with
  | |- (?m ≫= _) = _ → _ => destruct m as [[a rsn]|e]
  end; simpl; [|done].
  match goal with
  | |- (?m ≫= _) = _ → _ => destruct m as [[[[[a' rsn'] bl] ps] q]|e]
  end; simpl; [|done].
  by intros [= <- <-].
Qed.

Lemma Strategy_simulate_timestamps name th w rows :
  ∀ bal pos log,
    Strategy.simulate name th w rows bal pos = Ok log →
    Strategy.timestamp <$> log = rows.*1.*1.
Proof.
  induction rows as [|[[index price] ma] rows IH]; intros bal pos log; simpl.
  - by intros [= <-].
  - destruct (Strategy.step name th w bal pos index price ma)
      as [[r [bal' pos']]|e] eqn:Hstep; simpl; [|done].
    destruct (Strategy.simulate name th w rows bal' pos') as [logs|e] eqn:Hsim;
      simpl; [|done].
    intros [= <-]. simpl. f_equal; eauto using Strategy_step_timestamp.
Qed.

Lemma Strategy_run_simulation_Some file rows name params b log :
  Strategy.run_simulation file rows name params b = Ok (Some log) →
  ∃ w, Strategy.simulate name
         (Strategy.load_strategy_config_for_sim file name params) w
         (with_moving_avg w rows) b 0 = Ok log.
Proof.
  unfold Strategy.run_simulation.
  destruct (truthy _); simpl; [|done].
  destruct (Strategy.rolling_window _) as [w|e]; simpl; [|done].
  destruct (Strategy.simulate _ _ _ _ _ _) as [[|r l]|e] eqn:Hs; simpl;
    try done.
  intros [= <-]. by exists w.
Qed.

Lemma simple_strategy_numeric price ma th :
  numeric_thresholds th → ∃ a, simple_strategy price ma th = Ok a.
Proof.
  intros [Hb Hs]. rewrite simple_strategy_get. unfold dict_get.
  assert (∃ fb, py_num (default (VFloat (Fin 0.02)) (th !! "buy")) = Ok fb)
    as [fb ->].
  { destruct (th !! "buy") as [vb|]; simpl; [|eauto].
    specialize (Hb vb eq_refl). destruct vb; simpl; eauto. done. }
  assert (∃ fs, py_num (default (VFloat (Fin 0.03)) (th !! "sell")) = Ok fs)
    as [fs ->].
  { destruct (th !! "sell") as [vs|]; simpl; [|eauto].
    specialize (Hs vs eq_refl). destruct vs; simpl; eauto. done. }
  simpl. repeat case_match; eauto.
Qed.

Lemma Simulator_simulate_total name th rows :
  name ≠ "simple" ∨ numeric_thresholds th →
  ∀ bal pos, ∃ log, Simulator.simulate name th rows bal pos = Ok log.
Proof.
  intros Hok.
  induction rows as [|[[index price] ma] rows IH]; intros bal pos; simpl;
    [eauto|].
  assert (∃ r st, Simulator.step name th bal pos index price ma = Ok (r, st))
    as (r & [bal' pos'] & ->).
  { unfold Simulator.step. destruct (isna ma); simpl; [eauto|].
    destruct (String.eqb name "simple") eqn:Hn; simpl; [|eauto].
    destruct Hok as [Hne|Hnum].
    { by apply String.eqb_eq in Hn. }
    destruct (simple_strategy_numeric price ma th Hnum) as [a ->]. simpl.
    destruct a; simpl; repeat case_match; eauto. }
  simpl. destruct (IH bal' pos') as [logs ->]. simpl. eauto.
Qed.

Lemma float_thresholds_numeric th : float_thresholds th → numeric_thresholds th.
Proof.
  intros [Hb Hs]. split; intros v Hv.
  - destruct (Hb v Hv) as [f Hf]. by destruct v.
  - destruct (Hs v Hv) as [f Hf]. by destruct v.
Qed.

(** Whatever log a simulator returns holds exactly one row per row of the
    table, and its timestamps are the table's timestamps in ascending
    order; both report "no result" on an empty table ([strategy.py]
    provided its window parameter is a valid window, which is checked before
    the loop).  On a non-empty table [simulator.py] does return a log when
    its thresholds are a non-empty dictionary whose ["buy"] and ["sell"]
    entries, where present, are numbers. *)
Theorem run_simulation_log_timestamps (file : config_file)
    (rows : list PriceRow) (name : string) (th : option dict) (b : fval) :
  Simulator.run_simulation file [] name th b = None
  ∧ (let cfg := Strategy.load_strategy_config_for_sim file name th in
     (truthy cfg = true →
      ∃ w, Strategy.rolling_window
             (dict_get cfg "window_size"
                (VInt Strategy.DEFAULT_WINDOW_SIZE)) = Ok w) →
     Strategy.run_simulation file [] name th b = Ok None)
  ∧ (∀ log,
       Simulator.run_simulation file rows name th b = Some log →
       Simulator.timestamp <$> log = (sort_index rows).*1
       ∧ length log = length rows)
  ∧ (∀ log,
       Strategy.run_simulation file rows name th b = Ok (Some log) →
       Strategy.timestamp <$> log = (sort_index rows).*1
       ∧ length log = length rows)
  ∧ StronglySorted Z.le (sort_index rows).*1
  ∧ (sort_index rows).*1 ≡ₚ rows.*1
  ∧ (let cfg := match th with
                | Some d => d
                | None => Simulator.load_config_for_simulator file name None
                end in
     rows ≠ [] → truthy cfg = true → float_thresholds cfg →
     ∃ log, Simulator.run_simulation file rows name th b = Some log).
Proof.
  split_and!.
  - unfold Simulator.run_simulation.
    destruct (truthy _); simpl; [|done].
    change (with_moving_avg 5 []) with (@nil (PriceRow * fval)). done.
  - intros cfg Hw. unfold Strategy.run_simulation.
    fold cfg. destruct (truthy cfg); simpl; [|done].
    destruct (Hw eq_refl) as [w ->]. simpl.
    change (with_moving_avg w []) with (@nil (PriceRow * fval)). done.
  - intros log Hrun.
    destruct (Simulator_run_simulation_Some _ _ _ _ _ _ Hrun)
      as (cfg & _ & _ & Hsim & _).
    apply Simulator_simulate_timestamps in Hsim. split.
    + by rewrite Hsim, with_moving_avg_rows.
    + rewrite <- (length_fmap Simulator.timestamp), Hsim, !length_fmap.
      apply with_moving_avg_length.
  - intros log Hrun.
    destruct (Strategy_run_simulation_Some _ _ _ _ _ _ Hrun) as (w & Hsim).
    apply Strategy_simulate_timestamps in Hsim. split.
    + by rewrite Hsim, with_moving_avg_rows.
    + rewrite <- (length_fmap Strategy.timestamp), Hsim, !length_fmap.
      apply with_moving_avg_length.
  - apply sort_index_ascending.
  - apply sort_index_timestamps.
  - intros cfg Hrows Ht Hnum%float_thresholds_numeric.
    unfold Simulator.run_simulation. fold cfg. rewrite Ht. simpl.
    destruct (Simulator_simulate_total name cfg (with_moving_avg 5 rows)
                (or_intror Hnum) b 0%Z) as [log Hlog].
    rewrite Hlog.
    pose proof (Simulator_simulate_timestamps _ _ _ _ _ _ Hlog) as Hts.
    apply (f_equal length) in Hts.
    rewrite !length_fmap, with_moving_avg_length in Hts.
    destruct log as [|r log]; [|eauto].
    destruct rows; [done|]. simpl in Hts. lia.
Qed.

Lemma run_simulation_log_timestamps_witness :
  ∃ log, Simulator.run_simulation NoFile (reverse scenario_rows) "simple"
           None (of_Z 1000) = Some log
    ∧ Simulator.timestamp <$> log = [0; 1; 2; 3; 4; 5]%Z.
Proof.
  destruct (run_simulation_log_timestamps NoFile (reverse scenario_rows)
              "simple" None (of_Z 1000))
    as (_ & _ & Hsim & _ & _ & _ & Hlog).
  destruct Hlog as [log Hrun].
  - discriminate.
  - vm_compute. reflexivity.
  - split; intros v Hv; vm_compute in Hv; injection Hv as <-;
      eexists; reflexivity.
  - exists log. split; [exact Hrun|].
    rewrite (proj1 (Hsim log Hrun)). vm_compute. reflexivity.
Defined.

(** C6, on the scenario of the specification: prices [100, 98, 96, 94, 92,
    150] at timestamps 0 to 5, strategy ["simple"] with fractions 0.02 and
    0.03 and window 5, balance 1000.  On the empty table both functions
    report "no result".  On the six rows, given in time order or last row
    first, [simulator.py] returns six records, one per timestamp, in
    ascending order.  [strategy.py] returns no record at all: at index 4 a
    BUY is proposed and the loop stops with [NameError]. *)
Theorem one_record_per_timestamp_scenario (file : config_file) :
  Simulator.run_simulation file [] "simple" (Some scenario_params)
    (of_Z 1000) = None
  ∧ Strategy.run_simulation file [] "simple" (Some scenario_params)
      (of_Z 1000) = Ok None
  ∧ (∃ log, Simulator.run_simulation file scenario_rows "simple"
              (Some scenario_params) (of_Z 1000) = Some log
       ∧ Simulator.timestamp <$> log = [0; 1; 2; 3; 4; 5]%Z)
  ∧ (∃ log, Simulator.run_simulation file (reverse scenario_rows) "simple"
              (Some scenario_params) (of_Z 1000) = Some log
       ∧ Simulator.timestamp <$> log = [0; 1; 2; 3; 4; 5]%Z)
  ∧ Strategy.run_simulation file scenario_rows "simple"
      (Some scenario_params) (of_Z 1000) = Raise NameError
  ∧ Strategy.run_simulation file (reverse scenario_rows) "simple"
      (Some scenario_params) (of_Z 1000) = Raise NameError.
Proof.
  split_and!; try reflexivity.
  - eexists. split; reflexivity.
  - eexists. split; reflexivity.
Qed.

(** ** [generate_signals] *)

Lemma set_column_lookup df c s c' :
  columns (set_column df c s) !! c' =
    if decide (c = c') then Some (resize (nrows df) NaN s)
    else columns df !! c'.
Proof. unfold set_column. simpl. by rewrite lookup_insert. Qed.

Lemma set_column_wf df c s : frame_wf df → frame_wf (set_column df c s).
Proof.
  intros Hwf c' s'. rewrite set_column_lookup. case_decide.
  - intros [= <-]. simpl. apply length_resize.
  - apply Hwf.
Qed.

Lemma signal_cell_undefined os ob c s r :
  isna s = true ∨ isna r = true → signal_cell os ob c s r = of_Z 0.
Proof.
  unfold signal_cell, notna.
  intros [-> | ->]; simpl; rewrite ?andb_false_r; simpl; done.
Qed.

Lemma signal_cell_values os ob c s r :
  signal_cell os ob c s r = of_Z (-1)
  ∨ signal_cell os ob c s r = of_Z 1
  ∨ signal_cell os ob c s r = of_Z 0.
Proof. unfold signal_cell. repeat case_match; auto. Qed.

Lemma signal_rows_lookup os ob close :
  ∀ sma rsi i,
    signal_rows os ob close sma rsi !! i =
      (c ← close !! i; s ← sma !! i; r ← rsi !! i;
       Some (signal_cell os ob c s r)).
Proof.
  induction close as [|c close IH]; intros sma rsi i; simpl; [done|].
  destruct sma as [|s sma]; simpl.
  { destruct i; simpl; [done|]. by destruct (close !! i). }
  destruct rsi as [|r rsi]; simpl.
  { destruct i; simpl; [done|].
    by destruct (close !! i), (sma !! i). }
  destruct i; simpl; [done|]. apply IH.
Qed.

Lemma signal_rows_length os ob close :
  ∀ sma rsi,
    length sma = length close → length rsi = length close →
    length (signal_rows os ob close sma rsi) = length close.
Proof.
  induction close as [|c close IH]; intros [|s sma] [|r rsi]; simpl;
    try done.
  intros [=] [=]. f_equal. by apply IH.
Qed.

(** C8.  On a well-formed frame, when [generate_signals] returns, either
    the frame was empty and so is the result, or the result has a Signal
    column with one cell per row in which every row whose SMA or RSI cell is
    NaN has signal 0 (and every cell is -1, 1 or 0).  It does return
    whenever the frame has a Close column and the oscillator window is at
    least 1. *)
Theorem generate_signals_hold_on_undefined (data : DataFrame)
    (sma_window rsi_window : nat) (rsi_oversold rsi_overbought : Z) :
  frame_wf data →
  (∀ out,
     generate_signals data sma_window rsi_window rsi_oversold rsi_overbought
       = Ok out →
     (frame_empty data = true ∧ out = mkFrame 0 ∅)
     ∨ ∃ sma rsi sig,
         columns out !! "SMA" = Some sma
         ∧ columns out !! "RSI" = Some rsi
         ∧ columns out !! "Signal" = Some sig
         ∧ length sig = nrows data
         ∧ ∀ i, (i < nrows data)%nat →
             (∃ v, sig !! i = Some v
                   ∧ (v = of_Z (-1) ∨ v = of_Z 1 ∨ v = of_Z 0))
             ∧ (sma !! i = Some NaN ∨ rsi !! i = Some NaN →
                sig !! i = Some (of_Z 0)))
  ∧ (is_Some (columns data !! "Close") → (1 ≤ rsi_window)%nat →
     ∃ out,
       generate_signals data sma_window rsi_window rsi_oversold rsi_overbought
         = Ok out).
Proof.
  intros Hwf. unfold generate_signals.
  destruct (frame_empty data) eqn:Hempty.
  { split; [|eauto]. intros out [= <-]. by left. }
  set (data1 := if has_column data "SMA" then data
                else set_column data "SMA" (calculate_sma data sma_window)).
  assert (Hwf1 : frame_wf data1).
  { subst data1. destruct (has_column data "SMA"); [done|].
    by apply set_column_wf. }
  assert (Hn1 : nrows data1 = nrows data).
  { subst data1. by destruct (has_column data "SMA"). }
  assert (Hsma1 : is_Some (columns data1 !! "SMA")).
  { subst data1. destruct (has_column data "SMA") eqn:Hh.
    - by apply bool_decide_eq_true in Hh.
    - rewrite set_column_lookup. by rewrite decide_True. }
  assert (Hclose1 : columns data1 !! "Close" = columns data !! "Close").
  { subst data1. destruct (has_column data "SMA"); [done|].
    rewrite set_column_lookup. by rewrite decide_False. }
  clearbody data1. destruct Hsma1 as [sma Hsma].
  (* everything after the RSI column is in place *)
  assert (Htail : ∀ data2 rsi,
    frame_wf data2 → nrows data2 = nrows data →
    columns data2 !! "SMA" = Some sma → columns data2 !! "RSI" = Some rsi →
    columns data2 !! "Close" = columns data !! "Close" →
    let data3 :=
      set_column data2 "Signal" (replicate (nrows data2) (of_Z 0)) in
    let k := λ (data3 : DataFrame),
      sma ← column data3 "SMA"; rsi ← column data3 "RSI";
      if forallb isna sma || forallb isna rsi then Ok data3
      else close ← column data3 "Close";
           Ok (set_column data3 "Signal"
                 (signal_rows rsi_oversold rsi_overbought close sma rsi)) in
    (∀ out, k data3 = Ok out →
       ∃ sig, columns out !! "SMA" = Some sma
         ∧ columns out !! "RSI" = Some rsi
         ∧ columns out !! "Signal" = Some sig
         ∧ length sig = nrows data
         ∧ ∀ i, (i < nrows data)%nat →
             (∃ v, sig !! i = Some v
                   ∧ (v = of_Z (-1) ∨ v = of_Z 1 ∨ v = of_Z 0))
             ∧ (sma !! i = Some NaN ∨ rsi !! i = Some NaN →
                sig !! i = Some (of_Z 0)))
    ∧ (is_Some (columns data !! "Close") → ∃ out, k data3 = Ok out)).
  { intros data2 rsi Hwf2 Hn2 Hsma2 Hrsi2 Hclose2 data3 k.
    assert (Hlsma : length sma = nrows data) by (rewrite <- Hn2; eauto).
    assert (Hlrsi : length rsi = nrows data) by (rewrite <- Hn2; eauto).
    assert (H3sma : column data3 "SMA" = Ok sma).
    { unfold column, data3. rewrite set_column_lookup, decide_False by done.
      by rewrite Hsma2. }
    assert (H3rsi : column data3 "RSI" = Ok rsi).
    { unfold column, data3. rewrite set_column_lookup, decide_False by done.
      by rewrite Hrsi2. }
    assert (H3close : columns data3 !! "Close" = columns data !! "Close").
    { unfold data3. by rewrite set_column_lookup, decide_False. }
    unfold k. rewrite H3sma, H3rsi. simpl.
    destruct (forallb isna sma || forallb isna rsi).
    - split; [|eauto]. intros out [= <-]. exists (replicate (nrows data) (of_Z 0)).
      unfold data3. rewrite !set_column_lookup.
      rewrite !decide_False, decide_True by done.
      change (nrows (set_column data2 _ _)) with (nrows data2).
      rewrite !Hn2, resize_all_alt, length_replicate
        by (by rewrite length_replicate).
      split_and!; try done. intros i Hi. split.
      + exists (of_Z 0). rewrite lookup_replicate_2; auto.
      + intros _. by rewrite lookup_replicate_2.
    - unfold column. rewrite H3close.
      destruct (columns data !! "Close") as [close|] eqn:Hclose; simpl.
      2: { split; [done|]. by intros [? ?]. }
      split; [|eauto]. intros out [= <-].
      assert (Hlclose : length close = nrows data) by eauto.
      exists (signal_rows rsi_oversold rsi_overbought close sma rsi).
      unfold data3. rewrite !set_column_lookup.
      rewrite !decide_False, decide_True by done.
      assert (Hlsig : length (signal_rows rsi_oversold rsi_overbought
                                close sma rsi) = nrows data).
      { rewrite signal_rows_length; congruence. }
      change (nrows (set_column data2 _ _)) with (nrows data2).
      rewrite Hn2, resize_all_alt by done.
      split_and!; try done. intros i Hi. split.
      + rewrite signal_rows_lookup.
        destruct (lookup_lt_is_Some_2 close i) as [c ->]; [lia|].
        destruct (lookup_lt_is_Some_2 sma i) as [s ->]; [lia|].
        destruct (lookup_lt_is_Some_2 rsi i) as [r ->]; [lia|].
        simpl. eexists; split; [done|]. apply signal_cell_values.
      + rewrite signal_rows_lookup.
        destruct (lookup_lt_is_Some_2 close i) as [c ->]; [lia|].
        intros [-> | Hr]; simpl.
        * destruct (lookup_lt_is_Some_2 rsi i) as [r ->]; [lia|]. simpl.
          f_equal. apply signal_cell_undefined. by left.
        * destruct (lookup_lt_is_Some_2 sma i) as [s ->]; [lia|]. simpl.
          rewrite Hr. simpl.
          f_equal. apply signal_cell_undefined. by right. }
  destruct (has_column data1 "RSI") eqn:Hh; simpl.
  - apply bool_decide_eq_true in Hh as [rsi Hrsi].
    destruct (Htail data1 rsi Hwf1 Hn1 Hsma Hrsi Hclose1) as [Hout Hex].
    split; [|by intros ? _; apply Hex].
    intros out Hk. right. destruct (Hout out Hk) as (sig & ?).
    by exists sma, rsi, sig.
  - destruct (calculate_rsi data1 rsi_window) as [r|e] eqn:Hr; simpl.
    + assert (Hrsi : columns (set_column data1 "RSI" r) !! "RSI" =
                       Some (resize (nrows data1) NaN r)).
      { by rewrite set_column_lookup, decide_True. }
      destruct (Htail (set_column data1 "RSI" r)
                  (resize (nrows data1) NaN r)
                  (set_column_wf _ _ _ Hwf1) Hn1) as [Hout Hex]; try done.
      { by rewrite set_column_lookup, decide_False. }
      { by rewrite set_column_lookup, decide_False. }
      split; [|by intros ? _; apply Hex].
      intros out Hk. right. destruct (Hout out Hk) as (sig & ?).
      by eexists sma, _, sig.
    + split; [done|]. intros [close Hclose] Hw. exfalso.
      revert Hr. unfold calculate_rsi. rewrite Hclose1, Hclose.
      unfold rsi_filled, avg_gain_of, avg_loss_of, ewm_mean.
      destruct (Z.of_nat rsi_window - 1 <? 0)%Z eqn:Hlt; [lia|]. done.
Qed.


Lemma generate_signals_hold_on_undefined_witness :
  frame_wf signal_frame
  ∧ ∃ out, generate_signals signal_frame 2 2 30 70 = Ok out.
Proof.
  assert (Hwf : frame_wf signal_frame).
  { intros c s. unfold signal_frame. simpl.
    intros [<- <-]%lookup_singleton_Some. reflexivity. }
  split; [exact Hwf|].
  refine (proj2 (generate_signals_hold_on_undefined signal_frame 2 2 30 70
                   Hwf) _ _).
  - eexists. apply lookup_singleton_eq.
  - lia.
Defined.

(** ** The rolling mean *)

Local Open Scope nat_scope.
Local Open Scope list_scope.

Lemma slice_split {A} (a b c : nat) (l : list A) :
  a ≤ b → b ≤ c → slice a c l = slice a b l ++ slice b c l.
Proof.
  intros Hab Hbc. unfold slice.
  replace (c - a) with ((b - a) + (c - b)) by lia.
  rewrite <- take_take_drop, drop_drop.
  by replace (a + (b - a)) with b by lia.
Qed.

Lemma slice_length {A} (a b : nat) (l : list A) :
  b ≤ length l → length (slice a b l) = b - a.
Proof. intros Hb. unfold slice. rewrite length_take, length_drop. lia. Qed.

Lemma slice_fmap {A B} (f : A → B) (a b : nat) (l : list A) :
  slice a b (f <$> l) = f <$> slice a b l.
Proof. unfold slice. by rewrite fmap_take, fmap_drop. Qed.

Lemma slice_take {A} (a b n : nat) (l : list A) :
  b ≤ n → slice a b (take n l) = slice a b l.
Proof.
  intros Hb. unfold slice. rewrite skipn_firstn_comm, take_take.
  f_equal. lia.
Qed.

Lemma Qsum_app l1 l2 : (Qsum (l1 ++ l2) == Qsum l1 + Qsum l2)%Q.
Proof.
  induction l1 as [|x l1 IH]; simpl; [lra|]. rewrite IH. lra.
Qed.

Lemma foldl_add_mean_fin (l : list Q) :
  ∀ n x, ∃ y,
    foldl add_mean (mkRoll n (Fin x)) (Fin <$> l) =
      mkRoll (n + length l) (Fin y)
    ∧ (y == x + Qsum l)%Q.
Proof.
  induction l as [|a l IH]; intros n x.
  - exists x. simpl. split; [f_equal; lia | lra].
  - change (foldl add_mean (mkRoll n (Fin x)) (Fin <$> a :: l))
      with (foldl add_mean (mkRoll (S n) (Fin (x + a))) (Fin <$> l)).
    destruct (IH (S n) (x + a)%Q) as (y & -> & Hy).
    exists y. simpl. split; [f_equal; lia | lra].
Qed.

Lemma foldl_remove_mean_fin (l : list Q) :
  ∀ n x, ∃ y,
    foldl remove_mean (mkRoll n (Fin x)) (Fin <$> l) =
      mkRoll (n - length l) (Fin y)
    ∧ (y == x - Qsum l)%Q.
Proof.
  induction l as [|a l IH]; intros n x.
  - exists x. simpl. split; [f_equal; lia | lra].
  - change (foldl remove_mean (mkRoll n (Fin x)) (Fin <$> a :: l))
      with (foldl remove_mean (mkRoll (pred n) (Fin (x + - a))) (Fin <$> l)).
    destruct (IH (pred n) (x + - a)%Q) as (y & -> & Hy).
    exists y. simpl. split; [f_equal; lia | lra].
Qed.

Lemma roll_step_inv window prices st i :
  1 ≤ window → i < length prices →
  i = 0 ∨ roll_inv window prices i st →
  roll_inv window prices (i + 1) (roll_step window (Fin <$> prices) st i).
Proof.
  intros Hw Hi Hst. unfold roll_step, window_start, roll_init.
  destruct (Nat.eqb i 0 || (i <=? i + 1 - window)) eqn:Hfresh.
  - rewrite slice_fmap.
    destruct (foldl_add_mean_fin (slice (i + 1 - window) (i + 1) prices) 0 0)
      as (y & -> & Hy).
    split; simpl.
    + rewrite slice_length by lia. lia.
    + exists y. split; [done|]. lra.
  - apply orb_false_iff in Hfresh as [Hi0%Nat.eqb_neq Hlt%Nat.leb_gt].
    destruct Hst as [->|[Hn (x & Hx & Hsum)]]; [done|].
    replace (i - 1 + 1 - window) with (i - window) by lia.
    rewrite !slice_fmap. destruct st as [n sx]. simpl in Hn, Hx. subst n sx.
    destruct (foldl_remove_mean_fin
                (slice (i - window) (i + 1 - window) prices)
                (i - (i - window)) x) as (y1 & -> & Hy1).
    destruct (foldl_add_mean_fin (slice i (i + 1) prices)
                (i - (i - window)
                 - length (slice (i - window) (i + 1 - window) prices)) y1)
      as (y2 & -> & Hy2).
    split; simpl.
    + rewrite !slice_length by lia. lia.
    + exists y2. split; [done|].
      rewrite (slice_split (i + 1 - window) i (i + 1)) by lia.
      rewrite (slice_split (i - window) (i + 1 - window) i) in Hsum by lia.
      rewrite Qsum_app in *. lra.
Qed.

Lemma calc_mean_inv window prices i st :
  1 ≤ window →
  roll_inv window prices (i + 1) st →
  sma_cell window prices i (calc_mean window st).
Proof.
  intros Hw [Hn (x & Hx & Hsum)]. unfold calc_mean, sma_cell.
  rewrite Hn, Hx. split.
  - intros Hlt.
    by replace (window <=? i + 1 - (i + 1 - window)) with false
      by (symmetry; apply Nat.leb_gt; lia).
  - intros Hge.
    replace (i + 1 - (i + 1 - window)) with window by lia.
    rewrite Nat.leb_refl.
    replace (0 <? window) with true by (symmetry; apply Nat.ltb_lt; lia).
    simpl.
    destruct (Qeq_bool (inject_Z (Z.of_nat window)) 0) eqn:Hz.
    { apply Qeq_bool_eq in Hz. unfold Qeq in Hz. simpl in Hz. lia. }
    eexists. split; [done|]. unfold window_mean. by rewrite Hsum.
Qed.

Lemma roll_mean_loop_inv window prices :
  1 ≤ window →
  ∀ n a st,
    a + n ≤ length prices →
    a = 0 ∨ roll_inv window prices a st →
    ∀ j, j < n →
      ∃ v, roll_mean_loop window window (Fin <$> prices) (seq a n) st !! j
             = Some v
           ∧ sma_cell window prices (a + j) v.
Proof.
  intros Hw. induction n as [|n IH]; intros a st Hlen Hst j Hj; [lia|].
  simpl.
  pose proof (roll_step_inv window prices st a Hw ltac:(lia) Hst) as Hinv.
  destruct j as [|j]; simpl.
  - eexists. split; [done|]. rewrite Nat.add_0_r.
    by apply calc_mean_inv.
  - destruct (IH (S a) (roll_step window (Fin <$> prices) st a)
                ltac:(lia)
                ltac:(right; by replace (S a) with (a + 1) by lia)
                j ltac:(lia)) as (v & Hv & Hcell).
    exists v. split; [done|].
    by replace (a + S j) with (S a + j) by lia.
Qed.

(** The rolling mean of a prefix is the prefix of the rolling mean. *)
Lemma roll_step_take window vals st i n :
  i < n → roll_step window (take n vals) st i = roll_step window vals st i.
Proof.
  intros Hi. unfold roll_step, window_start.
  rewrite !slice_take by lia. done.
Qed.

Lemma roll_mean_loop_take window minp vals n idxs :
  Forall (λ i, i < n) idxs →
  ∀ st, roll_mean_loop window minp (take n vals) idxs st =
        roll_mean_loop window minp vals idxs st.
Proof.
  induction 1 as [|i idxs Hi _ IH]; intros st; simpl; [done|].
  by rewrite roll_step_take, IH.
Qed.

Lemma roll_mean_loop_app window minp vals idxs1 idxs2 st :
  roll_mean_loop window minp vals (idxs1 ++ idxs2) st =
    roll_mean_loop window minp vals idxs1 st
    ++ roll_mean_loop window minp vals idxs2
         (foldl (roll_step window vals) st idxs1).
Proof.
  revert st. induction idxs1 as [|i idxs1 IH]; intros st; simpl; [done|].
  by rewrite IH.
Qed.

Lemma rolling_mean_take window vals n :
  rolling_mean window (take n vals) = take n (rolling_mean window vals).
Proof.
  destruct (decide (length vals ≤ n)) as [Hle|Hgt].
  { rewrite !take_ge; [done| |done]. by rewrite rolling_mean_length. }
  unfold rolling_mean. cbv zeta. rewrite prep_values_take.
  rewrite length_take, !prep_values_length, Nat.min_l by lia.
  assert (Hseq : seq 0 (length vals) = seq 0 n ++ seq n (length vals - n)).
  { change n with (0 + n) at 2.
    rewrite <- (seq_app n (length vals - n) 0). f_equal. lia. }
  rewrite Hseq, roll_mean_loop_app, take_app_length'.
  - apply roll_mean_loop_take. apply Forall_seq. lia.
  - by rewrite roll_mean_loop_length, length_seq.
Qed.

(** C4.  For a window of at least 1 over a series of prices, the cell of
    [calculate_sma] at index [i] is NaN while [i < window - 1] and is
    afterwards the arithmetic mean of the [window] prices ending at [i];
    and the cell at [i] is unchanged when the series is cut after [i] - more
    generally it is the same for any two series that agree up to [i]. *)
Theorem calculate_sma_trailing_mean (data : DataFrame) (prices : list Q)
    (window i : nat) :
  1 ≤ window →
  columns data !! "Close" = Some (Fin <$> prices) →
  i < length prices →
  (∃ v, calculate_sma data window !! i = Some v
        ∧ (i + 1 < window → v = NaN)
        ∧ (window ≤ i + 1 →
           length (slice (i + 1 - window) (i + 1) prices) = window
           ∧ ∃ m, v = Fin m ∧ (m == window_mean window i prices)%Q))
  ∧ (∀ data', columns data' !! "Close" = Some (Fin <$> take (S i) prices) →
       calculate_sma data' window !! i = calculate_sma data window !! i)
  ∧ (∀ data' close',
       columns data' !! "Close" = Some close' →
       take (S i) close' = take (S i) (Fin <$> prices) →
       calculate_sma data' window !! i = calculate_sma data window !! i).
Proof.
  intros Hw Hclose Hi. unfold calculate_sma. rewrite Hclose.
  assert (Hcut : ∀ vals, rolling_mean window (take (S i) vals) !! i =
                         rolling_mean window vals !! i).
  { intros vals. rewrite rolling_mean_take. apply lookup_take_lt. lia. }
  split_and!.
  - destruct (roll_mean_loop_inv window prices Hw (length prices) 0 roll_init
                ltac:(lia) ltac:(by left) i Hi) as (v & Hv & Hnan & Hmean).
    exists v. unfold rolling_mean. cbv zeta.
    rewrite prep_values_fmap_Fin, length_fmap.
    split; [done|]. split; [done|].
    intros Hge. split; [|by apply Hmean].
    rewrite slice_length by lia. lia.
  - intros data' ->. by rewrite fmap_take, Hcut.
  - intros data' close' -> Htake.
    by rewrite <- (Hcut close'), Htake, Hcut.
Qed.

Lemma calculate_sma_trailing_mean_witness :
  ∃ v m, calculate_sma signal_frame 5 !! 4 = Some v
         ∧ v = Fin m ∧ (m == 96)%Q.
Proof.
  destruct (calculate_sma_trailing_mean signal_frame
              (inject_Z <$> [100; 98; 96; 94; 92; 150; 150; 140]%Z) 5 4)
    as [(v & Hv & _ & Hmean) _].
  - lia.
  - reflexivity.
  - simpl. lia.
  - destruct Hmean as [_ (m & Hm & Heq)]; [lia|].
    exists v, m. split; [exact Hv|]. split; [exact Hm|].
    rewrite Heq. reflexivity.
Defined.

(** ** The smoothed oscillator *)

Lemma diff_length vals : length (diff vals) = length vals.
Proof.
  destruct vals as [|v vals]; simpl; [done|].
  rewrite length_zip_with. simpl. lia.
Qed.

Lemma zip_with_fsub_fin (l1 l2 : list Q) :
  Forall nan_or_fin (zip_with fsub (Fin <$> l1) (Fin <$> l2)).
Proof.
  revert l2. induction l1 as [|a l1 IH]; intros [|b l2]; simpl;
    try constructor; [|apply IH].
  right. by eexists.
Qed.

Lemma diff_fin (prices : list Q) : Forall nan_or_fin (diff (Fin <$> prices)).
Proof.
  destruct prices as [|p prices]; simpl; constructor; [by left|].
  apply (zip_with_fsub_fin prices (p :: prices)).
Qed.

Lemma gain_of_nonneg delta :
  Forall nan_or_fin delta → Forall fin_nonneg (gain_of delta).
Proof.
  unfold gain_of, where_. induction 1 as [|v delta Hv _ IH]; simpl;
    constructor; [|done].
  destruct Hv as [->|[d ->]]; simpl.
  - exists 0%Q. split; [done|lra].
  - destruct (0 ?= d)%Q eqn:Hd.
    + exists 0%Q. split; [done|lra].
    + exists d. split; [done|]. apply Qlt_alt in Hd. lra.
    + exists 0%Q. split; [done|lra].
Qed.

Lemma loss_of_nonneg delta :
  Forall nan_or_fin delta → Forall fin_nonneg (loss_of delta).
Proof.
  unfold loss_of, where_. induction 1 as [|v delta Hv _ IH]; simpl;
    constructor; [|done].
  destruct Hv as [->|[d ->]]; simpl.
  - exists (- 0)%Q. split; [done|lra].
  - destruct (d ?= 0)%Q eqn:Hd; simpl.
    + exists (- 0)%Q. split; [done|lra].
    + exists (- d)%Q. split; [done|]. apply Qlt_alt in Hd. lra.
    + exists (- 0)%Q. split; [done|lra].
Qed.

Lemma ewm_loop_cons alpha minp weighted old_wt n cur rest :
  ewm_loop alpha minp weighted old_wt n (cur :: rest) =
    let n' := if notna cur then S n else n in
    let st := ewm_update alpha weighted old_wt cur in
    (if (minp <=? n')%nat then st.1 else NaN)
      :: ewm_loop alpha minp st.1 st.2 n' rest.
Proof. simpl. by destruct (ewm_update alpha weighted old_wt cur). Qed.

Lemma ewm_loop_length alpha minp vals :
  ∀ weighted old_wt n,
    length (ewm_loop alpha minp weighted old_wt n vals) = length vals.
Proof.
  induction vals as [|v vals IH]; intros weighted old_wt n; [done|].
  rewrite ewm_loop_cons. simpl. by rewrite IH.
Qed.

Lemma ewm_kernel_length alpha minp vals :
  length (ewm_kernel alpha minp vals) = length vals.
Proof. destruct vals; simpl; [done|]. by rewrite ewm_loop_length. Qed.

(** An observation after a finite average, the weight of the history being
    1: the new average is [(1 - alpha) * weighted + alpha * cur], and the
    weight is 1 again. *)
Lemma ewm_update_fin (a y x : Q) :
  ∃ q, ewm_update (Fin a) (Fin y) (Fin 1) (Fin x) = (Fin q, Fin 1)
       ∧ (q == (1 - a) * y + a * x)%Q.
Proof.
  unfold ewm_update. simpl. destruct (Qeq_bool y x) eqn:Hyx; simpl.
  - apply Qeq_bool_eq in Hyx. exists y. split; [done|]. rewrite Hyx. ring.
  - destruct (Qeq_bool (1 * (1 + - a) + a) 0) eqn:Hd.
    { apply Qeq_bool_eq in Hd. lra. }
    eexists. split; [done|]. field. lra.
Qed.

(** The loop on observations only: the outputs are the averages, each
    related to the one before it and to its observation. *)
Lemma ewm_loop_fin (P : Q → Prop) (R : Q → Prop) (a : Q) vals :
  (∀ y x q, P y → R x → (q == (1 - a) * y + a * x)%Q → P q ∧ R q) →
  Forall (λ v, ∃ x, v = Fin x ∧ R x) vals →
  ∀ y n, P y →
    Forall (λ v, ∃ q, v = Fin q ∧ P q ∧ R q)
      (ewm_loop (Fin a) 1 (Fin y) (Fin 1) n vals).
Proof.
  intros Hstep.
  induction 1 as [|v vals (x & -> & Hx) _ IH]; intros y n Hy; [done|].
  rewrite ewm_loop_cons.
  destruct (ewm_update_fin a y x) as (q & Hq & Hqe).
  destruct (Hstep y x q Hy Hx Hqe) as [HPq HRq].
  cbv zeta. rewrite Hq. simpl. constructor; [by exists q|]. by apply IH.
Qed.

Lemma ewm_kernel_nonneg (a : Q) vals :
  (0 <= a)%Q → (a <= 1)%Q →
  Forall fin_nonneg vals →
  Forall fin_nonneg (ewm_kernel (Fin a) 1 vals).
Proof.
  intros Ha0 Ha1 [|v rest (x & -> & Hx) Hrest]; simpl; [done|].
  constructor; [by exists x|].
  eapply Forall_impl.
  - apply (ewm_loop_fin (λ y, 0 <= y)%Q (λ x, 0 <= x)%Q); [| |exact Hx].
    + intros y x' q Hy Hx' Hq. rewrite Hq. split; nra.
    + eapply Forall_impl; [exact Hrest|]. intros v (x' & -> & Hx'). eauto.
  - intros v (q & -> & Hq & _). by exists q.
Qed.

(** The smoothing factor of a window of at least 1 lies in (0, 1]. *)
Lemma ewm_alpha (window : nat) :
  1 ≤ window →
  ∃ a, fdiv (Fin 1) (fadd (Fin 1) (of_Z (Z.of_nat window - 1))) = Fin a
       ∧ (0 < a)%Q ∧ (a <= 1)%Q.
Proof.
  intros Hw. simpl.
  assert (Hz : (0 <= inject_Z (Z.of_nat window - 1))%Q).
  { change 0%Q with (inject_Z 0). rewrite <- Zle_Qle. lia. }
  destruct (Qeq_bool (1 + inject_Z (Z.of_nat window - 1)) 0) eqn:Hd.
  { apply Qeq_bool_eq in Hd. lra. }
  eexists. split; [done|]. split.
  - apply Qlt_shift_div_l; lra.
  - apply Qle_shift_div_r; lra.
Qed.

Lemma fin_nonneg_nan_or_fin vals :
  Forall fin_nonneg vals → Forall nan_or_fin vals.
Proof.
  intros H. eapply Forall_impl; [exact H|].
  intros v (q & -> & _). right. by exists q.
Qed.

Lemma ewm_mean_nonneg (window : nat) vals :
  1 ≤ window → Forall fin_nonneg vals →
  ∃ out, ewm_mean (Z.of_nat window - 1) vals = Ok out
         ∧ length out = length vals
         ∧ Forall fin_nonneg out.
Proof.
  intros Hw Hvals. unfold ewm_mean.
  destruct (Z.of_nat window - 1 <? 0)%Z eqn:Hlt; [lia|].
  destruct (ewm_alpha window Hw) as (a & -> & Ha0 & Ha1).
  rewrite (prep_values_fin vals) by by apply fin_nonneg_nan_or_fin.
  eexists. split; [done|]. split.
  - by rewrite ewm_kernel_length.
  - apply ewm_kernel_nonneg; [lra|done..].
Qed.

(** One cell of the oscillator after [fillna(100)]. *)
Lemma rsi_cell_bounds (g l : Q) :
  (0 <= g)%Q → (0 <= l)%Q →
  let raw := rsi_of_rs (fdiv (Fin g) (Fin l)) in
  ∃ q, (if isna raw then Fin 100 else raw) = Fin q
       ∧ (0 <= q)%Q ∧ (q <= 100)%Q
       ∧ ((l == 0)%Q → (q == 100)%Q).
Proof.
  intros Hg Hl. cbv zeta. unfold rsi_of_rs. simpl.
  destruct (Qeq_bool l 0) eqn:Hl0.
  - destruct (g ?= 0)%Q; simpl; eexists; (split; [done|]); lra.
  - apply Qeq_bool_neq in Hl0.
    assert (Hr : (0 <= g / l)%Q) by (apply Qle_shift_div_l; lra).
    simpl.
    destruct (Qeq_bool (1 + g / l) 0) eqn:Hd.
    { apply Qeq_bool_eq in Hd. lra. }
    simpl. eexists. split; [done|].
    assert (H1 : (0 < 100 / (1 + g / l))%Q)
      by (apply Qlt_shift_div_l; lra).
    assert (H2 : (100 / (1 + g / l) <= 100)%Q)
      by (apply Qle_shift_div_r; lra).
    split_and!; [lra|lra|]. intros Hz. by destruct Hl0.
Qed.

Lemma mask_head_length n s : length (mask_head n s) = length s.
Proof.
  unfold mask_head. rewrite length_app, length_replicate, length_drop. lia.
Qed.

Lemma mask_head_lookup n s i :
  i < length s →
  mask_head n s !! i = if decide (i < n) then Some NaN else s !! i.
Proof.
  intros Hi. unfold mask_head. case_decide.
  - rewrite lookup_app_l by (rewrite length_replicate; lia).
    apply lookup_replicate_2. lia.
  - rewrite lookup_app_r by (rewrite length_replicate; lia).
    rewrite length_replicate, lookup_drop. f_equal. lia.
Qed.

Lemma filled_lookup avg_gain avg_loss i g l :
  avg_gain !! i = Some g → avg_loss !! i = Some l →
  fillna (Fin 100) (rsi_of_rs <$> zip_with fdiv avg_gain avg_loss) !! i =
    Some (if isna (rsi_of_rs (fdiv g l)) then Fin 100
          else rsi_of_rs (fdiv g l)).
Proof.
  intros Hg Hl.
  assert (Hz : zip_with fdiv avg_gain avg_loss !! i = Some (fdiv g l)).
  { apply lookup_zip_with_Some. eauto. }
  unfold fillna.
  change (map ?f ?l) with (f <$> l).
  by rewrite !list_lookup_fmap, Hz.
Qed.

(** C5.  For a window of at least 1 over a series of prices,
    [calculate_rsi] returns one cell per price.  After [fillna(100)] every
    cell is a number in [0, 100], and it is 100 wherever the smoothed loss
    is zero.  In the result the first [window] cells are NaN whatever was
    computed for them, and every later cell is the filled one: a number in
    [0, 100], equal to 100 where the smoothed loss is zero. *)
Theorem calculate_rsi_bounded (data : DataFrame) (prices : list Q)
    (window : nat) :
  1 ≤ window →
  columns data !! "Close" = Some (Fin <$> prices) →
  ∃ rsi filled avg_loss,
    calculate_rsi data window = Ok rsi
    ∧ rsi_filled (Fin <$> prices) window = Ok filled
    ∧ avg_loss_of (Fin <$> prices) window = Ok avg_loss
    ∧ length rsi = length prices
    ∧ ∀ i, i < length prices →
        (∃ l q, avg_loss !! i = Some (Fin l)
                ∧ filled !! i = Some (Fin q)
                ∧ (0 <= q)%Q ∧ (q <= 100)%Q
                ∧ ((l == 0)%Q → (q == 100)%Q))
        ∧ (i < window → rsi !! i = Some NaN)
        ∧ (window ≤ i → rsi !! i = filled !! i).
Proof.
  intros Hw Hclose. unfold calculate_rsi, rsi_filled. rewrite Hclose.
  unfold avg_gain_of, avg_loss_of.
  pose proof (diff_fin prices) as Hdelta.
  pose proof (diff_length (Fin <$> prices)) as Hdl.
  rewrite length_fmap in Hdl.
  destruct (ewm_mean_nonneg window _ Hw (gain_of_nonneg _ Hdelta))
    as (avg_gain & -> & Hlg & Hg).
  destruct (ewm_mean_nonneg window _ Hw (loss_of_nonneg _ Hdelta))
    as (avg_loss & -> & Hll & Hl).
  unfold gain_of, where_ in Hlg. unfold loss_of, where_ in Hll.
  rewrite !length_map in Hlg. rewrite !length_map in Hll.
  rewrite Hdl in Hlg. rewrite Hdl in Hll.
  simpl.
  set (filled := fillna (Fin 100)
                   (rsi_of_rs <$> zip_with fdiv avg_gain avg_loss)).
  assert (Hlf : length filled = length prices).
  { unfold filled, fillna.
    rewrite !length_fmap, length_zip_with. lia. }
  exists (mask_head window filled), filled, avg_loss.
  split_and!; try done.
  { by rewrite mask_head_length. }
  intros i Hi. split_and!.
  - destruct (lookup_lt_is_Some_2 avg_gain i) as [g Hgi]; [lia|].
    destruct (lookup_lt_is_Some_2 avg_loss i) as [l Hli]; [lia|].
    destruct (Forall_lookup_1 _ _ _ _ Hg Hgi) as (g' & -> & Hg').
    destruct (Forall_lookup_1 _ _ _ _ Hl Hli) as (l' & -> & Hl').
    destruct (rsi_cell_bounds g' l' Hg' Hl') as (q & Hq & Hq0 & Hq1 & Hz).
    exists l', q. split; [done|]. split; [|done].
    unfold filled. by rewrite (filled_lookup _ _ _ _ _ Hgi Hli), Hq.
  - intros Hlt. rewrite mask_head_lookup by lia. by rewrite decide_True.
  - intros Hge. rewrite mask_head_lookup by lia.
    by rewrite decide_False by lia.
Qed.

Lemma calculate_rsi_bounded_witness :
  ∃ rsi, calculate_rsi signal_frame 3 = Ok rsi
         ∧ length rsi = 8
         ∧ rsi !! 2 = Some NaN.
Proof.
  destruct (calculate_rsi_bounded signal_frame
              (inject_Z <$> [100; 98; 96; 94; 92; 150; 150; 140]%Z) 3)
    as (rsi & filled & avg_loss & Hrsi & _ & _ & Hlen & Hcells).
  - lia.
  - reflexivity.
  - exists rsi. split; [exact Hrsi|]. split; [exact Hlen|].
    destruct (Hcells 2) as (_ & Hnan & _); [simpl; lia|].
    apply Hnan. lia.
Defined.

(** A window of 0 is refused by the smoothing ([com = -1]). *)
Lemma calculate_rsi_window_0 (data : DataFrame) :
  is_Some (columns data !! "Close") →
  calculate_rsi data 0 = Raise ValueError.
Proof. intros [close Hclose]. unfold calculate_rsi. by rewrite Hclose. Qed.


(** * Further properties of the code *)

(** ** The rolling mean on arbitrary cells *)

Lemma count_obs_app l1 l2 : count_obs (l1 ++ l2) = count_obs l1 + count_obs l2.
Proof. induction l1 as [|v l1 IH]; simpl; [done|]. rewrite IH. lia. Qed.

Lemma count_obs_le_length l : count_obs l ≤ length l.
Proof. induction l as [|v l IH]; simpl; [done|]. destruct (notna v); lia. Qed.

Lemma count_obs_nan l : NaN ∈ l → count_obs l < length l.
Proof.
  induction l as [|v l IH]; [by intros ?%elem_of_nil|].
  intros [<-|Hin]%elem_of_cons; simpl.
  - pose proof (count_obs_le_length l). lia.
  - specialize (IH Hin). destruct (notna v); lia.
Qed.

(** Turning infinite values into NaN can only lose observations. *)
Lemma count_obs_prep_values l : count_obs (prep_values l) ≤ count_obs l.
Proof.
  induction l as [|v l IH]; simpl; [done|]. destruct v; simpl; lia.
Qed.

Lemma prep_values_slice a b l :
  slice a b (prep_values l) = prep_values (slice a b l).
Proof. unfold prep_values. apply (slice_fmap _ a b l). Qed.

Lemma foldl_add_mean_nobs l :
  ∀ st, nobs (foldl add_mean st l) = nobs st + count_obs l.
Proof.
  induction l as [|v l IH]; intros st; simpl; [lia|].
  rewrite IH. unfold add_mean. destruct (notna v); simpl; lia.
Qed.

Lemma foldl_remove_mean_nobs l :
  ∀ st, nobs (foldl remove_mean st l) = nobs st - count_obs l.
Proof.
  induction l as [|v l IH]; intros st; simpl; [lia|].
  rewrite IH. unfold remove_mean. destruct (notna v); simpl; lia.
Qed.

Lemma roll_step_nobs window vals st i :
  i = 0 ∨ nobs st = count_obs (slice (i - window) i vals) →
  nobs (roll_step window vals st i) =
    count_obs (slice (i + 1 - window) (i + 1) vals).
Proof.
  intros Hst. unfold roll_step, window_start.
  destruct (Nat.eqb i 0 || (i <=? i + 1 - window)) eqn:Hfresh.
  - by rewrite foldl_add_mean_nobs.
  - apply orb_false_iff in Hfresh as [Hi0%Nat.eqb_neq Hlt%Nat.leb_gt].
    destruct Hst as [->|Hn]; [done|].
    replace (i - 1 + 1 - window) with (i - window) by lia.
    rewrite foldl_add_mean_nobs, foldl_remove_mean_nobs, Hn.
    rewrite (slice_split (i + 1 - window) i (i + 1)) by lia.
    rewrite (slice_split (i - window) (i + 1 - window) i) by lia.
    rewrite !count_obs_app. lia.
Qed.

Lemma roll_mean_loop_nobs window vals :
  ∀ n a st,
    a = 0 ∨ nobs st = count_obs (slice (a - window) a vals) →
    ∀ j v,
      roll_mean_loop window window vals (seq a n) st !! j = Some v →
      count_obs (slice (a + j + 1 - window) (a + j + 1) vals) < window
      ∨ count_obs (slice (a + j + 1 - window) (a + j + 1) vals) = 0 →
      v = NaN.
Proof.
  induction n as [|n IH]; intros a st Hst j v; simpl; [done|].
  pose proof (roll_step_nobs window vals st a Hst) as Hn.
  destruct j as [|j]; simpl.
  - intros [= <-]. rewrite Nat.add_0_r. intros Hcount.
    unfold calc_mean. rewrite Hn.
    destruct Hcount as [Hlt| ->].
    + by replace (window <=? _) with false
        by (symmetry; apply Nat.leb_gt; lia).
    + by rewrite andb_false_r.
  - intros Hv. replace (a + S j + 1) with (S a + j + 1) by lia.
    apply (IH (S a) _ ltac:(right; by replace (S a) with (a + 1) by lia)
             j v Hv).
Qed.

(** The moving average needs a full window of observations: the cell at
    [i] is NaN whenever fewer than [window] cells of the trailing window
    are observed - in particular before index [window - 1], when a cell of
    the window is itself NaN, and everywhere for a window of 0. *)
Theorem calculate_sma_needs_full_window (data : DataFrame) (close : Series)
    (window i : nat) (v : fval) :
  columns data !! "Close" = Some close →
  calculate_sma data window !! i = Some v →
  (count_obs (slice (i + 1 - window) (i + 1) close) < window → v = NaN)
  ∧ (i + 1 < window → v = NaN)
  ∧ (∀ k, i + 1 - window ≤ k → k ≤ i → close !! k = Some NaN → v = NaN)
  ∧ (window = 0 → v = NaN).
Proof.
  intros Hclose. unfold calculate_sma, rolling_mean. rewrite Hclose.
  cbv zeta. rewrite prep_values_length. intros Hv.
  assert (Hi : i < length close).
  { apply lookup_lt_Some in Hv.
    by rewrite roll_mean_loop_length, length_seq in Hv. }
  pose proof (roll_mean_loop_nobs window (prep_values close) (length close)
                0 roll_init (or_introl eq_refl) i v Hv) as Hprep.
  simpl in Hprep.
  assert (Hnan : count_obs (slice (i + 1 - window) (i + 1) close) < window
                 ∨ count_obs (slice (i + 1 - window) (i + 1) close) = 0 →
                 v = NaN).
  { intros Hcount. apply Hprep.
    pose proof (count_obs_prep_values
                  (slice (i + 1 - window) (i + 1) close)) as Hle.
    rewrite <- prep_values_slice in Hle. lia. }
  pose proof (count_obs_le_length (slice (i + 1 - window) (i + 1) close))
    as Hle.
  rewrite slice_length in Hle by lia.
  split_and!.
  - intros Hlt. apply Hnan. by left.
  - intros Hlt. apply Hnan. left. lia.
  - intros k Hk1 Hk2 Hk. apply Hnan. left.
    assert (Hin : NaN ∈ slice (i + 1 - window) (i + 1) close).
    { apply list_elem_of_lookup. exists (k - (i + 1 - window)).
      unfold slice. rewrite lookup_take_lt by lia.
      rewrite lookup_drop. by replace (i + 1 - window + (k - _)) with k by lia. }
    apply count_obs_nan in Hin. rewrite slice_length in Hin by lia. lia.
  - intros ->. apply Hnan. right.
    replace (i + 1 - 0) with (i + 1) by lia.
    unfold slice. by rewrite Nat.sub_diag.
Qed.

Lemma calculate_sma_needs_full_window_witness :
  calculate_sma
    (mkFrame 5 {[ "Close" := [Fin 1; NaN; Fin 3; Fin 4; Fin 5] ]}) 2 !! 2
  = Some NaN.
Proof.
  set (close := [Fin 1; NaN; Fin 3; Fin 4; Fin 5]).
  set (data := mkFrame 5 {[ "Close" := close ]}).
  destruct (calculate_sma data 2 !! 2) as [v|] eqn:Hv;
    [|by vm_compute in Hv].
  f_equal.
  refine (proj1 (proj2 (proj2 (calculate_sma_needs_full_window data close
                                 2 2 v _ Hv))) 1 _ _ _).
  - reflexivity.
  - simpl. lia.
  - lia.
  - reflexivity.
Defined.


(** ** The oscillator on arbitrary cells, and on monotone prices *)

Lemma ewm_mean_window (window : nat) :
  1 ≤ window →
  ∃ a, (0 < a)%Q ∧ (a <= 1)%Q
    ∧ ∀ vals, ewm_mean (Z.of_nat window - 1) vals =
        Ok (ewm_kernel (Fin a) 1 (prep_values vals)).
Proof.
  intros Hw. destruct (ewm_alpha window Hw) as (a & Ha & Ha0 & Ha1).
  exists a. split_and!; [done..|]. intros vals. unfold ewm_mean.
  destruct (Z.of_nat window - 1 <? 0)%Z eqn:Hlt; [lia|]. by rewrite Ha.
Qed.

Lemma ewm_series_length (a : fval) (vals : Series) :
  length (ewm_kernel a 1 (prep_values vals)) = length vals.
Proof. by rewrite ewm_kernel_length, prep_values_length. Qed.

Lemma gain_of_length delta : length (gain_of delta) = length delta.
Proof. unfold gain_of, where_. by rewrite length_map. Qed.

Lemma loss_of_length delta : length (loss_of delta) = length delta.
Proof. unfold loss_of, where_. by rewrite !length_map. Qed.

Lemma fillna_length x s : length (fillna x s) = length s.
Proof. unfold fillna. by rewrite length_map. Qed.

Lemma fillna_lookup_not_nan s i v :
  fillna (Fin 100) s !! i = Some v → isna v = false.
Proof.
  unfold fillna. change (map ?f ?l) with (f <$> l).
  rewrite list_lookup_fmap. destruct (s !! i) as [u|]; simpl; [|done].
  intros [= <-]. by destruct u.
Qed.

(** For a window of at least 1 and any Close column, missing or infinite
    prices included, [calculate_rsi] returns one cell per row; the first
    [window] cells are NaN and no later cell is: where the computation gave
    NaN, [fillna(100)] has put 100.  A series no longer than the window is
    NaN throughout. *)
Theorem calculate_rsi_warm_up (data : DataFrame) (close : Series)
    (window : nat) :
  1 ≤ window →
  columns data !! "Close" = Some close →
  ∃ rsi, calculate_rsi data window = Ok rsi
    ∧ length rsi = length close
    ∧ (∀ i, i < window → i < length close → rsi !! i = Some NaN)
    ∧ (∀ i v, window ≤ i → rsi !! i = Some v → isna v = false)
    ∧ (length close ≤ window → rsi = replicate (length close) NaN).
Proof.
  intros Hw Hclose. unfold calculate_rsi, rsi_filled. rewrite Hclose.
  unfold avg_gain_of, avg_loss_of.
  destruct (ewm_mean_window window Hw) as (a & _ & _ & Hewm).
  rewrite !Hewm. simpl.
  set (avg_gain := ewm_kernel (Fin a) 1 (prep_values (gain_of (diff close)))).
  set (avg_loss := ewm_kernel (Fin a) 1 (prep_values (loss_of (diff close)))).
  set (filled := fillna (Fin 100)
                   (rsi_of_rs <$> zip_with fdiv avg_gain avg_loss)).
  assert (Hlf : length filled = length close).
  { unfold filled, avg_gain, avg_loss.
    rewrite fillna_length, length_fmap, length_zip_with.
    rewrite !ewm_series_length, gain_of_length, loss_of_length.
    rewrite diff_length. lia. }
  exists (mask_head window filled). split; [done|]. split_and!.
  - by rewrite mask_head_length.
  - intros i Hi Hlen. rewrite mask_head_lookup by lia.
    by rewrite decide_True.
  - intros i v Hi Hv.
    assert (Hlen : i < length filled).
    { apply lookup_lt_Some in Hv. by rewrite mask_head_length in Hv. }
    rewrite mask_head_lookup, decide_False in Hv by lia.
    by eapply fillna_lookup_not_nan.
  - intros Hle. unfold mask_head.
    rewrite drop_ge, app_nil_r by lia. f_equal. lia.
Qed.

Lemma calculate_rsi_warm_up_witness :
  ∃ rsi, calculate_rsi
           (mkFrame 3 {[ "Close" := [Fin 1; NaN; PInf] ]}) 3 = Ok rsi
    ∧ rsi = replicate 3 NaN.
Proof.
  destruct (calculate_rsi_warm_up
              (mkFrame 3 {[ "Close" := [Fin 1; NaN; PInf] ]})
              [Fin 1; NaN; PInf] 3) as (rsi & Hrsi & _ & _ & _ & Hall).
  - lia.
  - reflexivity.
  - exists rsi. split; [exact Hrsi|]. apply Hall. simpl. lia.
Defined.

(** A series of zeros is smoothed to zeros. *)
Lemma ewm_kernel_zero (a : Q) vals :
  Forall fin_zero vals → Forall fin_zero (ewm_kernel (Fin a) 1 vals).
Proof.
  intros [|v rest (x & -> & Hx) Hrest]; simpl; [done|].
  constructor; [by exists x|].
  eapply Forall_impl.
  - apply (ewm_loop_fin (λ y, y == 0)%Q (λ x, x == 0)%Q); [| |exact Hx].
    + intros y x' q Hy Hx' Hq. rewrite Hq, Hy, Hx'. split; ring.
    + eapply Forall_impl; [exact Hrest|]. intros v (x' & -> & Hx'). eauto.
  - intros v (q & -> & Hq & _). by exists q.
Qed.

(** After a first value that is not negative, positive values are smoothed
    to positive values. *)
Lemma ewm_kernel_pos (a x0 : Q) rest :
  (0 < a)%Q → (a <= 1)%Q → (0 <= x0)%Q →
  Forall fin_pos rest →
  ∃ tl, ewm_kernel (Fin a) 1 (Fin x0 :: rest) = Fin x0 :: tl
        ∧ Forall fin_pos tl.
Proof.
  intros Ha0 Ha1 Hx0 Hrest. eexists. split; [reflexivity|].
  eapply Forall_impl.
  - apply (ewm_loop_fin (λ y, 0 <= y)%Q (λ x, 0 < x)%Q); [| |exact Hx0].
    + intros y x' q Hy Hx' Hq. rewrite Hq. split; nra.
    + eapply Forall_impl; [exact Hrest|]. intros v (x' & -> & Hx'). eauto.
  - intros v (q & -> & _ & Hq). by exists q.
Qed.

(** The price differences of a series that never falls, and of one that
    always falls. *)
Lemma deltas_nonneg (p : Q) (tl : list Q) :
  Sorted Qle (p :: tl) →
  Forall fin_nonneg (zip_with fsub (Fin <$> tl) (Fin <$> p :: tl)).
Proof.
  revert p. induction tl as [|q tl IH]; intros p Hs; simpl; [done|].
  apply Sorted_inv in Hs as [Hs Hhd]. apply HdRel_inv in Hhd.
  constructor; [|by apply IH].
  eexists. split; [done|]. lra.
Qed.

Lemma deltas_neg (p : Q) (tl : list Q) :
  Sorted (λ x y, (y < x)%Q) (p :: tl) →
  Forall (λ v, ∃ d, v = Fin d ∧ (d < 0)%Q)
    (zip_with fsub (Fin <$> tl) (Fin <$> p :: tl)).
Proof.
  revert p. induction tl as [|q tl IH]; intros p Hs; simpl; [done|].
  apply Sorted_inv in Hs as [Hs Hhd]. apply HdRel_inv in Hhd.
  constructor; [|by apply IH].
  eexists. split; [done|]. lra.
Qed.

Lemma loss_of_never_falls delta :
  Forall fin_nonneg delta → Forall fin_zero (loss_of delta).
Proof.
  unfold loss_of, where_. induction 1 as [|v delta (d & -> & Hd) _ IH]; simpl;
    constructor; [|done].
  destruct (d ?= 0)%Q eqn:Hc; simpl.
  - exists (- 0)%Q. split; [done|lra].
  - apply Qlt_alt in Hc. lra.
  - exists (- 0)%Q. split; [done|lra].
Qed.

Lemma gain_of_always_falls delta :
  Forall (λ v, ∃ d, v = Fin d ∧ (d < 0)%Q) delta →
  Forall fin_zero (gain_of delta).
Proof.
  unfold gain_of, where_. induction 1 as [|v delta (d & -> & Hd) _ IH]; simpl;
    constructor; [|done].
  destruct (0 ?= d)%Q eqn:Hc; simpl.
  - exists 0%Q. split; [done|lra].
  - apply Qlt_alt in Hc. lra.
  - exists 0%Q. split; [done|lra].
Qed.

Lemma loss_of_always_falls delta :
  Forall (λ v, ∃ d, v = Fin d ∧ (d < 0)%Q) delta →
  Forall fin_pos (loss_of delta).
Proof.
  unfold loss_of, where_. induction 1 as [|v delta (d & -> & Hd) _ IH]; simpl;
    constructor; [|done].
  destruct (d ?= 0)%Q eqn:Hc; simpl.
  - apply Qeq_alt in Hc. lra.
  - exists (- d)%Q. split; [done|lra].
  - apply Qgt_alt in Hc. lra.
Qed.

Lemma rsi_cell_zero (g l : Q) :
  (g == 0)%Q → (0 < l)%Q →
  let raw := rsi_of_rs (fdiv (Fin g) (Fin l)) in
  ∃ q, (if isna raw then Fin 100 else raw) = Fin q ∧ (q == 0)%Q.
Proof.
  intros Hg Hl. cbv zeta. unfold rsi_of_rs. simpl.
  destruct (Qeq_bool l 0) eqn:Hl0.
  { apply Qeq_bool_eq in Hl0. lra. }
  assert (Hr : (g / l == 0)%Q) by (rewrite Hg; unfold Qdiv; ring).
  simpl. destruct (Qeq_bool (1 + g / l) 0) eqn:Hd.
  { apply Qeq_bool_eq in Hd. lra. }
  simpl. eexists. split; [done|]. rewrite Hr. reflexivity.
Qed.

(** [calculate_rsi] on a non-empty series of prices, stage by stage. *)
Lemma calculate_rsi_stages (data : DataFrame) (p : Q) (tl : list Q)
    (window : nat) :
  1 ≤ window →
  columns data !! "Close" = Some (Fin <$> p :: tl) →
  let deltas := zip_with fsub (Fin <$> tl) (Fin <$> p :: tl) in
  ∃ a, (0 < a)%Q ∧ (a <= 1)%Q
    ∧ calculate_rsi data window =
        Ok (mask_head window
              (fillna (Fin 100)
                 (rsi_of_rs <$>
                    zip_with fdiv
                      (ewm_kernel (Fin a) 1 (Fin 0 :: gain_of deltas))
                      (ewm_kernel (Fin a) 1 (Fin (- 0) :: loss_of deltas))))).
Proof.
  intros Hw Hclose deltas.
  destruct (ewm_mean_window window Hw) as (a & Ha0 & Ha1 & Hewm).
  exists a. split_and!; [done..|].
  unfold calculate_rsi, rsi_filled, avg_gain_of, avg_loss_of.
  rewrite Hclose, !Hewm.
  pose proof (diff_fin (p :: tl)) as Hdelta.
  rewrite (prep_values_fin (gain_of _))
    by by apply fin_nonneg_nan_or_fin, gain_of_nonneg.
  rewrite (prep_values_fin (loss_of _))
    by by apply fin_nonneg_nan_or_fin, loss_of_nonneg.
  reflexivity.
Qed.

(** The cell of the filled oscillator at index [i], from the smoothed gain
    and loss at [i]. *)
Lemma rsi_stage_lookup window avg_gain avg_loss i g l :
  window ≤ i →
  avg_gain !! i = Some g → avg_loss !! i = Some l →
  mask_head window
    (fillna (Fin 100) (rsi_of_rs <$> zip_with fdiv avg_gain avg_loss)) !! i =
    Some (if isna (rsi_of_rs (fdiv g l)) then Fin 100
          else rsi_of_rs (fdiv g l)).
Proof.
  intros Hi Hg Hl.
  pose proof (filled_lookup _ _ _ _ _ Hg Hl) as Hf.
  rewrite mask_head_lookup by (by eapply lookup_lt_Some).
  by rewrite decide_False by lia.
Qed.

(** On prices that never fall there is no loss to smooth: past the
    warm-up every cell of [calculate_rsi] is 100. *)
Theorem calculate_rsi_never_falling (data : DataFrame) (prices : list Q)
    (window : nat) :
  1 ≤ window →
  Sorted Qle prices →
  columns data !! "Close" = Some (Fin <$> prices) →
  ∃ rsi, calculate_rsi data window = Ok rsi
    ∧ ∀ i, window ≤ i → i < length prices →
        ∃ q, rsi !! i = Some (Fin q) ∧ (q == 100)%Q.
Proof.
  intros Hw Hsorted Hclose. destruct prices as [|p tl].
  { destruct (ewm_mean_window window Hw) as (a & _ & _ & Hewm).
    eexists. split; [|simpl; lia].
    unfold calculate_rsi, rsi_filled, avg_gain_of, avg_loss_of.
    rewrite Hclose, !Hewm. reflexivity. }
  destruct (calculate_rsi_stages data p tl window Hw Hclose)
    as (a & Ha0 & Ha1 & ->).
  pose proof (deltas_nonneg p tl Hsorted) as Hdelta.
  set (deltas := zip_with fsub (Fin <$> tl) (Fin <$> p :: tl)) in *.
  assert (Hlen : length deltas = length tl).
  { unfold deltas. rewrite length_zip_with, !length_fmap. simpl. lia. }
  assert (Hg : Forall fin_nonneg
                 (ewm_kernel (Fin a) 1 (Fin 0 :: gain_of deltas))).
  { assert (Hz : fin_nonneg (Fin 0)) by (eexists; split; [done|lra]).
    apply ewm_kernel_nonneg; [lra|done|]. constructor; [done|].
    apply gain_of_nonneg.
    eapply Forall_impl; [exact Hdelta|]. intros v (d & -> & _).
    right. by eexists. }
  assert (Hl : Forall fin_zero
                 (ewm_kernel (Fin a) 1 (Fin (- 0) :: loss_of deltas))).
  { assert (Hz : fin_zero (Fin (- 0))) by (eexists; split; [done|lra]).
    apply ewm_kernel_zero. constructor; [done|].
    by apply loss_of_never_falls. }
  eexists. split; [done|]. intros i Hi Hilen. simpl in Hilen.
  destruct (lookup_lt_is_Some_2
              (ewm_kernel (Fin a) 1 (Fin 0 :: gain_of deltas)) i)
    as [g Hgi].
  { rewrite ewm_kernel_length. simpl. rewrite gain_of_length. lia. }
  destruct (lookup_lt_is_Some_2
              (ewm_kernel (Fin a) 1 (Fin (- 0) :: loss_of deltas)) i)
    as [l Hli].
  { rewrite ewm_kernel_length. simpl. rewrite loss_of_length. lia. }
  destruct (Forall_lookup_1 _ _ _ _ Hg Hgi) as (g' & -> & Hg').
  destruct (Forall_lookup_1 _ _ _ _ Hl Hli) as (l' & -> & Hl').
  destruct (rsi_cell_bounds g' l' Hg' ltac:(lra)) as (q & Hq & _ & _ & Hz).
  exists q. split; [|by apply Hz].
  by rewrite (rsi_stage_lookup _ _ _ _ _ _ Hi Hgi Hli), Hq.
Qed.

Lemma calculate_rsi_never_falling_witness :
  ∃ rsi q, calculate_rsi
             (mkFrame 4 {[ "Close" := Fin <$> [1; 2; 2; 5]%Q ]}) 2 = Ok rsi
    ∧ rsi !! 3 = Some (Fin q) ∧ (q == 100)%Q.
Proof.
  destruct (calculate_rsi_never_falling
              (mkFrame 4 {[ "Close" := Fin <$> [1; 2; 2; 5]%Q ]})
              [1; 2; 2; 5]%Q 2) as (rsi & Hrsi & Hcells).
  - lia.
  - repeat constructor; by vm_compute.
  - reflexivity.
  - destruct (Hcells 3) as (q & Hq & H100); [lia|simpl; lia|].
    exists rsi, q. split; [exact Hrsi|]. split; [exact Hq|exact H100].
Defined.

(** On prices that fall at every step there is no gain: past the warm-up
    every cell of [calculate_rsi] is 0. *)
Theorem calculate_rsi_always_falling (data : DataFrame) (prices : list Q)
    (window : nat) :
  1 ≤ window →
  Sorted (λ x y, (y < x)%Q) prices →
  columns data !! "Close" = Some (Fin <$> prices) →
  ∃ rsi, calculate_rsi data window = Ok rsi
    ∧ ∀ i, window ≤ i → i < length prices →
        ∃ q, rsi !! i = Some (Fin q) ∧ (q == 0)%Q.
Proof.
  intros Hw Hsorted Hclose. destruct prices as [|p tl].
  { destruct (ewm_mean_window window Hw) as (a & _ & _ & Hewm).
    eexists. split; [|simpl; lia].
    unfold calculate_rsi, rsi_filled, avg_gain_of, avg_loss_of.
    rewrite Hclose, !Hewm. reflexivity. }
  destruct (calculate_rsi_stages data p tl window Hw Hclose)
    as (a & Ha0 & Ha1 & ->).
  pose proof (deltas_neg p tl Hsorted) as Hdelta.
  set (deltas := zip_with fsub (Fin <$> tl) (Fin <$> p :: tl)) in *.
  assert (Hlen : length deltas = length tl).
  { unfold deltas. rewrite length_zip_with, !length_fmap. simpl. lia. }
  assert (Hg : Forall fin_zero
                 (ewm_kernel (Fin a) 1 (Fin 0 :: gain_of deltas))).
  { assert (Hz : fin_zero (Fin 0)) by (eexists; split; [done|lra]).
    apply ewm_kernel_zero. constructor; [done|].
    by apply gain_of_always_falls. }
  destruct (ewm_kernel_pos a (- 0) (loss_of deltas) Ha0 Ha1 ltac:(lra)
              (loss_of_always_falls _ Hdelta)) as (avg_loss & Hkl & Hl).
  rewrite Hkl.
  eexists. split; [done|]. intros i Hi Hilen. simpl in Hilen.
  destruct i as [|i]; [lia|].
  destruct (lookup_lt_is_Some_2
              (ewm_kernel (Fin a) 1 (Fin 0 :: gain_of deltas)) (S i))
    as [g Hgi].
  { rewrite ewm_kernel_length. simpl. rewrite gain_of_length. lia. }
  destruct (lookup_lt_is_Some_2 avg_loss i) as [l Hli].
  { apply (f_equal length) in Hkl. rewrite ewm_kernel_length in Hkl.
    simpl in Hkl. rewrite loss_of_length in Hkl. lia. }
  destruct (Forall_lookup_1 _ _ _ _ Hg Hgi) as (g' & -> & Hg').
  destruct (Forall_lookup_1 _ _ _ _ Hl Hli) as (l' & -> & Hl').
  destruct (rsi_cell_zero g' l' Hg' Hl') as (q & Hq & Hz).
  exists q. split; [|done].
  assert (Hli' : (Fin (- 0) :: avg_loss) !! S i = Some (Fin l'))
    by exact Hli.
  by rewrite (rsi_stage_lookup _ _ _ (S i) _ _ Hi Hgi Hli'), Hq.
Qed.

Lemma calculate_rsi_always_falling_witness :
  ∃ rsi q, calculate_rsi
             (mkFrame 4 {[ "Close" := Fin <$> [9; 7; 4; 1]%Q ]}) 2 = Ok rsi
    ∧ rsi !! 3 = Some (Fin q) ∧ (q == 0)%Q.
Proof.
  destruct (calculate_rsi_always_falling
              (mkFrame 4 {[ "Close" := Fin <$> [9; 7; 4; 1]%Q ]})
              [9; 7; 4; 1]%Q 2) as (rsi & Hrsi & Hcells).
  - lia.
  - repeat constructor; by vm_compute.
  - reflexivity.
  - destruct (Hcells 3) as (q & Hq & H0); [lia|simpl; lia|].
    exists rsi, q. split; [exact Hrsi|]. split; [exact Hq|exact H0].
Defined.

(** ** [generate_signals]: what a signal means, what is left untouched *)

Lemma generate_signals_halves data sw rw os ob :
  generate_signals data sw rw os ob =
    if frame_empty data then Ok (mkFrame 0 ∅)
    else d ← ensure_indicators data sw rw; assign_signals d os ob.
Proof. reflexivity. Qed.

Lemma set_column_nrows df c s : nrows (set_column df c s) = nrows df.
Proof. reflexivity. Qed.

Lemma set_column_twice df c s1 s2 :
  set_column (set_column df c s1) c s2 = set_column df c s2.
Proof. unfold set_column. simpl. by rewrite insert_insert_eq. Qed.

Lemma ensure_indicators_inv data sw rw d :
  ensure_indicators data sw rw = Ok d →
  nrows d = nrows data
  ∧ is_Some (columns d !! "SMA") ∧ is_Some (columns d !! "RSI")
  ∧ (∀ c, c ≠ "SMA" → c ≠ "RSI" → columns d !! c = columns data !! c)
  ∧ (∀ s, columns data !! "SMA" = Some s → columns d !! "SMA" = Some s)
  ∧ (∀ s, columns data !! "RSI" = Some s → columns d !! "RSI" = Some s).
Proof.
  unfold ensure_indicators.
  set (data1 := if has_column data "SMA" then data
                else set_column data "SMA" (calculate_sma data sw)).
  assert (H1 : nrows data1 = nrows data
    ∧ is_Some (columns data1 !! "SMA")
    ∧ (∀ c, c ≠ "SMA" → columns data1 !! c = columns data !! c)
    ∧ (∀ s, columns data !! "SMA" = Some s → columns data1 !! "SMA" = Some s)).
  { subst data1. destruct (has_column data "SMA") eqn:Hh.
    - apply bool_decide_eq_true in Hh. by split_and!.
    - apply bool_decide_eq_false in Hh. split_and!; [done| | |].
      + rewrite set_column_lookup. by rewrite decide_True.
      + intros c Hc. rewrite set_column_lookup. by rewrite decide_False.
      + intros s Hs. destruct Hh. by rewrite Hs. }
  clearbody data1. destruct H1 as (Hn & Hsma & Hother & Hkeep).
  destruct (has_column data1 "RSI") eqn:Hh.
  - apply bool_decide_eq_true in Hh. intros [= <-]. split_and!; try done.
    + intros c Hc _. by apply Hother.
    + intros s Hs. by rewrite Hother.
  - apply bool_decide_eq_false in Hh.
    destruct (calculate_rsi data1 rw) as [r|e]; simpl; [|done].
    intros [= <-]. split_and!; try done.
    + rewrite set_column_lookup. by rewrite decide_False.
    + rewrite set_column_lookup. by rewrite decide_True.
    + intros c Hc1 Hc2. rewrite set_column_lookup, decide_False by done.
      by apply Hother.
    + intros s Hs. rewrite set_column_lookup, decide_False by done.
      by apply Hkeep.
    + intros s Hs. destruct Hh. rewrite Hother by done. by rewrite Hs.
Qed.

(** Writing the Signal column first overwrites whatever Signal column the
    frame came with. *)
Lemma assign_signals_overwrite d x os ob :
  assign_signals (set_column d "Signal" x) os ob = assign_signals d os ob.
Proof.
  unfold assign_signals. by rewrite set_column_twice, set_column_nrows.
Qed.

Lemma assign_signals_inv d os ob out :
  assign_signals d os ob = Ok out →
  ∃ sma rsi,
    columns d !! "SMA" = Some sma ∧ columns d !! "RSI" = Some rsi
    ∧ ((forallb isna sma || forallb isna rsi = true
        ∧ out = set_column d "Signal" (replicate (nrows d) (of_Z 0)))
       ∨ (forallb isna sma || forallb isna rsi = false
          ∧ ∃ close, columns d !! "Close" = Some close
              ∧ out = set_column d "Signal" (signal_rows os ob close sma rsi))).
Proof.
  unfold assign_signals, column.
  rewrite !set_column_lookup, !decide_False by done.
  destruct (columns d !! "SMA") as [sma|]; simpl; [|done].
  destruct (columns d !! "RSI") as [rsi|]; simpl; [|done].
  exists sma, rsi. split_and!; try done.
  destruct (forallb isna sma || forallb isna rsi).
  - left. by simplify_eq.
  - right. split; [done|].
    destruct (columns d !! "Close") as [close|]; simpl in *; [|done].
    exists close. split; [done|]. rewrite set_column_twice in H. by simplify_eq.
Qed.

Lemma fltb_not_nan x y : fltb x y = true → isna x = false ∧ isna y = false.
Proof. by destruct x, y. Qed.

Lemma fltb_asym x y : fltb x y = true → fltb y x = false.
Proof.
  destruct x as [a| | |], y as [b| | |]; simpl; try done.
  destruct (a ?= b)%Q eqn:Hab; try done. intros _.
  apply Qlt_alt in Hab. destruct (b ?= a)%Q eqn:Hba; try done.
  apply Qlt_alt in Hba. lra.
Qed.

Lemma signal_cell_buy os ob c s r :
  signal_cell os ob c s r = of_Z 1
  ↔ fgtb c s = true ∧ fltb r (of_Z os) = true.
Proof.
  unfold signal_cell, fgtb, notna. split.
  - repeat case_match; try done; intros _;
      repeat match goal with
             | H : _ && _ = true |- _ => apply andb_true_iff in H as [? ?]
             end; done.
  - intros [Hc Hr].
    destruct (fltb_not_nan _ _ Hc) as [-> _].
    destruct (fltb_not_nan _ _ Hr) as [-> _].
    rewrite Hc, Hr, (fltb_asym _ _ Hc). done.
Qed.

Lemma signal_cell_sell os ob c s r :
  signal_cell os ob c s r = of_Z (-1)
  ↔ fltb c s = true ∧ fgtb r (of_Z ob) = true.
Proof.
  unfold signal_cell, fgtb, notna. split.
  - repeat case_match; try done; intros _;
      repeat match goal with
             | H : _ && _ = true |- _ => apply andb_true_iff in H as [? ?]
             end; done.
  - intros [Hc Hr].
    destruct (fltb_not_nan _ _ Hc) as [_ ->].
    destruct (fltb_not_nan _ _ Hr) as [_ ->].
    by rewrite Hc, Hr.
Qed.

Lemma forallb_isna_lookup s i v :
  forallb isna s = true → s !! i = Some v → v = NaN.
Proof.
  intros Hall Hv. rewrite forallb_forall in Hall.
  assert (Hin : In v s).
  { apply list_elem_of_In, list_elem_of_lookup. eauto. }
  specialize (Hall v Hin). by destruct v.
Qed.

Lemma ensure_indicators_wf data sw rw d :
  frame_wf data → ensure_indicators data sw rw = Ok d → frame_wf d.
Proof.
  intros Hwf. unfold ensure_indicators.
  set (data1 := if has_column data "SMA" then data
                else set_column data "SMA" (calculate_sma data sw)).
  assert (Hwf1 : frame_wf data1).
  { subst data1. destruct (has_column data "SMA"); [done|].
    by apply set_column_wf. }
  clearbody data1. destruct (has_column data1 "RSI"); [by intros [= <-]|].
  destruct (calculate_rsi data1 rw) as [r|e]; simpl; [|done].
  intros [= <-]. by apply set_column_wf.
Qed.

Lemma calculate_rsi_returns data window :
  1 ≤ window → ∃ rsi, calculate_rsi data window = Ok rsi.
Proof.
  intros Hw. unfold calculate_rsi.
  destruct (columns data !! "Close") as [close|]; [|eauto].
  destruct (ewm_mean_window window Hw) as (a & _ & _ & Hewm).
  unfold rsi_filled, avg_gain_of, avg_loss_of. rewrite !Hewm. simpl. eauto.
Qed.

Lemma frame_with_column_not_empty df c s :
  nrows df ≠ 0 → columns df !! c = Some s → frame_empty df = false.
Proof.
  intros Hn Hc. unfold frame_empty. apply orb_false_iff. split.
  - by apply Nat.eqb_neq.
  - apply Nat.eqb_neq. intros Hsize%map_size_empty_inv.
    by rewrite Hsize, lookup_empty in Hc.
Qed.

Lemma frame_not_empty_rows df : frame_empty df = false → nrows df ≠ 0.
Proof.
  unfold frame_empty. intros [H _]%orb_false_iff. by apply Nat.eqb_neq.
Qed.

(** On a well-formed, non-empty frame a row is marked 1 exactly when its
    Close is above its SMA and its RSI below the oversold level, and -1
    exactly when its Close is below its SMA and its RSI above the overbought
    level. *)
Theorem generate_signals_meaning (data : DataFrame) (sma_window rsi_window : nat)
    (rsi_oversold rsi_overbought : Z) (out : DataFrame) :
  frame_wf data → frame_empty data = false →
  generate_signals data sma_window rsi_window rsi_oversold rsi_overbought
    = Ok out →
  ∃ sma rsi sig,
    columns out !! "SMA" = Some sma ∧ columns out !! "RSI" = Some rsi
    ∧ columns out !! "Signal" = Some sig
    ∧ ∀ i,
        (sig !! i = Some (of_Z 1) ↔
         ∃ close c s r,
           columns out !! "Close" = Some close ∧ close !! i = Some c
           ∧ sma !! i = Some s ∧ rsi !! i = Some r
           ∧ fgtb c s = true ∧ fltb r (of_Z rsi_oversold) = true)
        ∧ (sig !! i = Some (of_Z (-1)) ↔
           ∃ close c s r,
             columns out !! "Close" = Some close ∧ close !! i = Some c
             ∧ sma !! i = Some s ∧ rsi !! i = Some r
             ∧ fltb c s = true ∧ fgtb r (of_Z rsi_overbought) = true).
Proof.
  intros Hwf Hempty. rewrite generate_signals_halves, Hempty.
  destruct (ensure_indicators data sma_window rsi_window) as [d|e] eqn:Hd;
    simpl; [|done].
  pose proof (ensure_indicators_wf _ _ _ _ Hwf Hd) as Hwfd.
  intros (sma & rsi & Hsma & Hrsi & Hcase)%assign_signals_inv.
  exists sma, rsi.
  destruct Hcase as [[Hnan ->]|[Hnan (close & Hclose & ->)]].
  - exists (replicate (nrows d) (of_Z 0)).
    rewrite !set_column_lookup, !decide_False, decide_True by done.
    rewrite resize_all_alt by (by rewrite length_replicate).
    split_and!; try done. intros i.
    assert (Hzero : ∀ v, replicate (nrows d) (of_Z 0) !! i = Some v →
                         v = of_Z 0).
    { by intros v [-> _]%lookup_replicate. }
    apply orb_true_iff in Hnan.
    split; (split; [by intros ?%Hzero|]);
      intros (cl & c & s & r & _ & _ & Hs & Hr & Hcs & Hro);
      unfold fgtb in *;
      destruct Hnan as [Hn|Hn];
      first [ rewrite (forallb_isna_lookup _ _ _ Hn Hs) in Hcs; by destruct c
            | rewrite (forallb_isna_lookup _ _ _ Hn Hr) in Hro;
              by destruct (of_Z _) ].
  - exists (signal_rows rsi_oversold rsi_overbought close sma rsi).
    rewrite !set_column_lookup, !decide_False, decide_True by done.
    assert (Hl1 : length sma = nrows d) by eauto.
    assert (Hl2 : length rsi = nrows d) by eauto.
    assert (Hl3 : length close = nrows d) by eauto.
    rewrite resize_all_alt
      by (rewrite signal_rows_length; congruence).
    split_and!; try done. intros i. rewrite signal_rows_lookup, Hclose.
    split; split.
    + destruct (close !! i) as [c|] eqn:Hc; simpl; [|done].
      destruct (sma !! i) as [s|] eqn:Hs; simpl; [|done].
      destruct (rsi !! i) as [r|] eqn:Hr; simpl; [|done].
      intros [= Hcell]. apply signal_cell_buy in Hcell as [? ?].
      by exists close, c, s, r.
    + intros (cl & c & s & r & [= <-] & -> & -> & -> & Hcs & Hro). simpl.
      f_equal. by apply signal_cell_buy.
    + destruct (close !! i) as [c|] eqn:Hc; simpl; [|done].
      destruct (sma !! i) as [s|] eqn:Hs; simpl; [|done].
      destruct (rsi !! i) as [r|] eqn:Hr; simpl; [|done].
      intros [= Hcell]. apply signal_cell_sell in Hcell as [? ?].
      by exists close, c, s, r.
    + intros (cl & c & s & r & [= <-] & -> & -> & -> & Hcs & Hro). simpl.
      f_equal. by apply signal_cell_sell.
Qed.

Lemma generate_signals_meaning_witness :
  ∃ out sig, generate_signals signal_frame 2 2 30 70 = Ok out
    ∧ columns out !! "Signal" = Some sig
    ∧ sig !! 7 = Some (of_Z 0).
Proof.
  assert (Hwf : frame_wf signal_frame).
  { intros c s. unfold signal_frame. simpl.
    intros [<- <-]%lookup_singleton_Some. reflexivity. }
  destruct (generate_signals signal_frame 2 2 30 70) as [out|e] eqn:Hout;
    [|by vm_compute in Hout].
  destruct (generate_signals_meaning signal_frame 2 2 30 70 out Hwf
              ltac:(reflexivity) Hout) as (sma & rsi & sig & _ & _ & Hsig & _).
  exists out, sig. split; [done|]. split; [exact Hsig|].
  vm_compute in Hout. injection Hout as <-.
  vm_compute in Hsig. injection Hsig as <-. reflexivity.
Defined.

(** Running [generate_signals] on its own result changes nothing. *)
Theorem generate_signals_idempotent (data : DataFrame)
    (sma_window rsi_window : nat) (rsi_oversold rsi_overbought : Z)
    (out : DataFrame) :
  generate_signals data sma_window rsi_window rsi_oversold rsi_overbought
    = Ok out →
  generate_signals out sma_window rsi_window rsi_oversold rsi_overbought
    = Ok out.
Proof.
  rewrite !generate_signals_halves.
  destruct (frame_empty data) eqn:Hempty; [by intros [= <-]|].
  destruct (ensure_indicators data sma_window rsi_window) as [d|e] eqn:Hd;
    simpl; [|done].
  destruct (ensure_indicators_inv _ _ _ _ Hd)
    as (Hn & [sma Hsma] & [rsi Hrsi] & _).
  intros Hout.
  assert (∃ x, out = set_column d "Signal" x) as [x ->].
  { apply assign_signals_inv in Hout
      as (? & ? & _ & _ & [[_ ->]|[_ (? & _ & ->)]]); eauto. }
  rewrite (frame_with_column_not_empty _ "SMA" sma).
  2: { rewrite set_column_nrows, Hn. by apply frame_not_empty_rows. }
  2: { by rewrite set_column_lookup, decide_False. }
  assert (Hens : ensure_indicators (set_column d "Signal" x)
                   sma_window rsi_window = Ok (set_column d "Signal" x)).
  { assert (H1 : has_column (set_column d "Signal" x) "SMA" = true).
    { apply bool_decide_eq_true_2.
      rewrite set_column_lookup, decide_False by done. eauto. }
    assert (H2 : has_column (set_column d "Signal" x) "RSI" = true).
    { apply bool_decide_eq_true_2.
      rewrite set_column_lookup, decide_False by done. eauto. }
    unfold ensure_indicators. rewrite H1. cbv zeta. by rewrite H2. }
  rewrite Hens. simpl. by rewrite assign_signals_overwrite.
Qed.

Lemma generate_signals_idempotent_witness :
  ∃ out, generate_signals signal_frame 2 2 30 70 = Ok out
    ∧ generate_signals out 2 2 30 70 = Ok out.
Proof.
  destruct (generate_signals signal_frame 2 2 30 70) as [out|e] eqn:Hout;
    [|by vm_compute in Hout].
  exists out. split; [reflexivity|].
  exact (generate_signals_idempotent signal_frame 2 2 30 70 out Hout).
Defined.

(** [generate_signals] adds or replaces only the columns SMA, RSI and
    Signal: it keeps the number of rows, every other column, and an SMA or
    RSI column the frame already had. *)
Theorem generate_signals_frame (data : DataFrame) (sma_window rsi_window : nat)
    (rsi_oversold rsi_overbought : Z) (out : DataFrame) :
  frame_empty data = false →
  generate_signals data sma_window rsi_window rsi_oversold rsi_overbought
    = Ok out →
  nrows out = nrows data
  ∧ (∀ c, c ≠ "SMA" → c ≠ "RSI" → c ≠ "Signal" →
       columns out !! c = columns data !! c)
  ∧ (∀ s, columns data !! "SMA" = Some s → columns out !! "SMA" = Some s)
  ∧ (∀ s, columns data !! "RSI" = Some s → columns out !! "RSI" = Some s).
Proof.
  intros Hempty. rewrite generate_signals_halves, Hempty.
  destruct (ensure_indicators data sma_window rsi_window) as [d|e] eqn:Hd;
    simpl; [|done].
  destruct (ensure_indicators_inv _ _ _ _ Hd)
    as (Hn & _ & _ & Hother & Hsma & Hrsi).
  intros Hout.
  assert (∃ x, out = set_column d "Signal" x) as [x ->].
  { apply assign_signals_inv in Hout
      as (? & ? & _ & _ & [[_ ->]|[_ (? & _ & ->)]]); eauto. }
  split_and!; [done| | |].
  - intros c ? ? ?. rewrite set_column_lookup, decide_False by done.
    by apply Hother.
  - intros s Hs. rewrite set_column_lookup, decide_False by done. eauto.
  - intros s Hs. rewrite set_column_lookup, decide_False by done. eauto.
Qed.

Lemma generate_signals_frame_witness :
  ∃ out, generate_signals signal_frame 2 2 30 70 = Ok out
    ∧ nrows out = 8
    ∧ columns out !! "Close" = columns signal_frame !! "Close".
Proof.
  destruct (generate_signals signal_frame 2 2 30 70) as [out|e] eqn:Hout;
    [|by vm_compute in Hout].
  destruct (generate_signals_frame signal_frame 2 2 30 70 out
              ltac:(reflexivity) Hout) as (Hn & Hother & _).
  exists out. split; [reflexivity|]. split; [exact Hn|].
  by apply Hother.
Defined.

(** ** [app.py] *)

Lemma assign_signals_returns d os ob :
  is_Some (columns d !! "SMA") → is_Some (columns d !! "RSI") →
  is_Some (columns d !! "Close") →
  ∃ out, assign_signals d os ob = Ok out.
Proof.
  intros [sma Hsma] [rsi Hrsi] [close Hclose].
  unfold assign_signals, column.
  rewrite !set_column_lookup, !decide_False by done.
  rewrite Hsma, Hrsi, Hclose. simpl.
  destruct (forallb isna sma || forallb isna rsi); eauto.
Qed.

(** The dashboard computes SMA and RSI itself before it calls
    [generate_signals]; on a fetched frame without such columns the result
    is the one [generate_signals] gives on the fetched frame alone.  With a
    Close column and an RSI window of at least 1 (the slider offers 5 to
    30) the analysis raises nothing and yields a frame. *)
Theorem app_analysis_signals (data : DataFrame) (sma_window rsi_window : nat)
    (rsi_oversold rsi_overbought : Z) :
  frame_empty data = false →
  columns data !! "SMA" = None → columns data !! "RSI" = None →
  app_analysis data sma_window rsi_window rsi_oversold rsi_overbought =
    (out ← generate_signals data sma_window rsi_window
             rsi_oversold rsi_overbought;
     Ok (Some out))
  ∧ (is_Some (columns data !! "Close") → 1 ≤ rsi_window →
     ∃ out, app_analysis data sma_window rsi_window
              rsi_oversold rsi_overbought = Ok (Some out)
            ∧ nrows out = nrows data).
Proof.
  intros Hempty Hsma Hrsi.
  set (data1 := set_column data "SMA" (calculate_sma data sma_window)).
  assert (Hens : ensure_indicators data sma_window rsi_window =
                   (r ← calculate_rsi data1 rsi_window;
                    Ok (set_column data1 "RSI" r))).
  { assert (H1 : has_column data "SMA" = false).
    { apply bool_decide_eq_false_2. rewrite Hsma. apply is_Some_None. }
    assert (H2 : has_column data1 "RSI" = false).
    { apply bool_decide_eq_false_2. unfold data1.
      rewrite set_column_lookup, decide_False, Hrsi by done.
      apply is_Some_None. }
    unfold ensure_indicators. rewrite H1. cbv zeta. fold data1.
    by rewrite H2. }
  assert (Hin : ∀ r,
    generate_signals (set_column data1 "RSI" r) sma_window rsi_window
      rsi_oversold rsi_overbought =
    assign_signals (set_column data1 "RSI" r) rsi_oversold rsi_overbought).
  { intros r. rewrite generate_signals_halves.
    rewrite (frame_with_column_not_empty _ "RSI" (resize (nrows data1) NaN r)).
    2: { unfold data1. rewrite !set_column_nrows.
         by apply frame_not_empty_rows. }
    2: { by rewrite set_column_lookup, decide_True. }
    assert (H1 : has_column (set_column data1 "RSI" r) "SMA" = true).
    { apply bool_decide_eq_true_2. unfold data1.
      rewrite !set_column_lookup, decide_False, decide_True by done. eauto. }
    assert (H2 : has_column (set_column data1 "RSI" r) "RSI" = true).
    { apply bool_decide_eq_true_2.
      rewrite set_column_lookup, decide_True by done. eauto. }
    unfold ensure_indicators. rewrite H1. cbv zeta. by rewrite H2. }
  assert (Happ :
    app_analysis data sma_window rsi_window rsi_oversold rsi_overbought =
      (out ← generate_signals data sma_window rsi_window
               rsi_oversold rsi_overbought;
       Ok (Some out))).
  { unfold app_analysis. rewrite Hempty. fold data1.
    rewrite (generate_signals_halves data), Hempty, Hens.
    destruct (calculate_rsi data1 rsi_window) as [r|e]; simpl; [|done].
    by rewrite Hin. }
  split; [exact Happ|].
  intros [close Hclose] Hw. rewrite Happ.
  rewrite generate_signals_halves, Hempty, Hens.
  destruct (calculate_rsi_returns data1 rsi_window Hw) as [r ->]. simpl.
  destruct (assign_signals_returns (set_column data1 "RSI" r)
              rsi_oversold rsi_overbought) as [out Hout].
  - unfold data1.
    rewrite !set_column_lookup, decide_False, decide_True by done. eauto.
  - rewrite set_column_lookup, decide_True by done. eauto.
  - unfold data1.
    rewrite !set_column_lookup, !decide_False, Hclose by done. eauto.
  - rewrite Hout. simpl. exists out. split; [done|].
    apply assign_signals_inv in Hout
      as (? & ? & _ & _ & [[_ ->]|[_ (? & _ & ->)]]); reflexivity.
Qed.

Lemma app_analysis_signals_witness :
  ∃ out, app_analysis signal_frame 20 14 30 70 = Ok (Some out)
         ∧ nrows out = 8.
Proof.
  refine (proj2 (app_analysis_signals signal_frame 20 14 30 70 _ _ _) _ _).
  - reflexivity.
  - reflexivity.
  - reflexivity.
  - eexists. reflexivity.
  - lia.
Defined.

(** ** The deviation rule on missing data *)







(** ** [simulator.py]: warm-up, and the position as a count of trades *)

Lemma rolling_mean_warm_up window vals i v :
  rolling_mean window vals !! i = Some v → i + 1 < window → v = NaN.
Proof.
  unfold rolling_mean. cbv zeta. rewrite prep_values_length.
  intros Hv Hlt.
  assert (Hi : i < length vals).
  { apply lookup_lt_Some in Hv.
    by rewrite roll_mean_loop_length, length_seq in Hv. }
  apply (roll_mean_loop_nobs window (prep_values vals) (length vals) 0
           roll_init (or_introl eq_refl) i v Hv).
  left. simpl.
  pose proof (count_obs_le_length
                (slice (i + 1 - window) (i + 1) (prep_values vals))).
  rewrite slice_length in H by (rewrite prep_values_length; lia). lia.
Qed.

Lemma with_moving_avg_warm_up window rows i x :
  with_moving_avg window rows !! i = Some x → i + 1 < window → x.2 = NaN.
Proof.
  unfold with_moving_avg. intros Hx Hlt.
  apply lookup_zip_with_Some in Hx as (r & m & -> & _ & Hm).
  simpl. by eapply rolling_mean_warm_up.
Qed.

Lemma Simulator_simulate_warm_up name th rows :
  ∀ bal pos log k,
    Simulator.simulate name th rows bal pos = Ok log →
    (∀ j x, j < k → rows !! j = Some x → x.2 = NaN) →
    ∀ i r, i < k → log !! i = Some r →
      Simulator.side r = HOLD
      ∧ Simulator.reason r = Simulator.InsufficientData
      ∧ Simulator.quantity r = 0%Z
      ∧ Simulator.balance r = bal ∧ Simulator.position r = pos.
Proof.
  induction rows as [|[[index price] ma] rows IH];
    intros bal pos log k; simpl.
  { intros [= <-] _ i r _ Hr. by rewrite lookup_nil in Hr. }
  intros Hsim Hnan i r Hi Hr.
  assert (Hma : ma = NaN) by (apply (Hnan 0 (index, price, ma)); [lia|done]).
  subst ma. unfold Simulator.step in Hsim. simpl in Hsim.
  destruct (Simulator.simulate name th rows bal pos) as [logs|e] eqn:Hlogs;
    simpl in Hsim; [|done].
  injection Hsim as <-.
  destruct i as [|i]; simpl in Hr.
  - by injection Hr as <-.
  - apply (IH bal pos logs (k - 1) Hlogs) with (i := i); [|lia|done].
    intros j x Hj Hx. apply (Hnan (S j) x); [lia|done].
Qed.

(** [simulator.py] never trades before the moving average of 5 prices
    exists: the first four rows of any log are HOLD rows with the
    "insufficient data" reason, quantity 0, the initial balance and
    position 0, whatever the strategy and the prices. *)
Theorem Simulator_warm_up (file : config_file) (rows : list PriceRow)
    (name : string) (th : option dict) (b : fval)
    (log : list Simulator.LogRow) :
  Simulator.run_simulation file rows name th b = Some log →
  ∀ i r, i < 4 → log !! i = Some r →
    Simulator.side r = HOLD
    ∧ Simulator.reason r = Simulator.InsufficientData
    ∧ Simulator.quantity r = 0%Z
    ∧ Simulator.balance r = b ∧ Simulator.position r = 0%Z.
Proof.
  intros (cfg & _ & _ & Hsim & _)%Simulator_run_simulation_Some i r Hi Hr.
  apply (Simulator_simulate_warm_up _ _ _ _ _ _ 4 Hsim) with (i := i);
    [|done..].
  intros j x Hj Hx. apply (with_moving_avg_warm_up 5 rows j x Hx). lia.
Qed.

Lemma Simulator_warm_up_witness :
  ∃ log r, Simulator.run_simulation NoFile scenario_rows "simple" None
             (of_Z 1000) = Some log
    ∧ log !! 3 = Some r
    ∧ Simulator.side r = HOLD ∧ Simulator.balance r = of_Z 1000.
Proof.
  destruct (Simulator.run_simulation NoFile scenario_rows "simple" None
              (of_Z 1000)) as [log|] eqn:Hrun; [|by vm_compute in Hrun].
  destruct (log !! 3) as [r|] eqn:Hr.
  2: { vm_compute in Hrun. injection Hrun as <-. by vm_compute in Hr. }
  destruct (Simulator_warm_up NoFile scenario_rows "simple" None (of_Z 1000)
              log Hrun 3 r ltac:(lia) Hr) as (Hside & _ & _ & Hbal & _).
  exists log, r. split; [reflexivity|]. split; [exact Hr|].
  split; [exact Hside|exact Hbal].
Defined.

Lemma count_side_cons a r log :
  count_side a (r :: log) =
    (if decide (Simulator.side r = a) then 1 else 0) + count_side a log.
Proof.
  unfold count_side. rewrite filter_cons. by case_decide.
Qed.

Lemma Simulator_trace_position rows :
  ∀ bal pos log,
    Simulator.trace rows bal pos log →
    ∀ i r, log !! i = Some r →
      (Simulator.position r =
         pos + Z.of_nat (count_side BUY (take (S i) log))
             - Z.of_nat (count_side SELL (take (S i) log)))%Z
      ∧ (Simulator.position r = 0 ∨ Simulator.position r = 1)%Z.
Proof.
  induction rows as [|[[index price] ma] rows IH]; intros bal pos [|r0 log];
    simpl; try done.
  intros [Htr Htrace] i r Hr.
  assert (Hfirst : (Simulator.position r0 =
            pos + (if decide (Simulator.side r0 = BUY) then 1 else 0)
                - (if decide (Simulator.side r0 = SELL) then 1 else 0))%Z).
  { destruct Htr as (_ & _ & Hside).
    destruct (Simulator.side r0); repeat case_decide; try done;
      destruct_and!; lia. }
  destruct i as [|i]; simpl in Hr.
  - injection Hr as <-. rewrite take_0, !count_side_cons.
    unfold count_side. simpl. split; [|by destruct Htr as (_ & ? & _)].
    rewrite Hfirst. repeat case_decide; lia.
  - destruct (IH _ _ _ Htrace i r Hr) as [Hpos Hrange]. split; [|done].
    rewrite !count_side_cons, Hpos, Hfirst. repeat case_decide; lia.
Qed.

(** In every log of [simulator.py] the position recorded by a row is the
    number of BUY rows minus the number of SELL rows up to and including
    it, and it is 0 or 1: buys and sells alternate, starting with a buy,
    and at no point have more units been sold than bought. *)
Theorem Simulator_position_counts (file : config_file) (rows : list PriceRow)
    (name : string) (th : option dict) (b : fval)
    (log : list Simulator.LogRow) :
  Simulator.run_simulation file rows name th b = Some log →
  ∀ i r, log !! i = Some r →
    (Simulator.position r =
       Z.of_nat (count_side BUY (take (S i) log))
       - Z.of_nat (count_side SELL (take (S i) log)))%Z
    ∧ (Simulator.position r = 0 ∨ Simulator.position r = 1)%Z.
Proof.
  intros (cfg & _ & _ & Hsim & _)%Simulator_run_simulation_Some i r Hr.
  apply Simulator_simulate_trace in Hsim; [|by left].
  destruct (Simulator_trace_position _ _ _ _ Hsim i r Hr) as [Hpos Hrange].
  split; [|done]. rewrite Hpos. lia.
Qed.

Lemma Simulator_position_counts_witness :
  ∃ log r, Simulator.run_simulation NoFile scenario_rows "simple" None
             (of_Z 1000) = Some log
    ∧ log !! 5 = Some r
    ∧ count_side BUY log = 1 ∧ count_side SELL log = 1
    ∧ Simulator.position r = 0%Z.
Proof.
  destruct (Simulator.run_simulation NoFile scenario_rows "simple" None
              (of_Z 1000)) as [log|] eqn:Hrun; [|by vm_compute in Hrun].
  destruct (log !! 5) as [r|] eqn:Hr.
  2: { vm_compute in Hrun. injection Hrun as <-. by vm_compute in Hr. }
  destruct (Simulator_position_counts NoFile scenario_rows "simple" None
              (of_Z 1000) log Hrun 5 r Hr) as [Hpos _].
  exists log, r. split; [reflexivity|]. split; [exact Hr|].
  vm_compute in Hrun. injection Hrun as <-.
  vm_compute in Hr. injection Hr as <-.
  split; [by vm_compute|]. split; [by vm_compute|]. reflexivity.
Defined.


(** ** [strategy.py]: no trade is ever executed *)

Lemma Strategy_step_at_zero name th w bal index price ma r st :
  Strategy.step name th w bal 0 index price ma = Ok (r, st) →
  st = (bal, 0%Z)
  ∧ Strategy.side r = HOLD ∧ Strategy.quantity r = 0%Z
  ∧ Strategy.balance r = bal ∧ Strategy.position r = 0%Z.
Proof.
  unfold Strategy.step.
  match goal with
  | |- (?m ≫= _) = _ → _ => destruct m as [[a rsn]|e]
  end; simpl; [|done].
  destruct a; simpl; try done; by intros [= <- <-].
Qed.

Lemma Strategy_simulate_never_trades name th w rows :
  ∀ bal log,
    Strategy.simulate name th w rows bal 0 = Ok log →
    ∀ r, r ∈ log →
      Strategy.side r = HOLD ∧ Strategy.quantity r = 0%Z
      ∧ Strategy.balance r = bal ∧ Strategy.position r = 0%Z.
Proof.
  induction rows as [|[[index price] ma] rows IH]; intros bal log; simpl.
  { intros [= <-] r Hr. by apply elem_of_nil in Hr. }
  destruct (Strategy.step name th w bal 0 index price ma)
    as [[r0 st]|e] eqn:Hstep; simpl; [|done].
  destruct (Strategy_step_at_zero _ _ _ _ _ _ _ _ _ Hstep) as (-> & Hr0).
  destruct (Strategy.simulate name th w rows bal 0) as [logs|e] eqn:Hsim;
    simpl; [|done].
  intros [= <-] r [->|Hr]%elem_of_cons; [done|]. by eapply IH.
Qed.

(** [strategy.py] never executes a trade: a proposed BUY raises before the
    balance test and a SELL never finds a position, so every row of every
    log it returns is a HOLD of quantity 0 with the initial balance and
    position 0. *)
Theorem Strategy_never_trades (file : config_file) (rows : list PriceRow)
    (name : string) (params : option dict) (b : fval)
    (log : list Strategy.LogRow) :
  Strategy.run_simulation file rows name params b = Ok (Some log) →
  ∀ r, r ∈ log →
    Strategy.side r = HOLD ∧ Strategy.quantity r = 0%Z
    ∧ Strategy.balance r = b ∧ Strategy.position r = 0%Z.
Proof.
  intros [w Hsim]%Strategy_run_simulation_Some.
  by eapply Strategy_simulate_never_trades.
Qed.

Lemma Strategy_never_trades_witness :
  ∃ log, Strategy.run_simulation NoFile (take 4 scenario_rows) "simple"
           (Some scenario_params) (of_Z 1000) = Ok (Some log)
    ∧ ∀ r, r ∈ log → Strategy.side r = HOLD.
Proof.
  destruct (Strategy.run_simulation NoFile (take 4 scenario_rows) "simple"
              (Some scenario_params) (of_Z 1000)) as [[log|]|e] eqn:Hrun;
    [|by vm_compute in Hrun..].
  exists log. split; [reflexivity|]. intros r Hr.
  exact (proj1 (Strategy_never_trades NoFile (take 4 scenario_rows) "simple"
                  (Some scenario_params) (of_Z 1000) log Hrun r Hr)).
Defined.

Lemma strategy_thresholds_numeric cfg vb vs :
  cfg !! "buy" = Some vb → is_num vb →
  cfg !! "sell" = Some vs → is_num vs →
  numeric_thresholds (strategy_thresholds cfg).
Proof.
  intros Hb Hvb Hs Hvs. unfold strategy_thresholds, dict_get_none, dict_get.
  rewrite Hb, Hs. simpl. split; intros v.
  - rewrite lookup_insert_eq. by intros [= <-].
  - rewrite lookup_insert_ne, lookup_insert_eq by done. by intros [= <-].
Qed.










(** ** The order of the rows of the table *)

Lemma sorted_by_timestamp_unique (l1 : list PriceRow) :
  ∀ l2,
    StronglySorted ts_le l1 → StronglySorted ts_le l2 →
    l1 ≡ₚ l2 → NoDup l1.*1 → l1 = l2.
Proof.
  induction l1 as [|x l1 IH]; intros l2 S1 S2 P N.
  { by apply Permutation_nil in P. }
  destruct l2 as [|y l2].
  { symmetry in P. by apply Permutation_nil in P. }
  apply StronglySorted_inv in S1 as [S1 F1].
  apply StronglySorted_inv in S2 as [S2 F2].
  rewrite fmap_cons in N. apply NoDup_cons in N as [Nx N].
  assert (x = y) as <-.
  { assert (Hy : y ∈ x :: l1) by (rewrite P; left).
    assert (Hx : x ∈ y :: l2) by (rewrite <- P; left).
    apply elem_of_cons in Hy as [->|Hy]; [done|].
    apply elem_of_cons in Hx as [->|Hx]; [done|].
    rewrite Forall_forall in F1, F2.
    specialize (F1 y Hy). specialize (F2 x Hx). unfold ts_le in *.
    destruct Nx. replace x.1 with y.1 by lia.
    apply list_elem_of_fmap. by exists y. }
  f_equal. apply IH; try done. by apply Permutation_cons_inv in P.
Qed.

Lemma sort_index_row_order rows rows' :
  NoDup rows.*1 → rows ≡ₚ rows' → sort_index rows = sort_index rows'.
Proof.
  intros Hnd Hperm. apply sorted_by_timestamp_unique.
  - apply StronglySorted_merge_sort; apply _.
  - apply StronglySorted_merge_sort; apply _.
  - by rewrite !sort_index_Permutation.
  - by rewrite sort_index_Permutation.
Qed.

Lemma strictly_ascending_NoDup (rows : list PriceRow) :
  StronglySorted (λ r1 r2 : PriceRow, (r1.1 < r2.1)%Z) rows → NoDup rows.*1.
Proof.
  induction 1 as [|x rows _ IH Hall]; [constructor|].
  rewrite fmap_cons. apply NoDup_cons. split; [|done].
  intros (y & Hxy & Hy)%list_elem_of_fmap.
  rewrite Forall_forall in Hall. specialize (Hall y Hy). simpl in Hall. lia.
Qed.

Lemma strictly_ascending_sorted (rows : list PriceRow) :
  StronglySorted (λ r1 r2 : PriceRow, (r1.1 < r2.1)%Z) rows →
  StronglySorted ts_le rows.
Proof.
  induction 1 as [|x rows _ IH Hall]; constructor; [done|].
  eapply Forall_impl; [exact Hall|]. intros y. unfold ts_le. lia.
Qed.

(** The result of both simulators does not depend on the order in which
    the table lists its rows, as long as no timestamp occurs twice; and a
    table already in strictly ascending order is iterated as it is. *)
Theorem run_simulation_row_order (file : config_file)
    (rows rows' : list PriceRow) (name : string) (params : option dict)
    (b : fval) :
  NoDup rows.*1 → rows ≡ₚ rows' →
  Simulator.run_simulation file rows name params b =
    Simulator.run_simulation file rows' name params b
  ∧ Strategy.run_simulation file rows name params b =
      Strategy.run_simulation file rows' name params b
  ∧ (StronglySorted (λ r1 r2 : PriceRow, (r1.1 < r2.1)%Z) rows →
     sort_index rows = rows).
Proof.
  intros Hnd Hperm.
  pose proof (sort_index_row_order rows rows' Hnd Hperm) as Hsort.
  assert (Hma : ∀ w, with_moving_avg w rows = with_moving_avg w rows').
  { intros w. unfold with_moving_avg. by rewrite Hsort. }
  split_and!.
  - unfold Simulator.run_simulation. by rewrite Hma.
  - unfold Strategy.run_simulation.
    destruct (negb _); [done|].
    destruct (Strategy.rolling_window _) as [w|e]; simpl; [|done].
    by rewrite Hma.
  - intros Hasc. symmetry. apply sorted_by_timestamp_unique.
    + by apply strictly_ascending_sorted.
    + apply StronglySorted_merge_sort; apply _.
    + by rewrite sort_index_Permutation.
    + done.
Qed.

Lemma run_simulation_row_order_witness :
  Simulator.run_simulation NoFile (reverse scenario_rows) "simple" None
    (of_Z 1000)
  = Simulator.run_simulation NoFile scenario_rows "simple" None (of_Z 1000).
Proof.
  symmetry.
  refine (proj1 (run_simulation_row_order NoFile scenario_rows
                   (reverse scenario_rows) "simple" None (of_Z 1000) _ _)).
  - apply NoDup_ListNoDup. repeat constructor; simpl; intuition discriminate.
  - by rewrite reverse_Permutation.
Defined.

(** ** [simulator.py]: parameters and cash *)

Lemma truthy_lookup (d : dict) k v : d !! k = Some v → truthy d = true.
Proof.
  intros Hk. unfold truthy. apply negb_true_iff, Nat.eqb_neq.
  intros Hsize%map_size_empty_inv. by rewrite Hsize, lookup_empty in Hk.
Qed.

(** When no thresholds are passed and the configuration file exists but
    has no section for the strategy, [simulator.py] uses no default - not
    even the ones it defines for ["simple"] - and returns "no result" for
    every table; the same for an empty dictionary of thresholds.
    [strategy.py] always finds parameters for ["simple"]. *)
Theorem Simulator_no_defaults_beside_file (config : gmap string dict)
    (rows : list PriceRow) (name : string) (b : fval) :
  config !! name = None →
  Simulator.run_simulation (Config config) rows name None b = None
  ∧ (∀ file, Simulator.run_simulation file rows name (Some ∅) b = None)
  ∧ (∀ file params,
       truthy (Strategy.load_strategy_config_for_sim file "simple" params)
         = true).
Proof.
  intros Hsec. split_and!.
  - unfold Simulator.run_simulation, Simulator.load_config_for_simulator.
    by rewrite Hsec.
  - done.
  - intros file params. unfold Strategy.load_strategy_config_for_sim.
    assert (Hd : default ∅ (Strategy.default_strategy_defaults !! "simple")
                   !! "buy" = Some (VFloat (Fin 0.02))) by done.
    assert (Hfile : truthy
              match file with
              | NoFile =>
                  default ∅ (Strategy.default_strategy_defaults !! "simple")
              | Config config0 =>
                  default ∅ (config0 !! "simple")
                  ∪ default ∅ (Strategy.default_strategy_defaults !! "simple")
              | BadFile =>
                  default ∅ (Strategy.default_strategy_defaults !! "simple")
              end = true).
    { destruct file as [| |config0]; try by eapply truthy_lookup.
      destruct (default ∅ (config0 !! "simple") !! "buy") as [v|] eqn:Hv.
      - eapply truthy_lookup. by apply lookup_union_Some_l.
      - eapply truthy_lookup. rewrite lookup_union_r by done. exact Hd. }
    destruct params as [d|]; [|done].
    by destruct (truthy d) eqn:Hd'.
Qed.

Lemma Simulator_no_defaults_beside_file_witness :
  Simulator.run_simulation (Config ∅) scenario_rows "simple" None (of_Z 1000)
    = None.
Proof.
  apply (Simulator_no_defaults_beside_file ∅ scenario_rows "simple"
           (of_Z 1000)).
  apply lookup_empty.
Defined.

Lemma Simulator_trace_replay rows :
  ∀ bal pos log,
    Simulator.trace rows bal pos log →
    ∀ i r, log !! i = Some r →
      Simulator.balance r =
        replay_cash bal
          (take (S i) (zip (Simulator.side <$> log) rows.*1.*2)).
Proof.
  induction rows as [|[[index price] ma] rows IH]; intros bal pos [|r0 log];
    simpl; try done.
  intros [Htr Htrace] i r Hr.
  assert (Hfirst : Simulator.balance r0 =
                     replay_cash bal [(Simulator.side r0, price)]).
  { destruct Htr as (_ & _ & Hside). unfold replay_cash. simpl.
    destruct (Simulator.side r0).
    - by destruct Hside as (_ & _ & -> & _).
    - by destruct Hside as (_ & -> & _).
    - by destruct Hside as (-> & _). }
  destruct i as [|i]; simpl in Hr.
  - injection Hr as <-. by rewrite take_0.
  - rewrite (IH _ _ _ Htrace i r Hr), Hfirst. reflexivity.
Qed.

(** Cash accounting in [simulator.py]: the balance a row records is the
    initial balance after the BUY and SELL rows up to and including it,
    each at the price of its row and in time order - [price * 1] taken off
    for a BUY and added for a SELL, with the loop's own arithmetic.  The
    balance moves through logged trades only, whatever the prices are. *)
Theorem Simulator_balance_accounting (file : config_file)
    (rows : list PriceRow) (name : string) (th : option dict)
    (b : fval) (log : list Simulator.LogRow) :
  Simulator.run_simulation file rows name th b = Some log →
  ∀ i r, log !! i = Some r →
    Simulator.balance r =
      replay_cash b
        (take (S i) (zip (Simulator.side <$> log) (sort_index rows).*2)).
Proof.
  intros (cfg & _ & _ & Hsim & _)%Simulator_run_simulation_Some i r Hr.
  apply Simulator_simulate_trace in Hsim; [|by left].
  rewrite <- (with_moving_avg_rows 5 rows).
  by apply (Simulator_trace_replay _ _ _ _ Hsim).
Qed.

Lemma Simulator_balance_accounting_witness :
  ∃ log r, Simulator.run_simulation NoFile scenario_rows "simple" None
             (of_Z 1000) = Some log
    ∧ log !! 5 = Some r
    ∧ Simulator.balance r =
        replay_cash (of_Z 1000) [(BUY, of_Z 92); (SELL, of_Z 150)]
    ∧ Simulator.balance r = of_Z 1058.
Proof.
  destruct (Simulator.run_simulation NoFile scenario_rows "simple" None
              (of_Z 1000)) as [log|] eqn:Hrun; [|by vm_compute in Hrun].
  destruct (log !! 5) as [r|] eqn:Hr.
  2: { vm_compute in Hrun. injection Hrun as <-. by vm_compute in Hr. }
  pose proof (Simulator_balance_accounting NoFile scenario_rows "simple" None
                (of_Z 1000) log Hrun 5 r Hr) as Hbal.
  exists log, r. split; [reflexivity|]. split; [exact Hr|].
  rewrite Hbal. vm_compute in Hrun. injection Hrun as <-.
  split; reflexivity.
Defined.

(** ** No look-ahead: the oscillator *)

Lemma diff_take n vals : diff (take n vals) = take n (diff vals).
Proof.
  destruct vals as [|x tl]; [by destruct n|].
  destruct n as [|n]; [done|].
  change (NaN :: zip_with fsub (take n tl) (take (S n) (x :: tl))
          = NaN :: take n (zip_with fsub tl (x :: tl))).
  f_equal. rewrite zip_with_take.
  rewrite !zip_with_take_r'; [done| |];
    rewrite length_take; simpl; lia.
Qed.

Lemma ewm_loop_take alpha minp vals :
  ∀ n weighted old_wt k,
    ewm_loop alpha minp weighted old_wt k (take n vals)
    = take n (ewm_loop alpha minp weighted old_wt k vals).
Proof.
  induction vals as [|x vals IH]; intros [|n] weighted old_wt k; try done.
  change (take (S n) (x :: vals)) with (x :: take n vals).
  rewrite !ewm_loop_cons. cbv zeta. simpl. f_equal. apply IH.
Qed.

Lemma ewm_kernel_take alpha minp vals n :
  ewm_kernel alpha minp (take n vals) = take n (ewm_kernel alpha minp vals).
Proof.
  destruct vals as [|x vals], n as [|n]; simpl; try done.
  f_equal. apply ewm_loop_take.
Qed.

Lemma ewm_mean_take com vals n s :
  ewm_mean com vals = Ok s → ewm_mean com (take n vals) = Ok (take n s).
Proof.
  unfold ewm_mean. destruct (com <? 0)%Z; [done|]. intros [= <-]. f_equal.
  by rewrite prep_values_take, ewm_kernel_take.
Qed.

Lemma rsi_filled_take close window n s :
  rsi_filled close window = Ok s →
  rsi_filled (take n close) window = Ok (take n s).
Proof.
  unfold rsi_filled, avg_gain_of, avg_loss_of.
  destruct (ewm_mean _ (gain_of (diff close))) as [g|e] eqn:Hg;
    simpl; [|done].
  destruct (ewm_mean _ (loss_of (diff close))) as [l|e] eqn:Hl;
    simpl; [|done].
  intros [= <-].
  rewrite diff_take.
  assert (Hgt : gain_of (take n (diff close)) = take n (gain_of (diff close))).
  { unfold gain_of, where_. by rewrite firstn_map. }
  assert (Hlt : loss_of (take n (diff close)) = take n (loss_of (diff close))).
  { unfold loss_of, where_. by rewrite !firstn_map. }
  rewrite Hgt, Hlt.
  rewrite (ewm_mean_take _ _ n _ Hg). simpl.
  rewrite (ewm_mean_take _ _ n _ Hl). simpl.
  f_equal. unfold fillna. by rewrite !firstn_map, zip_with_take.
Qed.

Lemma mask_head_take w n s : mask_head w (take n s) = take n (mask_head w s).
Proof.
  apply list_eq. intros i.
  destruct (decide (i < n `min` length s)) as [Hi|Hi].
  - rewrite mask_head_lookup by (rewrite length_take; lia).
    rewrite (lookup_take_lt (mask_head w s)) by lia.
    rewrite mask_head_lookup by lia.
    case_decide; [done|]. apply lookup_take_lt. lia.
  - rewrite !lookup_ge_None_2; [done| |].
    + rewrite length_take, mask_head_length. lia.
    + rewrite mask_head_length, length_take. lia.
Qed.

(** [calculate_rsi] has no look-ahead: on the first [n] closing prices
    alone it returns the first [n] cells of what it returns on the whole
    series, whatever the cells are (missing and infinite prices included).
    The oscillator of a day never changes when later days are added. *)
Theorem calculate_rsi_no_look_ahead (data data' : DataFrame) (close : Series)
    (window n : nat) (rsi : Series) :
  columns data !! "Close" = Some close →
  columns data' !! "Close" = Some (take n close) →
  calculate_rsi data window = Ok rsi →
  calculate_rsi data' window = Ok (take n rsi).
Proof.
  intros Hc Hc'. unfold calculate_rsi. rewrite Hc, Hc'.
  destruct (rsi_filled close window) as [s|e] eqn:Hs; simpl; [|done].
  intros [= <-]. rewrite (rsi_filled_take _ _ n _ Hs). simpl.
  by rewrite mask_head_take.
Qed.

Lemma calculate_rsi_no_look_ahead_witness :
  ∃ rsi,
    calculate_rsi
      (mkFrame 4 {[ "Close" := [Fin 10; Fin 12; Fin 11; Fin 15] ]}) 2 = Ok rsi
    ∧ calculate_rsi
        (mkFrame 3 {[ "Close" := [Fin 10; Fin 12; Fin 11] ]}) 2
      = Ok (take 3 rsi).
Proof.
  destruct (calculate_rsi
              (mkFrame 4 {[ "Close" := [Fin 10; Fin 12; Fin 11; Fin 15] ]}) 2)
    as [rsi|e] eqn:Hrsi; [|by vm_compute in Hrsi].
  exists rsi. split; [reflexivity|].
  apply (calculate_rsi_no_look_ahead
           (mkFrame 4 {[ "Close" := [Fin 10; Fin 12; Fin 11; Fin 15] ]})
           (mkFrame 3 {[ "Close" := [Fin 10; Fin 12; Fin 11] ]})
           [Fin 10; Fin 12; Fin 11; Fin 15] 2 3 rsi).
  - by vm_compute.
  - by vm_compute.
  - exact Hrsi.
Defined.

(** ** No look-ahead: the simulators *)

Lemma strictly_ascending_take (rows : list PriceRow) n :
  StronglySorted (λ r1 r2 : PriceRow, (r1.1 < r2.1)%Z) rows →
  StronglySorted (λ r1 r2 : PriceRow, (r1.1 < r2.1)%Z) (take n rows).
Proof.
  intros Hs. revert n.
  induction Hs as [|x rows _ IH Hall]; intros [|n]; simpl;
    try constructor; [apply IH|by apply Forall_take].
Qed.

Lemma sort_index_of_ascending (rows : list PriceRow) :
  StronglySorted (λ r1 r2 : PriceRow, (r1.1 < r2.1)%Z) rows →
  sort_index rows = rows.
Proof.
  intros Hasc. symmetry. apply sorted_by_timestamp_unique.
  - by apply strictly_ascending_sorted.
  - apply StronglySorted_merge_sort; apply _.
  - by rewrite sort_index_Permutation.
  - by apply strictly_ascending_NoDup.
Qed.

Lemma with_moving_avg_take window (rows : list PriceRow) n :
  StronglySorted (λ r1 r2 : PriceRow, (r1.1 < r2.1)%Z) rows →
  with_moving_avg window (take n rows)
  = take n (with_moving_avg window rows).
Proof.
  intros Hasc. unfold with_moving_avg.
  rewrite (sort_index_of_ascending rows Hasc).
  rewrite (sort_index_of_ascending (take n rows))
    by by apply strictly_ascending_take.
  rewrite (zip_with_take pair n rows). f_equal.
  by rewrite fmap_take, rolling_mean_take.
Qed.

Lemma Simulator_simulate_take name th rows :
  ∀ bal pos log n,
    Simulator.simulate name th rows bal pos = Ok log →
    Simulator.simulate name th (take n rows) bal pos = Ok (take n log).
Proof.
  induction rows as [|[[index price] ma] rows IH]; intros bal pos log n;
    simpl.
  - intros [= <-]. by rewrite !take_nil.
  - destruct n as [|n].
    { by rewrite !take_0. }
    simpl.
    destruct (Simulator.step name th bal pos index price ma)
      as [[r [bal' pos']]|e] eqn:Hstep; simpl; [|done].
    destruct (Simulator.simulate name th rows bal' pos') as [logs|e] eqn:Hsim;
      simpl; [|done].
    intros [= <-]. by rewrite (IH _ _ _ n Hsim).
Qed.

Lemma Strategy_simulate_take name th w rows :
  ∀ bal pos log n,
    Strategy.simulate name th w rows bal pos = Ok log →
    Strategy.simulate name th w (take n rows) bal pos = Ok (take n log).
Proof.
  induction rows as [|[[index price] ma] rows IH]; intros bal pos log n;
    simpl.
  - intros [= <-]. by rewrite !take_nil.
  - destruct n as [|n].
    { by rewrite !take_0. }
    simpl.
    destruct (Strategy.step name th w bal pos index price ma)
      as [[r [bal' pos']]|e] eqn:Hstep; simpl; [|done].
    destruct (Strategy.simulate name th w rows bal' pos') as [logs|e]
      eqn:Hsim; simpl; [|done].
    intros [= <-]. by rewrite (IH _ _ _ n Hsim).
Qed.

(** Neither simulator looks ahead: on a table in strictly ascending
    timestamp order, a run over the first [n] rows alone ([n] at least 1)
    returns the first [n] rows of the log of the run over the whole table.
    No decision, balance or position depends on a later price. *)
Theorem run_simulation_no_look_ahead (file : config_file)
    (rows : list PriceRow) (name : string) (params : option dict)
    (b : fval) (n : nat) :
  StronglySorted (λ r1 r2 : PriceRow, (r1.1 < r2.1)%Z) rows →
  0 < n →
  (∀ log, Simulator.run_simulation file rows name params b = Some log →
     Simulator.run_simulation file (take n rows) name params b
     = Some (take n log))
  ∧ (∀ log, Strategy.run_simulation file rows name params b = Ok (Some log) →
       Strategy.run_simulation file (take n rows) name params b
       = Ok (Some (take n log))).
Proof.
  intros Hasc Hn. destruct n as [|n]; [lia|]. split; intros log.
  - unfold Simulator.run_simulation.
    destruct (negb _); [done|].
    rewrite (with_moving_avg_take _ _ (S n) Hasc).
    destruct (Simulator.simulate _ _ (with_moving_avg 5 rows) b 0)
      as [l|e] eqn:Hs; [|done].
    rewrite (Simulator_simulate_take _ _ _ _ _ _ (S n) Hs).
    destruct l as [|r l]; [done|]. by intros [= <-].
  - unfold Strategy.run_simulation.
    destruct (negb _); [done|].
    destruct (Strategy.rolling_window _) as [w|e]; simpl; [|done].
    rewrite (with_moving_avg_take _ _ (S n) Hasc).
    destruct (Strategy.simulate _ _ w (with_moving_avg w rows) b 0)
      as [l|e] eqn:Hs; simpl; [|done].
    rewrite (Strategy_simulate_take _ _ _ _ _ _ _ (S n) Hs). simpl.
    destruct l as [|r l]; [done|]. by intros [= <-].
Qed.

Lemma run_simulation_no_look_ahead_witness :
  ∃ log,
    Simulator.run_simulation NoFile scenario_rows "simple" None (of_Z 1000)
    = Some log
    ∧ Simulator.run_simulation NoFile (take 5 scenario_rows) "simple" None
        (of_Z 1000)
      = Some (take 5 log).
Proof.
  destruct (Simulator.run_simulation NoFile scenario_rows "simple" None
              (of_Z 1000)) as [log|] eqn:Hrun; [|by vm_compute in Hrun].
  exists log. split; [reflexivity|].
  refine (proj1 (run_simulation_no_look_ahead NoFile scenario_rows "simple"
                   None (of_Z 1000) 5 _ _) log Hrun).
  - repeat constructor; simpl; lia.
  - lia.
Defined.

(** ** The two simulators side by side *)

Lemma simple_strategy_restricted price ma cfg a :
  simple_strategy price ma (strategy_thresholds cfg) = Ok a →
  simple_strategy price ma cfg = Ok a.
Proof.
  unfold simple_strategy, strategy_thresholds, dict_get_none, dict_get.
  rewrite lookup_insert_eq, lookup_insert_ne, lookup_insert_eq by done.
  destruct (cfg !! "buy") as [vb|]; cbn [default from_option id];
    [|done].
  destruct (py_num vb) as [b|e]; [|done].
  cbn [mbind res_bind].
  destruct (fltb price _); [done|].
  by destruct (cfg !! "sell") as [vs|].
Qed.

Lemma steps_agree name th w bal index price ma r st :
  Strategy.step name th w bal 0 index price ma = Ok (r, st) →
  st = (bal, 0%Z)
  ∧ ∃ r', Simulator.step name th bal 0 index price ma = Ok (r', (bal, 0%Z))
          ∧ same_row r r'.
Proof.
  unfold Strategy.step, Simulator.step, same_row.
  fold (strategy_thresholds th).
  destruct (isna ma), (String.eqb name "simple"); simpl.
  - intros [= <- <-]. split; [done|]. eexists. split; [done|]. by simpl.
  - intros [= <- <-]. split; [done|]. eexists. split; [done|]. by simpl.
  - destruct (simple_strategy price ma (strategy_thresholds th))
      as [a|e] eqn:Hs; simpl; [|done].
    rewrite (simple_strategy_restricted _ _ _ _ Hs). simpl.
    destruct a; simpl; try done.
    + intros [= <- <-]. split; [done|]. eexists. split; [done|]. by simpl.
    + intros [= <- <-]. split; [done|]. eexists. split; [done|]. by simpl.
  - intros [= <- <-]. split; [done|]. eexists. split; [done|]. by simpl.
Qed.

Lemma simulate_agree name th w rows :
  ∀ bal log,
    Strategy.simulate name th w rows bal 0 = Ok log →
    ∃ log', Simulator.simulate name th rows bal 0 = Ok log'
            ∧ Forall2 same_row log log'.
Proof.
  induction rows as [|[[index price] ma] rows IH]; intros bal log; simpl.
  { intros [= <-]. exists []. by split. }
  destruct (Strategy.step name th w bal 0 index price ma)
    as [[r st]|e] eqn:Hstep; simpl; [|done].
  destruct (steps_agree _ _ _ _ _ _ _ _ _ Hstep) as (-> & r' & Hstep' & Hrow).
  destruct (Strategy.simulate name th w rows bal 0) as [logs|e] eqn:Hsim;
    simpl; [|done].
  intros [= <-].
  destruct (IH _ _ Hsim) as (logs' & Hsim' & Hrows).
  exists (r' :: logs'). rewrite Hstep'. simpl. rewrite Hsim'. simpl.
  split; [done|]. by constructor.
Qed.

(** The two implementations agree wherever [strategy.py] gets through:
    when its [run_simulation] returns a log, with the five-row window of
    [simulator.py], then [simulator.py] called with the parameters that
    [strategy.py] resolved returns a log with the same rows - timestamp,
    action, quantity, balance, position and portfolio value - and only the
    reason texts may differ. *)
Theorem simulators_agree (file : config_file) (rows : list PriceRow)
    (name : string) (params : option dict) (b : fval)
    (log : list Strategy.LogRow) :
  let cfg := Strategy.load_strategy_config_for_sim file name params in
  Strategy.rolling_window
    (dict_get cfg "window_size" (VInt Strategy.DEFAULT_WINDOW_SIZE)) = Ok 5 →
  Strategy.run_simulation file rows name params b = Ok (Some log) →
  ∃ log', Simulator.run_simulation file rows name (Some cfg) b = Some log'
          ∧ Forall2 same_row log log'.
Proof.
  intros cfg Hw. unfold Strategy.run_simulation, Simulator.run_simulation.
  fold cfg. destruct (truthy cfg); simpl; [|done].
  rewrite Hw. simpl.
  destruct (Strategy.simulate name cfg 5 (with_moving_avg 5 rows) b 0)
    as [l|e] eqn:Hs; simpl; [|done].
  destruct (simulate_agree _ _ _ _ _ _ Hs) as (log' & Hs' & Hrows).
  rewrite Hs'.
  destruct l as [|r l]; [done|]. intros [= <-].
  destruct log' as [|r' log']; [by apply Forall2_cons_nil_inv in Hrows|].
  by exists (r' :: log').
Qed.

Lemma simulators_agree_witness :
  ∃ log log',
    Strategy.run_simulation NoFile
      (prices_at [100; 100; 100; 100; 150]%Z) "simple" None (of_Z 1000)
    = Ok (Some log)
    ∧ Simulator.run_simulation NoFile
        (prices_at [100; 100; 100; 100; 150]%Z) "simple"
        (Some (Strategy.load_strategy_config_for_sim NoFile "simple" None))
        (of_Z 1000)
      = Some log'
    ∧ Forall2 same_row log log'.
Proof.
  destruct (Strategy.run_simulation NoFile
              (prices_at [100; 100; 100; 100; 150]%Z) "simple" None
              (of_Z 1000)) as [[log|]|e] eqn:Hrun;
    [|by vm_compute in Hrun..].
  destruct (simulators_agree NoFile (prices_at [100; 100; 100; 100; 150]%Z)
              "simple" None (of_Z 1000) log ltac:(by vm_compute) Hrun)
    as (log' & Hrun' & Hrows).
  exists log, log'. split; [reflexivity|]. split; [exact Hrun'|exact Hrows].
Defined.
